(** * hikcamera: capture-session lifecycle and frame conversion

    A shallow embedding of [src/hikcamera.py], [src/utils.py] and
    [src/config.py].  Python objects with mutable attributes become records
    threaded through a state-and-exception monad; the vendor SDK is an
    oracle ([Driver]) whose every call is appended, with the value it
    returned, to a process-wide trace. *)

From Stdlib Require Import ZArith QArith List String Ascii Bool Lia.
From stdpp Require Import base gmap strings list.
Close Scope Q_scope.
Open Scope string_scope.
Open Scope list_scope.
Open Scope Z_scope.

(* ================================================================== *)
(** ** Exceptions and the method monad *)

(** The places where the source raises [HikCameraError]; the native status
    is kept where the message formats it as [ret[0x..]]. *)
Inductive HikError :=
| SdkInitFailed (ret : Z)
| EnumDevicesFailed (ret : Z)
| NoDeviceFound
| IndexOutOfRange (idx : Z) (nDeviceNum : nat)
| CreateHandleFailed (ret : Z)
| OpenDeviceFailed (ret : Z)
| PayloadSizeFailed (ret : Z)
| StartGrabbingFailed (ret : Z)
| StopGrabbingFailed (ret : Z)
| NotStreaming
| GetImageFailed (ret : Z)
| WrongTriggerMode
| TriggerFailed (ret : Z)
| NullBuffer
| UnsupportedPixelFormat (name : string)
| SetValueFailed (key : string) (ret : Z)
| GetValueFailed (key : string) (ret : Z)
| InvalidTriggerMode (mode : string).

Inductive Exn :=
| HikCameraError (e : HikError)
| ValueError (msg : string)
| AttributeError
| NameError
| cv2_error (msg : string).

Inductive Result (A : Type) :=
| Ok (a : A)
| Raise (e : Exn).
Arguments Ok {A} a.
Arguments Raise {A} e.

Definition M (S A : Type) : Type := S -> Result A * S.

Definition pure {S A} (a : A) : M S A := fun s => (Ok a, s).
Definition raise {S A} (e : Exn) : M S A := fun s => (Raise e, s).
Definition bind {S A B} (m : M S A) (k : A -> M S B) : M S B :=
  fun s => match m s with
           | (Ok a, s') => k a s'
           | (Raise e, s') => (Raise e, s')
           end.
Definition gets {S A} (f : S -> A) : M S A := fun s => (Ok (f s), s).
Definition modify {S} (f : S -> S) : M S unit := fun s => (Ok tt, f s).
Definition lift_result {S A} (r : Result A) : M S A := fun s => (r, s).

(** [try: body finally: cleanup] *)
Definition try_finally {S A B} (body : M S A) (cleanup : M S B) : M S A :=
  fun s => match body s with
           | (r, s') => match cleanup s' with
                        | (Ok _, s'') => (r, s'')
                        | (Raise e, s'') => (Raise e, s'')
                        end
           end.

(** [try: body except: pass] *)
Definition try_except_pass {S A} (body : M S A) : M S unit :=
  fun s => match body s with
           | (_, s') => (Ok tt, s')
           end.

Declare Scope hik_scope.
Delimit Scope hik_scope with hik.
Notation "'let*' x := m 'in' k" := (bind m (fun x => k))
  (at level 10, x pattern, m at level 100, k at level 200) : hik_scope.
Notation "m ;; k" := (bind m (fun _ => k))
  (at level 100, k at level 200, right associativity) : hik_scope.
Open Scope hik_scope.

(* ================================================================== *)
(** ** Vendor constants

    [MvCameraControl_class] belongs to the vendor SDK and is imported
    from the MVS installation; the values below are the ones its
    [PixelType_header.py], [CameraParams_const.py] and
    [MvCameraControl_header.py] define. *)

Definition PixelType_Gvsp_Undefined : Z := -1.
Definition PixelType_Gvsp_Mono8 : Z := 0x01080001.
Definition PixelType_Gvsp_Mono10 : Z := 0x01100003.
Definition PixelType_Gvsp_Mono10_Packed : Z := 0x010C0004.
Definition PixelType_Gvsp_Mono12 : Z := 0x01100005.
Definition PixelType_Gvsp_Mono12_Packed : Z := 0x010C0006.
Definition PixelType_Gvsp_Mono16 : Z := 0x01100007.
Definition PixelType_Gvsp_BayerGR8 : Z := 0x01080008.
Definition PixelType_Gvsp_BayerRG8 : Z := 0x01080009.
Definition PixelType_Gvsp_BayerGB8 : Z := 0x0108000A.
Definition PixelType_Gvsp_BayerBG8 : Z := 0x0108000B.
Definition PixelType_Gvsp_BayerGR10 : Z := 0x0110000C.
Definition PixelType_Gvsp_BayerRG10 : Z := 0x0110000D.
Definition PixelType_Gvsp_BayerGB10 : Z := 0x0110000E.
Definition PixelType_Gvsp_BayerBG10 : Z := 0x0110000F.
Definition PixelType_Gvsp_BayerGR12 : Z := 0x01100010.
Definition PixelType_Gvsp_BayerRG12 : Z := 0x01100011.
Definition PixelType_Gvsp_BayerGB12 : Z := 0x01100012.
Definition PixelType_Gvsp_BayerBG12 : Z := 0x01100013.
Definition PixelType_Gvsp_BayerGR10_Packed : Z := 0x010C0026.
Definition PixelType_Gvsp_BayerRG10_Packed : Z := 0x010C0027.
Definition PixelType_Gvsp_BayerGB10_Packed : Z := 0x010C0028.
Definition PixelType_Gvsp_BayerBG10_Packed : Z := 0x010C0029.
Definition PixelType_Gvsp_BayerGR12_Packed : Z := 0x010C002A.
Definition PixelType_Gvsp_BayerRG12_Packed : Z := 0x010C002B.
Definition PixelType_Gvsp_BayerGB12_Packed : Z := 0x010C002C.
Definition PixelType_Gvsp_BayerBG12_Packed : Z := 0x010C002D.
Definition PixelType_Gvsp_RGB8_Packed : Z := 0x02180014.
Definition PixelType_Gvsp_BGR8_Packed : Z := 0x02180015.
Definition PixelType_Gvsp_RGBA8_Packed : Z := 0x02200016.
Definition PixelType_Gvsp_BGRA8_Packed : Z := 0x02200017.
Definition PixelType_Gvsp_YUV422_Packed : Z := 0x0210001F.
Definition PixelType_Gvsp_YUV422_YUYV_Packed : Z := 0x02100032.

(** The vendor encodes the storage size of one pixel in bits 16..23 of the
    format code ([MV_PIXEL_BIT_COUNT]); a frame the driver delivers has
    [nFrameLen = nWidth * nHeight * bits / 8]. *)
Definition pixel_bit_count (pixel_type : Z) : Z :=
  Z.land (Z.shiftr pixel_type 16) 0xFF.

Definition MV_GIGE_DEVICE : Z := 0x1.
Definition MV_USB_DEVICE : Z := 0x4.
Definition MV_GENTL_GIGE_DEVICE : Z := 0x40.
Definition MV_GENTL_CAMERALINK_DEVICE : Z := 0x80.
Definition MV_GENTL_CXP_DEVICE : Z := 0x100.
Definition MV_GENTL_XOF_DEVICE : Z := 0x200.

Definition MV_ACCESS_Exclusive : Z := 1.
Definition MV_TRIGGER_MODE_OFF : Z := 0.
Definition MV_TRIGGER_MODE_ON : Z := 1.
Definition MV_TRIGGER_SOURCE_SOFTWARE : Z := 7.

(* ================================================================== *)
(** ** utils.py: pixel-format classifier *)

(** The four Bayer colour patterns, for stating which constants are the
    variants of one pattern. *)
Inductive BayerPattern := GR | RG | GB | BG.

Definition bayer_variants (p : BayerPattern) : list Z :=
  match p with
  | GR => [PixelType_Gvsp_BayerGR8; PixelType_Gvsp_BayerGR10;
           PixelType_Gvsp_BayerGR12; PixelType_Gvsp_BayerGR10_Packed;
           PixelType_Gvsp_BayerGR12_Packed]
  | RG => [PixelType_Gvsp_BayerRG8; PixelType_Gvsp_BayerRG10;
           PixelType_Gvsp_BayerRG12; PixelType_Gvsp_BayerRG10_Packed;
           PixelType_Gvsp_BayerRG12_Packed]
  | GB => [PixelType_Gvsp_BayerGB8; PixelType_Gvsp_BayerGB10;
           PixelType_Gvsp_BayerGB12; PixelType_Gvsp_BayerGB10_Packed;
           PixelType_Gvsp_BayerGB12_Packed]
  | BG => [PixelType_Gvsp_BayerBG8; PixelType_Gvsp_BayerBG10;
           PixelType_Gvsp_BayerBG12; PixelType_Gvsp_BayerBG10_Packed;
           PixelType_Gvsp_BayerBG12_Packed]
  end.

Definition pattern_code (p : BayerPattern) : Z :=
  match p with GR => 0 | RG => 1 | GB => 2 | BG => 3 end.

Definition BAYER_TO_COLOR_CODE_items : list (Z * Z) :=
  [ (PixelType_Gvsp_BayerGR8, 0);
    (PixelType_Gvsp_BayerRG8, 1);
    (PixelType_Gvsp_BayerGB8, 2);
    (PixelType_Gvsp_BayerBG8, 3);
    (PixelType_Gvsp_BayerGR10, 0);
    (PixelType_Gvsp_BayerRG10, 1);
    (PixelType_Gvsp_BayerGB10, 2);
    (PixelType_Gvsp_BayerBG10, 3);
    (PixelType_Gvsp_BayerGR12, 0);
    (PixelType_Gvsp_BayerRG12, 1);
    (PixelType_Gvsp_BayerGB12, 2);
    (PixelType_Gvsp_BayerBG12, 3);
    (PixelType_Gvsp_BayerGR10_Packed, 0);
    (PixelType_Gvsp_BayerRG10_Packed, 1);
    (PixelType_Gvsp_BayerGB10_Packed, 2);
    (PixelType_Gvsp_BayerBG10_Packed, 3);
    (PixelType_Gvsp_BayerGR12_Packed, 0);
    (PixelType_Gvsp_BayerRG12_Packed, 1);
    (PixelType_Gvsp_BayerGB12_Packed, 2);
    (PixelType_Gvsp_BayerBG12_Packed, 3) ].

Definition BAYER_TO_COLOR_CODE : gmap Z Z :=
  list_to_map BAYER_TO_COLOR_CODE_items.

(** [f"{n:x}"] *)
Definition hex_digit (n : N) : ascii :=
  match String.get (N.to_nat n) "0123456789abcdef" with
  | Some c => c
  | None => "0"%char
  end.

Fixpoint hex_digits (fuel : nat) (n : N) (acc : string) : string :=
  match fuel with
  | O => acc
  | S fuel' =>
      let acc' := String (hex_digit (n mod 16)%N) acc in
      if (n / 16 =? 0)%N then acc' else hex_digits fuel' (n / 16)%N acc'
  end.

Definition format_x (z : Z) : string :=
  match z with
  | Z0 => "0"
  | Zpos p => hex_digits (Pos.size_nat p) (Npos p) ""
  | Zneg p => "-" +:+ hex_digits (Pos.size_nat p) (Npos p) ""
  end.

Definition format_names : gmap Z string :=
  list_to_map
  [ (PixelType_Gvsp_Undefined, "Undefined");
    (PixelType_Gvsp_Mono8, "Mono8");
    (PixelType_Gvsp_Mono10, "Mono10");
    (PixelType_Gvsp_Mono10_Packed, "Mono10_Packed");
    (PixelType_Gvsp_Mono12, "Mono12");
    (PixelType_Gvsp_Mono12_Packed, "Mono12_Packed");
    (PixelType_Gvsp_Mono16, "Mono16");
    (PixelType_Gvsp_BayerGR8, "BayerGR8");
    (PixelType_Gvsp_BayerRG8, "BayerRG8");
    (PixelType_Gvsp_BayerGB8, "BayerGB8");
    (PixelType_Gvsp_BayerBG8, "BayerBG8");
    (PixelType_Gvsp_BayerGR10, "BayerGR10");
    (PixelType_Gvsp_BayerRG10, "BayerRG10");
    (PixelType_Gvsp_BayerGB10, "BayerGB10");
    (PixelType_Gvsp_BayerBG10, "BayerBG10");
    (PixelType_Gvsp_BayerGR10_Packed, "BayerGR10_Packed");
    (PixelType_Gvsp_BayerRG10_Packed, "BayerRG10_Packed");
    (PixelType_Gvsp_BayerGB10_Packed, "BayerGB10_Packed");
    (PixelType_Gvsp_BayerBG10_Packed, "BayerBG10_Packed");
    (PixelType_Gvsp_BayerGR12, "BayerGR12");
    (PixelType_Gvsp_BayerRG12, "BayerRG12");
    (PixelType_Gvsp_BayerGB12, "BayerGB12");
    (PixelType_Gvsp_BayerBG12, "BayerBG12");
    (PixelType_Gvsp_BayerGR12_Packed, "BayerGR12_Packed");
    (PixelType_Gvsp_BayerRG12_Packed, "BayerRG12_Packed");
    (PixelType_Gvsp_BayerGB12_Packed, "BayerGB12_Packed");
    (PixelType_Gvsp_BayerBG12_Packed, "BayerBG12_Packed");
    (PixelType_Gvsp_RGB8_Packed, "RGB8_Packed");
    (PixelType_Gvsp_BGR8_Packed, "BGR8_Packed");
    (PixelType_Gvsp_RGBA8_Packed, "RGBA8_Packed");
    (PixelType_Gvsp_BGRA8_Packed, "BGRA8_Packed");
    (PixelType_Gvsp_YUV422_Packed, "YUV422_Packed");
    (PixelType_Gvsp_YUV422_YUYV_Packed, "YUV422_YUYV_Packed") ].

Definition get_pixel_format_name (pixel_type : Z) : string :=
  default ("Unknown(0x" +:+ format_x pixel_type +:+ ")")
          (format_names !! pixel_type).

Definition is_bayer_format (pixel_type : Z) : bool :=
  bool_decide (is_Some (BAYER_TO_COLOR_CODE !! pixel_type)).

Definition mono_formats : list Z :=
  [ PixelType_Gvsp_Mono8;
    PixelType_Gvsp_Mono10;
    PixelType_Gvsp_Mono10_Packed;
    PixelType_Gvsp_Mono12;
    PixelType_Gvsp_Mono12_Packed;
    PixelType_Gvsp_Mono16 ].

Definition is_mono_format (pixel_type : Z) : bool :=
  bool_decide (pixel_type ∈ mono_formats).

Definition rgb_formats : list Z :=
  [ PixelType_Gvsp_RGB8_Packed; PixelType_Gvsp_BGR8_Packed;
    PixelType_Gvsp_RGBA8_Packed; PixelType_Gvsp_BGRA8_Packed ].

Definition is_rgb_format (pixel_type : Z) : bool :=
  bool_decide (pixel_type ∈ rgb_formats).

(** *** Device descriptors *)

(** The part of [MV_CC_DEVICE_INFO] the session reads.  The character
    arrays of the transport-specific [SpecialInfo] member in use are kept
    as the strings [decoding_char] yields from them. *)
Record MV_CC_DEVICE_INFO := {
  nTLayerType : Z;
  chModelName : string;
  chSerialNumber : string;
  nCurrentIp : Z
}.

Definition get_device_type_string (n_tlayer_type : Z) : string :=
  if bool_decide (n_tlayer_type = MV_GIGE_DEVICE
                  \/ n_tlayer_type = MV_GENTL_GIGE_DEVICE) then "GigE"
  else if bool_decide (n_tlayer_type = MV_USB_DEVICE) then "USB3 Vision"
  else if bool_decide (n_tlayer_type = MV_GENTL_CAMERALINK_DEVICE) then "CameraLink"
  else if bool_decide (n_tlayer_type = MV_GENTL_CXP_DEVICE) then "CoaXPress"
  else if bool_decide (n_tlayer_type = MV_GENTL_XOF_DEVICE) then "XoF"
  else "Unknown".

Record DeviceInfo := {
  info_index : Z;
  info_type : string;
  info_model_name : string;
  info_serial_number : string;
  info_ip_address : option (Z * Z * Z * Z)
}.

Definition get_device_info (mvcc_dev_info : MV_CC_DEVICE_INFO) : DeviceInfo :=
  let t := nTLayerType mvcc_dev_info in
  let device_type := get_device_type_string t in
  let info model_name serial_number ip_address :=
    {| info_index := -1; info_type := device_type;
       info_model_name := model_name; info_serial_number := serial_number;
       info_ip_address := ip_address |} in
  if bool_decide (t = MV_GIGE_DEVICE \/ t = MV_GENTL_GIGE_DEVICE) then
    let ip := nCurrentIp mvcc_dev_info in
    info (chModelName mvcc_dev_info) ""
         (Some (Z.land (Z.shiftr ip 24) 0xFF, Z.land (Z.shiftr ip 16) 0xFF,
                Z.land (Z.shiftr ip 8) 0xFF, Z.land ip 0xFF))
  else if bool_decide (t = MV_USB_DEVICE) then
    info (chModelName mvcc_dev_info) (chSerialNumber mvcc_dev_info) None
  else if bool_decide (t = MV_GENTL_CAMERALINK_DEVICE) then
    info (chModelName mvcc_dev_info) (chSerialNumber mvcc_dev_info) None
  else if bool_decide (t = MV_GENTL_CXP_DEVICE) then
    info (chModelName mvcc_dev_info) (chSerialNumber mvcc_dev_info) None
  else if bool_decide (t = MV_GENTL_XOF_DEVICE) then
    info (chModelName mvcc_dev_info) (chSerialNumber mvcc_dev_info) None
  else
    info "" "" None.

(* ================================================================== *)
(** ** config.py *)

Module CameraParams.
Record t := mk {
  width : Z;
  height : Z;
  exposure : Q;
  gain : Q;
  fps : Q;
  pixel_format : string;
  trigger_mode : string;
  offset_x : Z;
  offset_y : Z
}.
End CameraParams.

Module HikCameraConfig.
Record t := mk {
  camera_index : Z;
  trigger_mode : string;
  width : Z;
  height : Z;
  exposure : Z;
  gain : Q;
  fps : Z;
  timeout : Z
}.

(** The dataclass defaults. *)
Definition default : t := mk 0 "continuous" 1280 720 10000 (inject_Z 0) 30 1000.

Definition __post_init__ (self : t) : Result unit :=
  if negb (bool_decide (trigger_mode self = "continuous"
                        \/ trigger_mode self = "trigger"))
  then Raise (ValueError "Invalid trigger_mode")
  else if camera_index self <? 0
  then Raise (ValueError "camera_index must be non-negative")
  else if (width self <=? 0) || (height self <=? 0)
  then Raise (ValueError "width and height must be positive")
  else if exposure self <? 0
  then Raise (ValueError "exposure must be non-negative")
  else if Qnum (gain self) <? 0
  then Raise (ValueError "gain must be non-negative")
  else if fps self <=? 0
  then Raise (ValueError "fps must be positive")
  else if timeout self <=? 0
  then Raise (ValueError "timeout must be positive")
  else Ok tt.

(** [HikCameraConfig(...)]: the generated [__init__] stores the fields and
    runs [__post_init__]. *)
Definition new (camera_index : Z) (trigger_mode : string) (width height : Z)
    (exposure : Z) (gain : Q) (fps timeout : Z) : Result t :=
  let self := mk camera_index trigger_mode width height exposure gain fps timeout in
  match __post_init__ self with
  | Ok _ => Ok self
  | Raise e => Raise e
  end.

(** Attribute assignment on the dataclass instance: no validation runs. *)
Definition set_trigger_mode (v : string) (c : t) : t :=
  mk (camera_index c) v (width c) (height c) (exposure c) (gain c) (fps c) (timeout c).
Definition set_width (v : Z) (c : t) : t :=
  mk (camera_index c) (trigger_mode c) v (height c) (exposure c) (gain c) (fps c) (timeout c).
Definition set_height (v : Z) (c : t) : t :=
  mk (camera_index c) (trigger_mode c) (width c) v (exposure c) (gain c) (fps c) (timeout c).
Definition set_exposure (v : Z) (c : t) : t :=
  mk (camera_index c) (trigger_mode c) (width c) (height c) v (gain c) (fps c) (timeout c).
Definition set_gain (v : Q) (c : t) : t :=
  mk (camera_index c) (trigger_mode c) (width c) (height c) (exposure c) v (fps c) (timeout c).
Definition set_fps (v : Z) (c : t) : t :=
  mk (camera_index c) (trigger_mode c) (width c) (height c) (exposure c) (gain c) v (timeout c).
End HikCameraConfig.

(** [int(x)] on a float: truncation towards zero. *)
Definition int_of_float (x : Q) : Z := Z.quot (Qnum x) (Zpos (Qden x)).

(* ================================================================== *)
(** ** The native layer *)

(** A frame as [MV_CC_GetImageBuffer] hands it out: the bytes readable at
    [pBufAddr] and the [stFrameInfo] fields the converter reads.  [None]
    is the Python value [None], which the tests [None == pBufAddr] and
    [pBufAddr is None] of the code look for; a ctypes pointer field does not
    read as [None], not even for a null address, so the properties of
    delivered frames are stated for frames with [Some] bytes; reading
    through a null address is outside the model. *)
Record MV_FRAME_OUT := {
  pBufAddr : option (list Byte.byte);
  nWidth : nat;
  nHeight : nat;
  enPixelType : Z;
  nFrameLen : nat
}.

Inductive Call :=
| MV_CC_Initialize
| MV_CC_Finalize
| MV_CC_EnumDevices (tlayerType : Z)
| MV_CC_CreateHandle (dev : MV_CC_DEVICE_INFO)
| MV_CC_OpenDevice (access : Z) (switchover : Z)
| MV_CC_CloseDevice
| MV_CC_DestroyHandle
| MV_CC_GetOptimalPacketSize
| MV_CC_SetIntValue (key : string) (v : Z)
| MV_CC_SetEnumValue (key : string) (v : Z)
| MV_CC_SetFloatValue (key : string) (v : Q)
| MV_CC_GetIntValue (key : string)
| MV_CC_GetFloatValue (key : string)
| MV_CC_SetCommandValue (key : string)
| MV_CC_StartGrabbing
| MV_CC_StopGrabbing
| MV_CC_GetImageBuffer (timeout : Z)
| MV_CC_FreeImageBuffer.

(** A native call together with the integer it returned. *)
Abbreviation Event := (Call * Z)%type.

(** The SDK and the devices behind it.  Every answer may depend on the
    whole history of calls made so far, so any sequence of answers a real
    device can give is some [Driver]. *)
Record Driver := {
  status_of : list Event -> Call -> Z;
  deviceList_of : list Event -> list MV_CC_DEVICE_INFO;
  nCurValue_of : list Event -> string -> Z;
  fCurValue_of : list Event -> string -> Q;
  frame_of : list Event -> MV_FRAME_OUT
}.

(** What [print] wrote. *)
Inductive Output :=
| GainWarning (ret : Z).

(** Module-level state of [hikcamera.py] and the observable effects of the
    process. *)
Record Process := {
  _SDK_INITIALIZED : bool;
  _SDK_INIT_COUNT : Z;
  trace : list Event;
  stdout : list Output
}.

Definition fresh_process : Process :=
  {| _SDK_INITIALIZED := false; _SDK_INIT_COUNT := 0; trace := []; stdout := [] |}.

Inductive MvCamera := MvCamera_object.

(** The attributes of one [HikCamera] instance. *)
Record HikCamera := {
  _cam : option MvCamera;
  _config : HikCameraConfig.t;
  _is_running : bool;
  _device_info : option DeviceInfo;
  _pixel_type : option Z;
  _nPayloadSize : Z
}.

Record State := {
  proc : Process;
  self : HikCamera
}.

Definition log_event (ev : Event) (p : Process) : Process :=
  {| _SDK_INITIALIZED := _SDK_INITIALIZED p; _SDK_INIT_COUNT := _SDK_INIT_COUNT p;
     trace := trace p ++ [ev]; stdout := stdout p |}.
Definition print (o : Output) (p : Process) : Process :=
  {| _SDK_INITIALIZED := _SDK_INITIALIZED p; _SDK_INIT_COUNT := _SDK_INIT_COUNT p;
     trace := trace p; stdout := stdout p ++ [o] |}.
Definition set_SDK_INITIALIZED (b : bool) (p : Process) : Process :=
  {| _SDK_INITIALIZED := b; _SDK_INIT_COUNT := _SDK_INIT_COUNT p;
     trace := trace p; stdout := stdout p |}.
Definition set_SDK_INIT_COUNT (n : Z) (p : Process) : Process :=
  {| _SDK_INITIALIZED := _SDK_INITIALIZED p; _SDK_INIT_COUNT := n;
     trace := trace p; stdout := stdout p |}.

Definition set_cam (v : option MvCamera) (c : HikCamera) : HikCamera :=
  {| _cam := v; _config := _config c; _is_running := _is_running c;
     _device_info := _device_info c; _pixel_type := _pixel_type c;
     _nPayloadSize := _nPayloadSize c |}.
Definition set_config (v : HikCameraConfig.t) (c : HikCamera) : HikCamera :=
  {| _cam := _cam c; _config := v; _is_running := _is_running c;
     _device_info := _device_info c; _pixel_type := _pixel_type c;
     _nPayloadSize := _nPayloadSize c |}.
Definition set_is_running (v : bool) (c : HikCamera) : HikCamera :=
  {| _cam := _cam c; _config := _config c; _is_running := v;
     _device_info := _device_info c; _pixel_type := _pixel_type c;
     _nPayloadSize := _nPayloadSize c |}.
Definition set_device_info (v : option DeviceInfo) (c : HikCamera) : HikCamera :=
  {| _cam := _cam c; _config := _config c; _is_running := _is_running c;
     _device_info := v; _pixel_type := _pixel_type c;
     _nPayloadSize := _nPayloadSize c |}.
Definition set_pixel_type (v : option Z) (c : HikCamera) : HikCamera :=
  {| _cam := _cam c; _config := _config c; _is_running := _is_running c;
     _device_info := _device_info c; _pixel_type := v;
     _nPayloadSize := _nPayloadSize c |}.
Definition set_nPayloadSize (v : Z) (c : HikCamera) : HikCamera :=
  {| _cam := _cam c; _config := _config c; _is_running := _is_running c;
     _device_info := _device_info c; _pixel_type := _pixel_type c;
     _nPayloadSize := v |}.

Definition on_proc (f : Process -> Process) (st : State) : State :=
  {| proc := f (proc st); self := self st |}.
Definition on_self (f : HikCamera -> HikCamera) (st : State) : State :=
  {| proc := proc st; self := f (self st) |}.

(* ================================================================== *)
(** ** numpy and OpenCV, as far as the converter uses them *)

Record ndarray := {
  shape : list nat;
  data : list Byte.byte
}.

(** [copy_bytes]: the first [length] bytes readable at [source]. *)
Definition copy_bytes (source : list Byte.byte) (length : nat) : list Byte.byte :=
  take length source.

Definition np_frombuffer (b : list Byte.byte) : ndarray :=
  {| shape := [length b]; data := b |}.

(** [a.reshape(newshape)] raises [ValueError] unless the sizes agree. *)
Definition reshape (a : ndarray) (newshape : list nat) : Result ndarray :=
  if (foldr Nat.mul 1 newshape =? length (data a))%nat
  then Ok {| shape := newshape; data := data a |}
  else Raise (ValueError "cannot reshape array").

Inductive ColorConversionCode :=
| COLOR_RGB2BGR
| COLOR_RGBA2BGR
| COLOR_BGRA2BGR
| COLOR_GRAY2BGR
| COLOR_BAYER_GR2BGR
| COLOR_BAYER_RG2BGR
| COLOR_BAYER_GB2BGR
| COLOR_BAYER_BG2BGR.

Fixpoint rgb2bgr (d : list Byte.byte) : list Byte.byte :=
  match d with
  | r :: g :: b :: rest => b :: g :: r :: rgb2bgr rest
  | _ => []
  end.

Fixpoint rgba2bgr (d : list Byte.byte) : list Byte.byte :=
  match d with
  | r :: g :: b :: _ :: rest => b :: g :: r :: rgba2bgr rest
  | _ => []
  end.

Fixpoint bgra2bgr (d : list Byte.byte) : list Byte.byte :=
  match d with
  | b :: g :: r :: _ :: rest => b :: g :: r :: bgra2bgr rest
  | _ => []
  end.

Fixpoint gray2bgr (d : list Byte.byte) : list Byte.byte :=
  match d with
  | y :: rest => y :: y :: y :: gray2bgr rest
  | [] => []
  end.

(** Number of channels a conversion expects of its input. *)
Definition source_channels (code : ColorConversionCode) : nat :=
  match code with
  | COLOR_RGB2BGR => 3
  | COLOR_RGBA2BGR | COLOR_BGRA2BGR => 4
  | _ => 1
  end.

(** Rows, columns and channels of an image array. *)
Definition image_dims (s : list nat) : option (nat * nat * nat) :=
  match s with
  | [h; w] => Some (h, w, 1%nat)
  | [h; w; c] => Some (h, w, c)
  | _ => None
  end.

Section OpenCV.
(** Bayer interpolation is OpenCV's pixel arithmetic; only the shape of
    its result is fixed here. *)
Variable demosaicing :
  ColorConversionCode -> nat -> nat -> list Byte.byte -> list Byte.byte.

Definition convert_pixels (code : ColorConversionCode) (h w : nat)
    (d : list Byte.byte) : list Byte.byte :=
  match code with
  | COLOR_RGB2BGR => rgb2bgr d
  | COLOR_RGBA2BGR => rgba2bgr d
  | COLOR_BGRA2BGR => bgra2bgr d
  | COLOR_GRAY2BGR => gray2bgr d
  | _ => demosaicing code h w d
  end.

(** [cv2.cvtColor(src, code)] for the eight codes above: an empty source
    or a wrong channel count is a [cv2.error]; the result has three
    channels. *)
Definition cvtColor (src : ndarray) (code : ColorConversionCode) : Result ndarray :=
  match image_dims (shape src) with
  | None => Raise (cv2_error "unsupported array shape")
  | Some (h, w, scn) =>
      if (h * w * scn =? 0)%nat then Raise (cv2_error "!_src.empty()")
      else if (scn =? source_channels code)%nat
      then Ok {| shape := [h; w; 3%nat];
                 data := convert_pixels code h w (data src) |}
      else Raise (cv2_error "Invalid number of channels in input image")
  end.
End OpenCV.

(* ================================================================== *)
(** ** hikcamera.py *)

Section Session.
Variable drv : Driver.
Variable demosaicing :
  ColorConversionCode -> nat -> nat -> list Byte.byte -> list Byte.byte.

(** A call into the SDK: ask the driver, record the event. *)
Definition native_call (c : Call) : M Process Z :=
  fun p => let r := status_of drv (trace p) c in (Ok r, log_event (c, r) p).

Definition in_process {A} (m : M Process A) : M State A :=
  fun st => match m (proc st) with
            | (r, p') => (r, {| proc := p'; self := self st |})
            end.

(** [self._cam.<call>(...)]: attribute access on [None] raises. *)
Definition cam_call (c : Call) : M State Z :=
  let* cam := gets (fun st => _cam (self st)) in
  match cam with
  | None => raise AttributeError
  | Some _ => in_process (native_call c)
  end.

(** Calls with an output structure: the status and the field read back. *)
Definition MV_CC_GetIntValue_out (key : string) : M State (Z * Z) :=
  let* h := gets (fun st => trace (proc st)) in
  let* ret := cam_call (MV_CC_GetIntValue key) in
  pure (ret, nCurValue_of drv h key).

Definition MV_CC_GetFloatValue_out (key : string) : M State (Z * Q) :=
  let* h := gets (fun st => trace (proc st)) in
  let* ret := cam_call (MV_CC_GetFloatValue key) in
  pure (ret, fCurValue_of drv h key).

Definition MV_CC_EnumDevices_out (tlayerType : Z)
    : M Process (Z * list MV_CC_DEVICE_INFO) :=
  let* h := gets trace in
  let* ret := native_call (MV_CC_EnumDevices tlayerType) in
  pure (ret, deviceList_of drv h).

Definition MV_CC_GetImageBuffer_out (timeout : Z) : M State (Z * MV_FRAME_OUT) :=
  let* h := gets (fun st => trace (proc st)) in
  let* ret := cam_call (MV_CC_GetImageBuffer timeout) in
  pure (ret, frame_of drv h).

Definition config_of (st : State) : HikCameraConfig.t := _config (self st).
Definition update_config (f : HikCameraConfig.t -> HikCameraConfig.t) : M State unit :=
  modify (on_self (fun c => set_config (f (_config c)) c)).

Definition _auto_connect : M State unit :=
  let tlayerType :=
    Z.lor (Z.lor (Z.lor (Z.lor MV_GIGE_DEVICE MV_USB_DEVICE)
                        MV_GENTL_CAMERALINK_DEVICE)
                 MV_GENTL_CXP_DEVICE)
          MV_GENTL_XOF_DEVICE in
  let* (ret, deviceList) := in_process (MV_CC_EnumDevices_out tlayerType) in
  if negb (ret =? 0) then raise (HikCameraError (EnumDevicesFailed ret)) else
  if (length deviceList =? 0)%nat then raise (HikCameraError NoDeviceFound) else
  let* idx := gets (fun st => HikCameraConfig.camera_index (config_of st)) in
  if Z.of_nat (length deviceList) <=? idx
  then raise (HikCameraError (IndexOutOfRange idx (length deviceList))) else
  match (if idx <? 0 then None else deviceList !! Z.to_nat idx) with
  | None => raise (ValueError "NULL pointer access")
  | Some mvcc_dev_info =>
      modify (on_self (set_device_info (Some (get_device_info mvcc_dev_info)))) ;;
      let* ret := cam_call (MV_CC_CreateHandle mvcc_dev_info) in
      if negb (ret =? 0) then raise (HikCameraError (CreateHandleFailed ret)) else
      let* ret := cam_call (MV_CC_OpenDevice MV_ACCESS_Exclusive 0) in
      if negb (ret =? 0) then
        cam_call MV_CC_DestroyHandle ;;
        raise (HikCameraError (OpenDeviceFailed ret))
      else
      (if nTLayerType mvcc_dev_info =? MV_GIGE_DEVICE then
         let* nPacketSize := cam_call MV_CC_GetOptimalPacketSize in
         if 0 <? nPacketSize
         then cam_call (MV_CC_SetIntValue "GevSCPSPacketSize" nPacketSize) ;; pure tt
         else pure tt
       else pure tt) ;;
      let* mode := gets (fun st => HikCameraConfig.trigger_mode (config_of st)) in
      (if bool_decide (mode = "trigger") then
         cam_call (MV_CC_SetEnumValue "TriggerMode" MV_TRIGGER_MODE_ON) ;;
         cam_call (MV_CC_SetEnumValue "TriggerSource" MV_TRIGGER_SOURCE_SOFTWARE) ;;
         pure tt
       else
         cam_call (MV_CC_SetEnumValue "TriggerMode" MV_TRIGGER_MODE_OFF) ;;
         pure tt) ;;
      let* (ret, nCurValue) := MV_CC_GetIntValue_out "PayloadSize" in
      if negb (ret =? 0) then raise (HikCameraError (PayloadSizeFailed ret)) else
      modify (on_self (set_nPayloadSize nCurValue))
  end.

(** [HikCamera(camera_index, trigger_mode, config)].  The result is the
    constructed object; when the constructor raises no object is
    returned and the process keeps what was done so far. *)
Definition __init__ (camera_index : Z) (trigger_mode : string)
    (config : option HikCameraConfig.t) : M Process HikCamera :=
  let* initialized := gets _SDK_INITIALIZED in
  (if negb initialized then
     let* ret := native_call MV_CC_Initialize in
     if negb (ret =? 0) then raise (HikCameraError (SdkInitFailed ret)) else
     modify (set_SDK_INITIALIZED true)
   else pure tt) ;;
  modify (fun p => set_SDK_INIT_COUNT (_SDK_INIT_COUNT p + 1) p) ;;
  let* cfg :=
    match config with
    | Some c => pure c
    | None =>
        lift_result
          (HikCameraConfig.new camera_index trigger_mode
             (HikCameraConfig.width HikCameraConfig.default)
             (HikCameraConfig.height HikCameraConfig.default)
             (HikCameraConfig.exposure HikCameraConfig.default)
             (HikCameraConfig.gain HikCameraConfig.default)
             (HikCameraConfig.fps HikCameraConfig.default)
             (HikCameraConfig.timeout HikCameraConfig.default))
    end in
  let obj := {| _cam := Some MvCamera_object; _config := cfg;
                _is_running := false; _device_info := None;
                _pixel_type := None; _nPayloadSize := 0 |} in
  fun p => match _auto_connect {| proc := p; self := obj |} with
           | (Ok _, st') => (Ok (self st'), proc st')
           | (Raise e, st') => (Raise e, proc st')
           end.

Definition start : M State unit :=
  let* running := gets (fun st => _is_running (self st)) in
  if running then pure tt else
  let* ret := cam_call MV_CC_StartGrabbing in
  if negb (ret =? 0) then raise (HikCameraError (StartGrabbingFailed ret)) else
  modify (on_self (set_is_running true)).

Definition stop : M State unit :=
  let* running := gets (fun st => _is_running (self st)) in
  if negb running then pure tt else
  let* ret := cam_call MV_CC_StopGrabbing in
  if negb (ret =? 0) then raise (HikCameraError (StopGrabbingFailed ret)) else
  modify (on_self (set_is_running false)).

Definition _convert_frame_to_bgr (stOutFrame : MV_FRAME_OUT) : M State ndarray :=
  let width := nWidth stOutFrame in
  let height := nHeight stOutFrame in
  let pixel_type := enPixelType stOutFrame in
  let frame_len := nFrameLen stOutFrame in
  modify (on_self (set_pixel_type (Some pixel_type))) ;;
  match pBufAddr stOutFrame with
  | None => raise (HikCameraError NullBuffer)
  | Some pData =>
      let image_array := np_frombuffer (copy_bytes pData frame_len) in
      if is_rgb_format pixel_type then
        if pixel_type =? PixelType_Gvsp_RGB8_Packed then
          let* image := lift_result (reshape image_array [height; width; 3%nat]) in
          lift_result (cvtColor demosaicing image COLOR_RGB2BGR)
        else if pixel_type =? PixelType_Gvsp_BGR8_Packed then
          lift_result (reshape image_array [height; width; 3%nat])
        else
          let* image := lift_result (reshape image_array [height; width; 4%nat]) in
          if pixel_type =? PixelType_Gvsp_RGBA8_Packed
          then lift_result (cvtColor demosaicing image COLOR_RGBA2BGR)
          else lift_result (cvtColor demosaicing image COLOR_BGRA2BGR)
      else if is_bayer_format pixel_type then
        let color_code := default 0 (BAYER_TO_COLOR_CODE !! pixel_type) in
        let* image := lift_result (reshape image_array [height; width]) in
        if color_code =? 0 then
          lift_result (cvtColor demosaicing image COLOR_BAYER_GR2BGR)
        else if color_code =? 1 then
          lift_result (cvtColor demosaicing image COLOR_BAYER_RG2BGR)
        else if color_code =? 2 then
          lift_result (cvtColor demosaicing image COLOR_BAYER_GB2BGR)
        else
          lift_result (cvtColor demosaicing image COLOR_BAYER_BG2BGR)
      else if is_mono_format pixel_type then
        let* image := lift_result (reshape image_array [height; width]) in
        lift_result (cvtColor demosaicing image COLOR_GRAY2BGR)
      else
        raise (HikCameraError
                 (UnsupportedPixelFormat (get_pixel_format_name pixel_type)))
  end.

Definition get_image (timeout : option Z) : M State ndarray :=
  let* running := gets (fun st => _is_running (self st)) in
  if negb running then raise (HikCameraError NotStreaming) else
  let* cfg_timeout := gets (fun st => HikCameraConfig.timeout (config_of st)) in
  let timeout :=
    match timeout with
    | Some t => if t =? 0 then cfg_timeout else t
    | None => cfg_timeout
    end in
  let* (ret, stOutFrame) := MV_CC_GetImageBuffer_out timeout in
  if bool_decide (pBufAddr stOutFrame = None) || negb (ret =? 0)
  then raise (HikCameraError (GetImageFailed ret)) else
  try_finally (_convert_frame_to_bgr stOutFrame)
              (cam_call MV_CC_FreeImageBuffer).

Definition trigger_and_get_image (timeout : option Z) : M State ndarray :=
  let* mode := gets (fun st => HikCameraConfig.trigger_mode (config_of st)) in
  if negb (bool_decide (mode = "trigger"))
  then raise (HikCameraError WrongTriggerMode) else
  let* ret := cam_call (MV_CC_SetCommandValue "TriggerSoftware") in
  if negb (ret =? 0) then raise (HikCameraError (TriggerFailed ret)) else
  get_image timeout.

Definition close : M State unit :=
  let* running := gets (fun st => _is_running (self st)) in
  (if running then stop else pure tt) ;;
  let* cam := gets (fun st => _cam (self st)) in
  match cam with
  | Some _ =>
      try_except_pass
        (cam_call MV_CC_CloseDevice ;; cam_call MV_CC_DestroyHandle) ;;
      modify (on_self (set_cam None))
  | None => pure tt
  end ;;
  modify (on_proc (fun p => set_SDK_INIT_COUNT (_SDK_INIT_COUNT p - 1) p)) ;;
  let* count := gets (fun st => _SDK_INIT_COUNT (proc st)) in
  if count <=? 0 then
    in_process (native_call MV_CC_Finalize) ;;
    modify (on_proc (set_SDK_INITIALIZED false))
  else pure tt.
End Session.

Section Parameters.
Variable drv : Driver.

(** *** Properties *)

Definition width : M State Z :=
  gets (fun st => HikCameraConfig.width (config_of st)).

Definition width_setter (value : Z) : M State unit :=
  update_config (HikCameraConfig.set_width value) ;;
  let* ret := cam_call drv (MV_CC_SetIntValue "Width" value) in
  if negb (ret =? 0) then raise (HikCameraError (SetValueFailed "Width" ret))
  else pure tt.

Definition height : M State Z :=
  gets (fun st => HikCameraConfig.height (config_of st)).

Definition height_setter (value : Z) : M State unit :=
  update_config (HikCameraConfig.set_height value) ;;
  let* ret := cam_call drv (MV_CC_SetIntValue "Height" value) in
  if negb (ret =? 0) then raise (HikCameraError (SetValueFailed "Height" ret))
  else pure tt.

Definition exposure : M State Z :=
  let* (ret, fCurValue) := MV_CC_GetFloatValue_out drv "ExposureTime" in
  if ret =? 0 then pure (int_of_float fCurValue) else
  let* (ret, nCurValue) := MV_CC_GetIntValue_out drv "ExposureTime" in
  if ret =? 0 then pure nCurValue else
  raise (HikCameraError (GetValueFailed "ExposureTime" ret)).

Definition exposure_setter (value : Z) : M State unit :=
  update_config (HikCameraConfig.set_exposure value) ;;
  let* ret := cam_call drv (MV_CC_SetFloatValue "ExposureTime" (inject_Z value)) in
  let* ret :=
    if negb (ret =? 0)
    then cam_call drv (MV_CC_SetIntValue "ExposureTime" value)
    else pure ret in
  if negb (ret =? 0)
  then raise (HikCameraError (SetValueFailed "ExposureTime" ret))
  else pure tt.

Definition gain : M State Q :=
  let* (ret, fCurValue) := MV_CC_GetFloatValue_out drv "Gain" in
  if negb (ret =? 0) then raise (HikCameraError (GetValueFailed "Gain" ret))
  else pure fCurValue.

Definition gain_setter (value : Q) : M State unit :=
  update_config (HikCameraConfig.set_gain value) ;;
  let* ret := cam_call drv (MV_CC_SetFloatValue "Gain" value) in
  let* ret :=
    if negb (ret =? 0)
    then cam_call drv (MV_CC_SetFloatValue "AnalogGain" value)
    else pure ret in
  if negb (ret =? 0)
  then modify (on_proc (print (GainWarning ret)))
  else pure tt.

Definition fps : M State Q :=
  let* (ret, fCurValue) := MV_CC_GetFloatValue_out drv "AcquisitionFrameRate" in
  if negb (ret =? 0)
  then raise (HikCameraError (GetValueFailed "AcquisitionFrameRate" ret))
  else pure fCurValue.

Definition fps_setter (value : Q) : M State unit :=
  update_config (HikCameraConfig.set_fps (int_of_float value)) ;;
  let* ret := cam_call drv (MV_CC_SetFloatValue "AcquisitionFrameRate" value) in
  if negb (ret =? 0)
  then raise (HikCameraError (SetValueFailed "AcquisitionFrameRate" ret))
  else pure tt.

Definition trigger_mode : M State string :=
  gets (fun st => HikCameraConfig.trigger_mode (config_of st)).

(** *** Parameter query and update *)

Definition _get_exposure : M State Q :=
  let* (ret, fCurValue) := MV_CC_GetFloatValue_out drv "ExposureTime" in
  if ret =? 0 then pure fCurValue else
  let* (ret, nCurValue) := MV_CC_GetIntValue_out drv "ExposureTime" in
  if ret =? 0 then pure (inject_Z nCurValue) else
  pure (inject_Z 0).

Definition _get_gain : M State Q :=
  let* (ret, fCurValue) := MV_CC_GetFloatValue_out drv "Gain" in
  if ret =? 0 then pure fCurValue else pure (inject_Z 0).

Definition _get_fps : M State Q :=
  let* (ret, fCurValue) := MV_CC_GetFloatValue_out drv "AcquisitionFrameRate" in
  if ret =? 0 then pure fCurValue else pure (inject_Z 0).

Definition _get_offset_x : M State Z :=
  let* (ret, nCurValue) := MV_CC_GetIntValue_out drv "OffsetX" in
  if ret =? 0 then pure nCurValue else pure 0.

Definition _get_offset_y : M State Z :=
  let* (ret, nCurValue) := MV_CC_GetIntValue_out drv "OffsetY" in
  if ret =? 0 then pure nCurValue else pure 0.

Definition _set_offset_x (value : Z) : M State unit :=
  let* ret := cam_call drv (MV_CC_SetIntValue "OffsetX" value) in
  if negb (ret =? 0) then raise (HikCameraError (SetValueFailed "OffsetX" ret))
  else pure tt.

Definition _set_offset_y (value : Z) : M State unit :=
  let* ret := cam_call drv (MV_CC_SetIntValue "OffsetY" value) in
  if negb (ret =? 0) then raise (HikCameraError (SetValueFailed "OffsetY" ret))
  else pure tt.

(** [x if self._pixel_type else "Unknown"]: [None] and [0] are falsy. *)
Definition pixel_format_name_of (pixel_type : option Z) : string :=
  match pixel_type with
  | Some t => if t =? 0 then "Unknown" else get_pixel_format_name t
  | None => "Unknown"
  end.

Definition get_params : M State CameraParams.t :=
  let* pixel_type := gets (fun st => _pixel_type (self st)) in
  let pixel_format_name := pixel_format_name_of pixel_type in
  let* p_width := width in
  let* p_height := height in
  let* p_exposure := _get_exposure in
  let* p_gain := _get_gain in
  let* p_fps := _get_fps in
  let* p_trigger_mode := trigger_mode in
  let* p_offset_x := _get_offset_x in
  let* p_offset_y := _get_offset_y in
  pure (CameraParams.mk p_width p_height p_exposure p_gain p_fps
          pixel_format_name p_trigger_mode p_offset_x p_offset_y).

(** [if x is not None: body] *)
Definition if_given {A} (x : option A) (body : A -> M State unit) : M State unit :=
  match x with
  | Some v => body v
  | None => pure tt
  end.

Definition set_params (width height : option Z) (exposure : option Z)
    (gain fps : option Q) (trigger_mode : option string)
    (offset_x offset_y : option Z) : M State unit :=
  if_given width width_setter ;;
  if_given height height_setter ;;
  if_given exposure exposure_setter ;;
  if_given gain gain_setter ;;
  if_given fps fps_setter ;;
  if_given trigger_mode (fun trigger_mode =>
    if negb (bool_decide (trigger_mode = "continuous" \/ trigger_mode = "trigger"))
    then raise (HikCameraError (InvalidTriggerMode trigger_mode)) else
    update_config (HikCameraConfig.set_trigger_mode trigger_mode) ;;
    if bool_decide (trigger_mode = "trigger") then
      cam_call drv (MV_CC_SetEnumValue "TriggerMode" MV_TRIGGER_MODE_ON) ;;
      cam_call drv (MV_CC_SetEnumValue "TriggerSource" MV_TRIGGER_SOURCE_SOFTWARE) ;;
      pure tt
    else
      cam_call drv (MV_CC_SetEnumValue "TriggerMode" MV_TRIGGER_MODE_OFF) ;;
      pure tt) ;;
  if_given offset_x _set_offset_x ;;
  if_given offset_y _set_offset_y.
End Parameters.

(* ================================================================== *)
(** ** Several sessions in one process *)

(** The objects created so far, in creation order, next to the process
    state they share. *)
Record System := {
  process : Process;
  objects : list HikCamera
}.

Definition fresh_system : System := {| process := fresh_process; objects := [] |}.

Inductive Op :=
| New (camera_index : Z) (trigger_mode : string) (config : option HikCameraConfig.t)
| Start (i : nat)
| Stop (i : nat)
| Close (i : nat).

Section Programs.
Variable drv : Driver.

(** Run a method on the [i]-th object; the object keeps the attribute
    values it had when the method returned or raised. *)
Definition on_object {A} (i : nat) (m : M State A) : M System A :=
  fun sys =>
    match objects sys !! i with
    | None => (Raise NameError, sys)
    | Some obj =>
        match m {| proc := process sys; self := obj |} with
        | (r, st') => (r, {| process := proc st';
                             objects := <[i := self st']> (objects sys) |})
        end
    end.

Definition exec (op : Op) : M System unit :=
  match op with
  | New camera_index trigger_mode config =>
      fun sys =>
        match __init__ drv camera_index trigger_mode config (process sys) with
        | (Ok obj, p') => (Ok tt, {| process := p'; objects := objects sys ++ [obj] |})
        | (Raise e, p') => (Raise e, {| process := p'; objects := objects sys |})
        end
  | Start i => on_object i (start drv)
  | Stop i => on_object i (stop drv)
  | Close i => on_object i (close drv)
  end.

Fixpoint run (prog : list Op) : M System unit :=
  match prog with
  | [] => pure tt
  | op :: rest => exec op ;; run rest
  end.
End Programs.

(** *** Observations on the trace *)

Definition is_Initialize (ev : Event) : bool :=
  match fst ev with MV_CC_Initialize => true | _ => false end.
Definition is_Finalize (ev : Event) : bool :=
  match fst ev with MV_CC_Finalize => true | _ => false end.

Definition count_events (f : Event -> bool) (t : list Event) : nat :=
  length (filter (fun ev => f ev = true) t).

(** Whether a device handle created by a successful [MV_CC_CreateHandle]
    has not been given to [MV_CC_DestroyHandle] yet. *)
Definition handle_step (live : bool) (ev : Event) : bool :=
  match fst ev with
  | MV_CC_CreateHandle _ => if snd ev =? 0 then true else live
  | MV_CC_DestroyHandle => false
  | _ => live
  end.
Definition handle_live (t : list Event) : bool := foldl handle_step false t.

(* ================================================================== *)
(** ** Concrete devices and frames used in the examples *)

Definition usb_camera : MV_CC_DEVICE_INFO :=
  {| nTLayerType := MV_USB_DEVICE; chModelName := "MV-CA013-20UC";
     chSerialNumber := "00D12345"; nCurrentIp := 0 |}.

Definition MV_E_PARAMETER : Z := 0x80000004.

(** A frame of [n] zero bytes. *)
Definition zero_frame (pixel_type : Z) (w h n : nat) : MV_FRAME_OUT :=
  {| pBufAddr := Some (replicate n Byte.x00); nWidth := w; nHeight := h;
     enPixelType := pixel_type; nFrameLen := n |}.

(** A driver with one USB camera on which exactly the calls selected by
    [fails] return [MV_E_PARAMETER]; the device reports 640 for every
    integer node and 25 for every float node. *)
Definition device_failing (fails : Call -> bool) : Driver :=
  {| status_of := fun _ c => if fails c then MV_E_PARAMETER else 0;
     deviceList_of := fun _ => [usb_camera];
     nCurValue_of := fun _ _ => 640;
     fCurValue_of := fun _ _ => inject_Z 25;
     frame_of := fun _ => zero_frame PixelType_Gvsp_Mono8 2 2 4 |}.

Definition healthy_device : Driver := device_failing (fun _ => false).

Definition is_StopGrabbing (c : Call) : bool :=
  match c with MV_CC_StopGrabbing => true | _ => false end.
Definition is_SetEnumValue (c : Call) : bool :=
  match c with MV_CC_SetEnumValue _ _ => true | _ => false end.
Definition is_PayloadSize (c : Call) : bool :=
  match c with MV_CC_GetIntValue key => bool_decide (key = "PayloadSize") | _ => false end.
Definition is_OpenDevice (c : Call) : bool :=
  match c with MV_CC_OpenDevice _ _ => true | _ => false end.
Definition is_parameter_write (c : Call) : bool :=
  match c with
  | MV_CC_SetIntValue _ _ | MV_CC_SetFloatValue _ _ => true
  | _ => false
  end.

(** An object as [__init__] leaves it on a healthy device, and the process
    around it. *)
Definition connected_camera (mode : string) : HikCamera :=
  {| _cam := Some MvCamera_object;
     _config := HikCameraConfig.set_trigger_mode mode HikCameraConfig.default;
     _is_running := false;
     _device_info := Some (get_device_info usb_camera);
     _pixel_type := None; _nPayloadSize := 640 |}.

Definition connected_state (mode : string) : State :=
  {| proc := {| _SDK_INITIALIZED := true; _SDK_INIT_COUNT := 1;
                trace := []; stdout := [] |};
     self := connected_camera mode |}.

Definition streaming_state (mode : string) : State :=
  on_self (set_is_running true) (connected_state mode).

Definition no_demosaicing (code : ColorConversionCode) (h w : nat)
    (d : list Byte.byte) : list Byte.byte := gray2bgr d.

(** The OpenCV conversion that carries the name of a Bayer pattern. *)
Definition bayer_conversion (p : BayerPattern) : ColorConversionCode :=
  match p with
  | GR => COLOR_BAYER_GR2BGR
  | RG => COLOR_BAYER_RG2BGR
  | GB => COLOR_BAYER_GB2BGR
  | BG => COLOR_BAYER_BG2BGR
  end.

(* ================================================================== *)
(** ** Notions used to state the properties *)

(** Bytes one pixel occupies in a frame of the given format. *)
Definition bytes_per_pixel (pixel_type : Z) : nat :=
  Z.to_nat (pixel_bit_count pixel_type / 8).

(** A frame as the driver delivers it: [nFrameLen] is the size the format
    code implies and the buffer holds that many bytes. *)
Definition well_formed_frame (f : MV_FRAME_OUT) : Prop :=
  nFrameLen f = (nHeight f * nWidth f * bytes_per_pixel (enPixelType f))%nat /\
  (0 < nHeight f * nWidth f)%nat /\
  exists pData, pBufAddr f = Some pData /\ length pData = nFrameLen f.

Definition eight_bit_formats : list Z :=
  [ PixelType_Gvsp_Mono8;
    PixelType_Gvsp_BayerGR8; PixelType_Gvsp_BayerRG8;
    PixelType_Gvsp_BayerGB8; PixelType_Gvsp_BayerBG8;
    PixelType_Gvsp_RGB8_Packed; PixelType_Gvsp_BGR8_Packed;
    PixelType_Gvsp_RGBA8_Packed; PixelType_Gvsp_BGRA8_Packed ].


(** The native calls of the connection sequence whose status
    [_auto_connect] tests, and the error each raises. *)
Definition checked_call (c : Call) : bool :=
  match c with
  | MV_CC_EnumDevices _ | MV_CC_CreateHandle _ | MV_CC_OpenDevice _ _ => true
  | MV_CC_GetIntValue key => bool_decide (key = "PayloadSize")
  | _ => false
  end.

Definition connect_error (c : Call) (ret : Z) : HikError :=
  match c with
  | MV_CC_EnumDevices _ => EnumDevicesFailed ret
  | MV_CC_CreateHandle _ => CreateHandleFailed ret
  | MV_CC_OpenDevice _ _ => OpenDeviceFailed ret
  | _ => PayloadSizeFailed ret
  end.

(** An event that does not stop the connection sequence. *)
Definition accepted (ev : Event) : Prop :=
  checked_call (fst ev) = true -> snd ev = 0.

(** A checked call that returned a non-success status. *)
Definition rejected (ev : Event) : bool :=
  checked_call (fst ev) && negb (snd ev =? 0).

(** The first rejected event of a run and the events that follow it. *)
Fixpoint first_rejected (evs : list Event) : option (Event * list Event) :=
  match evs with
  | [] => None
  | ev :: rest => if rejected ev then Some (ev, rest) else first_rejected rest
  end.

(** What follows a rejected call [c] in the run: nothing after a failed
    enumeration or handle creation; the destruction of the handle after a
    failed open.  The payload-size query is the last step of the sequence:
    nothing is required after it. *)
Definition sequence_ends_after (c : Call) (rest t : list Event) : Prop :=
  match c with
  | MV_CC_OpenDevice _ _ =>
      (exists r', rest = [(MV_CC_DestroyHandle, r')]) /\ handle_live t = false
  | MV_CC_GetIntValue _ => True
  | _ => rest = []
  end.

(** Failures of the connection sequence that do not come from a native
    status: no device, index out of range, null descriptor. *)
Definition enumeration_error (e : Exn) : Prop :=
  e = HikCameraError NoDeviceFound \/
  (exists idx n, e = HikCameraError (IndexOutOfRange idx n)) \/
  e = ValueError "NULL pointer access".


(** A device whose width and height nodes read 640 x 480 while every other
    integer node reads 0. *)
Definition device_640x480 : Driver :=
  {| status_of := fun _ _ => 0;
     deviceList_of := fun _ => [usb_camera];
     nCurValue_of := fun _ key =>
       if bool_decide (key = "Width") then 640
       else if bool_decide (key = "Height") then 480 else 0;
     fCurValue_of := fun _ _ => inject_Z 25;
     frame_of := fun _ => zero_frame PixelType_Gvsp_Mono8 2 2 4 |}.


(** *** The SDK guard seen from outside

    What the reference-count logic of [__init__] and [close] can be
    observed to do: the two module-level variables and the number of
    native initialize and finalize calls made so far. *)
Record SdkView := {
  initialized : bool;
  init_count : Z;
  initialize_calls : nat;
  finalize_calls : nat
}.

Definition sdk_view (p : Process) : SdkView :=
  {| initialized := _SDK_INITIALIZED p;
     init_count := _SDK_INIT_COUNT p;
     initialize_calls := count_events is_Initialize (trace p);
     finalize_calls := count_events is_Finalize (trace p) |}.

(** The effect on the view of an operation that returns normally. *)
Definition sdk_step (v : SdkView) (op : Op) : SdkView :=
  match op with
  | New _ _ _ =>
      {| initialized := true;
         init_count := init_count v + 1;
         initialize_calls :=
           if initialized v then initialize_calls v else S (initialize_calls v);
         finalize_calls := finalize_calls v |}
  | Close _ =>
      if init_count v - 1 <=? 0
      then {| initialized := false;
              init_count := init_count v - 1;
              initialize_calls := initialize_calls v;
              finalize_calls := S (finalize_calls v) |}
      else {| initialized := initialized v;
              init_count := init_count v - 1;
              initialize_calls := initialize_calls v;
              finalize_calls := finalize_calls v |}
  | Start _ | Stop _ => v
  end.

(** The creations and closes of a program, in order. *)
Fixpoint lifecycle_ops (prog : list Op) : list Op :=
  match prog with
  | [] => []
  | (New _ _ _ as op) :: rest | (Close _ as op) :: rest => op :: lifecycle_ops rest
  | _ :: rest => lifecycle_ops rest
  end.

(* ================================================================== *)
(** ** Further code of the repository *)

(** *** utils.py: device enumeration *)

(** The transport layers both enumerations ask for. *)
Definition enum_tlayerType : Z :=
  Z.lor (Z.lor (Z.lor (Z.lor MV_GIGE_DEVICE MV_USB_DEVICE)
                      MV_GENTL_CAMERALINK_DEVICE)
               MV_GENTL_CXP_DEVICE)
        MV_GENTL_XOF_DEVICE.

(** [info["index"] = i] *)
Definition set_info_index (i : Z) (info : DeviceInfo) : DeviceInfo :=
  {| info_index := i; info_type := info_type info;
     info_model_name := info_model_name info;
     info_serial_number := info_serial_number info;
     info_ip_address := info_ip_address info |}.

(** [enumerate_devices] returns the list of device dictionaries or raises
    [RuntimeError] with the native status. *)
Inductive Enumerated :=
| Devices (devices : list DeviceInfo)
| RuntimeError (ret : Z).

Definition enumerate_devices (drv : Driver) (p : Process) : Enumerated * Process :=
  let deviceList := deviceList_of drv (trace p) in
  let ret := status_of drv (trace p) (MV_CC_EnumDevices enum_tlayerType) in
  let p' := log_event (MV_CC_EnumDevices enum_tlayerType, ret) p in
  if negb (ret =? 0) then (RuntimeError ret, p')
  else
    (Devices (imap (fun i mvcc_dev_info =>
                      set_info_index (Z.of_nat i) (get_device_info mvcc_dev_info))
                   deviceList),
     p').

(** [HikCamera.list_devices] and the module-level [device_list]. *)
Definition list_devices := enumerate_devices.
Definition device_list := enumerate_devices.

(** The items of the [format_names] dictionary. *)
Definition format_names_items : list (Z * string) :=
  [ (PixelType_Gvsp_Undefined, "Undefined");
    (PixelType_Gvsp_Mono8, "Mono8");
    (PixelType_Gvsp_Mono10, "Mono10");
    (PixelType_Gvsp_Mono10_Packed, "Mono10_Packed");
    (PixelType_Gvsp_Mono12, "Mono12");
    (PixelType_Gvsp_Mono12_Packed, "Mono12_Packed");
    (PixelType_Gvsp_Mono16, "Mono16");
    (PixelType_Gvsp_BayerGR8, "BayerGR8");
    (PixelType_Gvsp_BayerRG8, "BayerRG8");
    (PixelType_Gvsp_BayerGB8, "BayerGB8");
    (PixelType_Gvsp_BayerBG8, "BayerBG8");
    (PixelType_Gvsp_BayerGR10, "BayerGR10");
    (PixelType_Gvsp_BayerRG10, "BayerRG10");
    (PixelType_Gvsp_BayerGB10, "BayerGB10");
    (PixelType_Gvsp_BayerBG10, "BayerBG10");
    (PixelType_Gvsp_BayerGR10_Packed, "BayerGR10_Packed");
    (PixelType_Gvsp_BayerRG10_Packed, "BayerRG10_Packed");
    (PixelType_Gvsp_BayerGB10_Packed, "BayerGB10_Packed");
    (PixelType_Gvsp_BayerBG10_Packed, "BayerBG10_Packed");
    (PixelType_Gvsp_BayerGR12, "BayerGR12");
    (PixelType_Gvsp_BayerRG12, "BayerRG12");
    (PixelType_Gvsp_BayerGB12, "BayerGB12");
    (PixelType_Gvsp_BayerBG12, "BayerBG12");
    (PixelType_Gvsp_BayerGR12_Packed, "BayerGR12_Packed");
    (PixelType_Gvsp_BayerRG12_Packed, "BayerRG12_Packed");
    (PixelType_Gvsp_BayerGB12_Packed, "BayerGB12_Packed");
    (PixelType_Gvsp_BayerBG12_Packed, "BayerBG12_Packed");
    (PixelType_Gvsp_RGB8_Packed, "RGB8_Packed");
    (PixelType_Gvsp_BGR8_Packed, "BGR8_Packed");
    (PixelType_Gvsp_RGBA8_Packed, "RGBA8_Packed");
    (PixelType_Gvsp_BGRA8_Packed, "BGRA8_Packed");
    (PixelType_Gvsp_YUV422_Packed, "YUV422_Packed");
    (PixelType_Gvsp_YUV422_YUYV_Packed, "YUV422_YUYV_Packed") ].

(** *** hikcamera.py: context manager, destructor, read-only properties *)

Section ContextManager.
Variable drv : Driver.

Definition __enter__ : M State unit := pure tt.

(** [__exit__] closes and returns [False]. *)
Definition __exit__ : M State bool :=
  close drv ;; pure false.

Definition __del__ : M State unit :=
  try_except_pass (close drv).

(** [with self: body].  [__exit__] runs whether or not the body raised; an
    exception of the body is suppressed only if [__exit__] returns a true
    value, and an exception of [__exit__] replaces it. *)
Definition with_block {A} (body : M State A) : M State (option A) :=
  fun st =>
    match (__enter__ ;; body) st with
    | (r, st1) =>
        match __exit__ st1 with
        | (Raise e, st2) => (Raise e, st2)
        | (Ok suppress, st2) =>
            match r with
            | Ok a => (Ok (Some a), st2)
            | Raise e => if suppress then (Ok None, st2) else (Raise e, st2)
            end
        end
    end.
End ContextManager.

Definition device_info : M State (option DeviceInfo) :=
  gets (fun st => _device_info (self st)).
Definition is_running : M State bool :=
  gets (fun st => _is_running (self st)).
Definition pixel_type : M State (option Z) :=
  gets (fun st => _pixel_type (self st)).

(** *** Notions used to state the further properties *)

(** The rules of [HikCameraConfig.__post_init__]. *)
Definition valid_config (c : HikCameraConfig.t) : Prop :=
  (HikCameraConfig.trigger_mode c = "continuous"
   \/ HikCameraConfig.trigger_mode c = "trigger") /\
  0 <= HikCameraConfig.camera_index c /\
  0 < HikCameraConfig.width c /\
  0 < HikCameraConfig.height c /\
  0 <= HikCameraConfig.exposure c /\
  (0 <= HikCameraConfig.gain c)%Q /\
  0 < HikCameraConfig.fps c /\
  0 < HikCameraConfig.timeout c.

(** A session on which [close] has completed. *)
Definition closed_session (st : State) : Prop :=
  _cam (self st) = None /\ _is_running (self st) = false.

Definition is_FreeImageBuffer (ev : Event) : bool :=
  match fst ev with MV_CC_FreeImageBuffer => true | _ => false end.
Definition is_TriggerSoftware (ev : Event) : bool :=
  match fst ev with MV_CC_SetCommandValue _ => true | _ => false end.
Definition is_packet_size_query (ev : Event) : bool :=
  match fst ev with MV_CC_GetOptimalPacketSize => true | _ => false end.

(** Initialize calls that reported success. *)
Definition is_successful_Initialize (ev : Event) : bool :=
  match fst ev with MV_CC_Initialize => snd ev =? 0 | _ => false end.

(** The eight-bit formats whose conversion involves no Bayer
    interpolation. *)
Definition plain_eight_bit_formats : list Z :=
  [ PixelType_Gvsp_Mono8;
    PixelType_Gvsp_RGB8_Packed; PixelType_Gvsp_BGR8_Packed;
    PixelType_Gvsp_RGBA8_Packed; PixelType_Gvsp_BGRA8_Packed ].

(** A GigE camera at 192.168.1.64. *)
Definition gige_camera : MV_CC_DEVICE_INFO :=
  {| nTLayerType := MV_GIGE_DEVICE; chModelName := "MV-CA050-20GC";
     chSerialNumber := "J12345"; nCurrentIp := 0xC0A80140 |}.

(** Errors of numpy and OpenCV, as opposed to those the converter raises
    itself. *)
Definition library_error (e : Exn) : Prop :=
  e = ValueError "cannot reshape array" \/ exists msg, e = cv2_error msg.


(** The trigger configuration a connection writes for a trigger mode, with
    the statuses the writes returned. *)
Definition trigger_setup (mode : string) (r1 r2 : Z) : list Event :=
  if bool_decide (mode = "trigger")
  then [(MV_CC_SetEnumValue "TriggerMode" MV_TRIGGER_MODE_ON, r1);
        (MV_CC_SetEnumValue "TriggerSource" MV_TRIGGER_SOURCE_SOFTWARE, r2)]
  else [(MV_CC_SetEnumValue "TriggerMode" MV_TRIGGER_MODE_OFF, r1)].

(** Calls that deal with the GigE packet size. *)
Definition is_packet_size_call (ev : Event) : bool :=
  match fst ev with
  | MV_CC_GetOptimalPacketSize => true
  | MV_CC_SetIntValue key _ => bool_decide (key = "GevSCPSPacketSize")
  | _ => false
  end.

(** A packet-size write carries a positive size. *)
Definition positive_packet_size (ev : Event) : Prop :=
  match fst ev with
  | MV_CC_SetIntValue key v => key = "GevSCPSPacketSize" -> 0 < v
  | _ => True
  end.

(** The device descriptor the configured index selects. *)
Definition selected_device (drv : Driver) (st : State) : option MV_CC_DEVICE_INFO :=
  let idx := HikCameraConfig.camera_index (_config (self st)) in
  if idx <? 0 then None else deviceList_of drv (trace (proc st)) !! Z.to_nat idx.

(** A driver that reports no device at all. *)
Definition no_device : Driver :=
  {| status_of := fun _ _ => 0;
     deviceList_of := fun _ => [];
     nCurValue_of := fun _ _ => 0;
     fCurValue_of := fun _ _ => inject_Z 0;
     frame_of := fun _ => zero_frame PixelType_Gvsp_Mono8 0 0 0 |}.

(** A driver with one GigE camera whose optimal packet size is 1500. *)
Definition gige_device : Driver :=
  {| status_of := fun _ c =>
       match c with MV_CC_GetOptimalPacketSize => 1500 | _ => 0 end;
     deviceList_of := fun _ => [gige_camera];
     nCurValue_of := fun _ _ => 640;
     fCurValue_of := fun _ _ => inject_Z 25;
     frame_of := fun _ => zero_frame PixelType_Gvsp_Mono8 2 2 4 |}.

(** The object [__init__] hands to [_auto_connect]. *)
Definition new_camera (c : HikCameraConfig.t) : HikCamera :=
  {| _cam := Some MvCamera_object; _config := c; _is_running := false;
     _device_info := None; _pixel_type := None; _nPayloadSize := 0 |}.

(** The native SDK as the trace shows it.  The first component tells
    whether the SDK is initialized after the events so far: a successful
    [MV_CC_Initialize] has not been followed by [MV_CC_Finalize].  The
    second stays [true] as long as no [MV_CC_Initialize] has succeeded
    while the SDK was initialized. *)
Definition native_step (s : bool * bool) (ev : Event) : bool * bool :=
  if is_successful_Initialize ev then (true, snd s && negb (fst s))
  else if is_Finalize ev then (false, snd s)
  else s.
Definition native_scan (t : list Event) : bool * bool :=
  foldl native_step (false, true) t.

(** Between any two successful initializations of a trace there is a
    finalization. *)
Definition finalize_between_initializations (t : list Event) : Prop :=
  forall h e1 mid e2 rest,
    t = h ++ e1 :: mid ++ e2 :: rest ->
    is_successful_Initialize e1 = true ->
    is_successful_Initialize e2 = true ->
    Exists (fun ev => is_Finalize ev = true) mid.

(** What the reference-count guard is judged by: the flag, the number of
    native initializations that succeeded and the number of native
    finalizations, and the order in which they come.  While the flag is
    [False] the trace leaves the SDK finalized. *)
Definition guard_invariant (p : Process) : Prop :=
  (count_events is_successful_Initialize (trace p)
   <= count_events is_Finalize (trace p)
      + (if _SDK_INITIALIZED p then 1 else 0))%nat /\
  snd (native_scan (trace p)) = true /\
  (_SDK_INITIALIZED p = false -> fst (native_scan (trace p)) = false).

(** Methods that leave the flag alone and make no call to the native
    initializer or finalizer. *)
Definition guard_neutral (m : M State unit) : Prop :=
  forall st,
    _SDK_INITIALIZED (proc (snd (m st))) = _SDK_INITIALIZED (proc st) /\
    count_events is_successful_Initialize (trace (proc (snd (m st))))
    = count_events is_successful_Initialize (trace (proc st)) /\
    count_events is_Finalize (trace (proc (snd (m st))))
    = count_events is_Finalize (trace (proc st)) /\
    native_scan (trace (proc (snd (m st)))) = native_scan (trace (proc st)).

(* ================================================================== *)
(** * Properties *)

(** ** Pixel-format classifier *)

Lemma BAYER_TO_COLOR_CODE_keys_NoDup : NoDup (BAYER_TO_COLOR_CODE_items.*1).
Proof. compute_done. Qed.

Lemma bayer_lookup_items pixel_type code :
  BAYER_TO_COLOR_CODE !! pixel_type = Some code <->
  (pixel_type, code) ∈ BAYER_TO_COLOR_CODE_items.
Proof.
  unfold BAYER_TO_COLOR_CODE. symmetry.
  apply elem_of_list_to_map, BAYER_TO_COLOR_CODE_keys_NoDup.
Qed.

Lemma bayer_variant_lookup p pixel_type :
  pixel_type ∈ bayer_variants p ->
  BAYER_TO_COLOR_CODE !! pixel_type = Some (pattern_code p).
Proof.
  intros Hin. destruct p; simpl in Hin;
    repeat (apply elem_of_cons in Hin as [-> | Hin]; [vm_compute; reflexivity |]);
    inversion Hin.
Qed.

Lemma bayer_lookup_variant pixel_type code :
  BAYER_TO_COLOR_CODE !! pixel_type = Some code ->
  exists p, pixel_type ∈ bayer_variants p /\ code = pattern_code p.
Proof.
  intros Hl. apply bayer_lookup_items in Hl. unfold BAYER_TO_COLOR_CODE_items in Hl.
  repeat (apply elem_of_cons in Hl as [Heq | Hl];
          [ inversion Heq; subst; clear Heq;
            first [ exists GR; split; [ simpl; set_solver | reflexivity ]
                  | exists RG; split; [ simpl; set_solver | reflexivity ]
                  | exists GB; split; [ simpl; set_solver | reflexivity ]
                  | exists BG; split; [ simpl; set_solver | reflexivity ] ]
          | ]).
  inversion Hl.
Qed.

(** ** Frame converter *)

Lemma reshape_Ok a s :
  foldr Nat.mul 1%nat s = length (data a) ->
  reshape a s = Ok {| shape := s; data := data a |}.
Proof. intros H. unfold reshape. rewrite H, Nat.eqb_refl. reflexivity. Qed.

Lemma reshape_Raise a s :
  foldr Nat.mul 1%nat s <> length (data a) ->
  reshape a s = Raise (ValueError "cannot reshape array").
Proof.
  intros H. unfold reshape.
  destruct (Nat.eqb_spec (foldr Nat.mul 1%nat s) (length (data a))); [contradiction | reflexivity].
Qed.

Lemma copy_bytes_all (pData : list Byte.byte) n :
  length pData = n -> copy_bytes pData n = pData.
Proof. intros <-. unfold copy_bytes. apply firstn_all. Qed.

Lemma bayer_variant_not_rgb p pixel_type :
  pixel_type ∈ bayer_variants p -> is_rgb_format pixel_type = false.
Proof.
  intros Hin. destruct p; simpl in Hin;
    repeat (apply elem_of_cons in Hin as [-> | Hin]; [vm_compute; reflexivity |]);
    inversion Hin.
Qed.

Lemma bayer_variant_accepted p pixel_type :
  pixel_type ∈ bayer_variants p -> is_bayer_format pixel_type = true.
Proof.
  intros Hin. unfold is_bayer_format. apply bool_decide_eq_true.
  rewrite (bayer_variant_lookup p) by assumption. eauto.
Qed.

Section Converter.
Variable demosaicing :
  ColorConversionCode -> nat -> nat -> list Byte.byte -> list Byte.byte.

Lemma cvtColor_gray_or_bayer (h w : nat) d code :
  source_channels code = 1%nat -> (0 < h * w)%nat ->
  cvtColor demosaicing {| shape := [h; w]; data := d |} code =
  Ok {| shape := [h; w; 3%nat]; data := convert_pixels demosaicing code h w d |}.
Proof.
  intros Hc Hpos. unfold cvtColor. cbn [shape image_dims data].
  rewrite Hc. destruct (Nat.eqb_spec (h * w * 1) 0); [lia | reflexivity].
Qed.

Lemma cvtColor_packed (h w c : nat) d code :
  source_channels code = c -> (0 < h * w)%nat -> (0 < c)%nat ->
  cvtColor demosaicing {| shape := [h; w; c]; data := d |} code =
  Ok {| shape := [h; w; 3%nat]; data := convert_pixels demosaicing code h w d |}.
Proof.
  intros Hc Hpos Hcpos. unfold cvtColor. cbn [shape image_dims data].
  rewrite Hc, Nat.eqb_refl.
  destruct (Nat.eqb_spec (h * w * c) 0); [nia | reflexivity].
Qed.

(** The Bayer branch of the converter: reshape to height x width, then
    the conversion named after the pattern of the format. *)
Lemma convert_bayer_frame p f pData st :
  enPixelType f ∈ bayer_variants p ->
  pBufAddr f = Some pData ->
  fst (_convert_frame_to_bgr demosaicing f st)
  = match reshape (np_frombuffer (copy_bytes pData (nFrameLen f)))
                  [nHeight f; nWidth f] with
    | Ok image => cvtColor demosaicing image (bayer_conversion p)
    | Raise e => Raise e
    end.
Proof.
  intros Hin Hbuf.
  unfold _convert_frame_to_bgr. rewrite Hbuf.
  rewrite (bayer_variant_not_rgb p), (bayer_variant_accepted p),
    (bayer_variant_lookup p) by assumption.
  unfold bind, modify, lift_result.
  cbn [default from_option id].
  destruct (reshape _ _) as [image | e]; [| reflexivity].
  destruct p; cbn [pattern_code Z.eqb Pos.eqb]; reflexivity.
Qed.

Lemma convert_bayer_frame_Ok p f pData st :
  enPixelType f ∈ bayer_variants p ->
  pBufAddr f = Some pData ->
  length pData = nFrameLen f ->
  nFrameLen f = (nHeight f * nWidth f)%nat ->
  (0 < nHeight f * nWidth f)%nat ->
  fst (_convert_frame_to_bgr demosaicing f st)
  = Ok {| shape := [nHeight f; nWidth f; 3%nat];
          data := demosaicing (bayer_conversion p) (nHeight f) (nWidth f) pData |}.
Proof.
  intros Hin Hbuf Hlen Hn Hpos.
  rewrite (convert_bayer_frame p f pData st Hin Hbuf).
  rewrite copy_bytes_all by assumption.
  rewrite reshape_Ok by (cbn; lia).
  cbn [np_frombuffer data].
  rewrite cvtColor_gray_or_bayer by (destruct p; reflexivity || assumption).
  destruct p; reflexivity.
Qed.
End Converter.

Ltac classify_format :=
  repeat match goal with
  | |- context [is_rgb_format ?t] =>
      let b := eval vm_compute in (is_rgb_format t) in
      replace (is_rgb_format t) with b by (vm_compute; reflexivity)
  | |- context [is_bayer_format ?t] =>
      let b := eval vm_compute in (is_bayer_format t) in
      replace (is_bayer_format t) with b by (vm_compute; reflexivity)
  | |- context [is_mono_format ?t] =>
      let b := eval vm_compute in (is_mono_format t) in
      replace (is_mono_format t) with b by (vm_compute; reflexivity)
  | |- context [BAYER_TO_COLOR_CODE !! ?t] =>
      let b := eval vm_compute in (BAYER_TO_COLOR_CODE !! t) in
      replace (BAYER_TO_COLOR_CODE !! t) with b by (vm_compute; reflexivity)
  | |- context [bytes_per_pixel ?t] =>
      let b := eval vm_compute in (bytes_per_pixel t) in
      replace (bytes_per_pixel t) with b by (vm_compute; reflexivity)
  | |- context [Z.eqb ?a ?b] =>
      let b' := eval vm_compute in (Z.eqb a b) in
      replace (Z.eqb a b) with b' by (vm_compute; reflexivity)
  end.

Section ConverterShapes.
Variable demosaicing :
  ColorConversionCode -> nat -> nat -> list Byte.byte -> list Byte.byte.

(** Every format stored in one byte per channel converts to an image
    of shape height x width x 3. *)
Lemma convert_eight_bit_frame_shape f st :
  enPixelType f ∈ eight_bit_formats ->
  well_formed_frame f ->
  exists image,
    fst (_convert_frame_to_bgr demosaicing f st) = Ok image /\
    shape image = [nHeight f; nWidth f; 3%nat].
Proof.
  destruct f as [buf w h t n].
  unfold well_formed_frame. cbn [pBufAddr nWidth nHeight enPixelType nFrameLen].
  intros Hin (Hn & Hpos & pData & -> & Hlen).
  unfold eight_bit_formats in Hin.
  repeat (apply elem_of_cons in Hin as [-> | Hin]);
    try (inversion Hin; fail);
    unfold _convert_frame_to_bgr;
    cbn [pBufAddr nWidth nHeight enPixelType nFrameLen];
    revert Hn; classify_format; intros Hn;
    rewrite copy_bytes_all by assumption;
    unfold bind, modify, lift_result;
    cbn [default from_option id np_frombuffer data];
    rewrite reshape_Ok by (cbn; lia);
    cbn [fst data];
    first [ rewrite cvtColor_gray_or_bayer by (reflexivity || assumption)
          | rewrite cvtColor_packed by (reflexivity || assumption || lia)
          | idtac ];
    eexists; split; reflexivity.
Qed.
End ConverterShapes.

(** An RGB8 pixel (10, 20, 30) comes out as (30, 20, 10); a BGR8 buffer is
    passed through. *)
Example convert_rgb8_pixel :
  fst (_convert_frame_to_bgr no_demosaicing
         {| pBufAddr := Some [Byte.x0a; Byte.x14; Byte.x1e];
            nWidth := 1; nHeight := 1;
            enPixelType := PixelType_Gvsp_RGB8_Packed; nFrameLen := 3 |}
         (streaming_state "continuous"))
  = Ok {| shape := [1%nat; 1%nat; 3%nat];
          data := [Byte.x1e; Byte.x14; Byte.x0a] |}.
Proof. vm_compute. reflexivity. Qed.

Example convert_bgr8_pixel :
  fst (_convert_frame_to_bgr no_demosaicing
         {| pBufAddr := Some [Byte.x0a; Byte.x14; Byte.x1e];
            nWidth := 1; nHeight := 1;
            enPixelType := PixelType_Gvsp_BGR8_Packed; nFrameLen := 3 |}
         (streaming_state "continuous"))
  = Ok {| shape := [1%nat; 1%nat; 3%nat];
          data := [Byte.x0a; Byte.x14; Byte.x1e] |}.
Proof. vm_compute. reflexivity. Qed.

(** A format outside the three families is refused by name. *)
Example convert_yuv422_unsupported :
  fst (_convert_frame_to_bgr no_demosaicing
         (zero_frame PixelType_Gvsp_YUV422_Packed 2 2 8)
         (streaming_state "continuous"))
  = Raise (HikCameraError (UnsupportedPixelFormat "YUV422_Packed")).
Proof. vm_compute. reflexivity. Qed.

(** C1.  A well-formed Mono16 frame (two bytes per pixel, as its format code
    says) is classified as mono and then reshaped as if it held one byte
    per pixel: the conversion raises [ValueError] instead of producing a
    height x width x 3 image. *)
Theorem mono16_frame_conversion_raises
    (demosaicing : ColorConversionCode -> nat -> nat -> list Byte.byte -> list Byte.byte)
    (f : MV_FRAME_OUT) (st : State) :
  enPixelType f = PixelType_Gvsp_Mono16 ->
  well_formed_frame f ->
  is_mono_format (enPixelType f) = true /\
  fst (_convert_frame_to_bgr demosaicing f st)
  = Raise (ValueError "cannot reshape array").
Proof.
  destruct f as [buf w h t n].
  unfold well_formed_frame. cbn [pBufAddr nWidth nHeight enPixelType nFrameLen].
  intros -> (Hn & Hpos & pData & -> & Hlen).
  split; [vm_compute; reflexivity |].
  unfold _convert_frame_to_bgr.
  cbn [pBufAddr nWidth nHeight enPixelType nFrameLen].
  revert Hn; classify_format; intros Hn.
  rewrite copy_bytes_all by assumption.
  unfold bind, modify, lift_result.
  rewrite reshape_Raise by (cbn; lia).
  reflexivity.
Qed.

Lemma mono16_frame_conversion_raises_witness :
  is_mono_format PixelType_Gvsp_Mono16 = true /\
  fst (_convert_frame_to_bgr no_demosaicing
         (zero_frame PixelType_Gvsp_Mono16 2 2 8) (streaming_state "continuous"))
  = Raise (ValueError "cannot reshape array").
Proof.
  apply (mono16_frame_conversion_raises no_demosaicing
           (zero_frame PixelType_Gvsp_Mono16 2 2 8) (streaming_state "continuous")).
  - reflexivity.
  - split; [vm_compute; reflexivity |].
    split; [vm_compute; lia |].
    exists (replicate 8 Byte.x00). split; reflexivity.
Defined.

(** C9.  Every format code the Bayer classifier accepts is a variant of
    one colour pattern; all variants of that pattern, whatever their bit
    depth or packing, carry the pattern's code (GR 0, RG 1, GB 2, BG 3);
    and on a frame of that format the converter does nothing but reshape
    the buffer to height x width and apply the conversion of that pattern,
    which on a buffer of one byte per pixel yields the demosaiced
    height x width x 3 image. *)
Theorem bayer_demosaic_code_by_pattern (pixel_type : Z) :
  is_bayer_format pixel_type = true ->
  exists p,
    pixel_type ∈ bayer_variants p /\
    (forall t, t ∈ bayer_variants p ->
       is_bayer_format t = true /\
       BAYER_TO_COLOR_CODE !! t = Some (pattern_code p)) /\
    (forall demosaicing f pData st,
       enPixelType f = pixel_type ->
       pBufAddr f = Some pData ->
       fst (_convert_frame_to_bgr demosaicing f st)
       = match reshape (np_frombuffer (copy_bytes pData (nFrameLen f)))
                       [nHeight f; nWidth f] with
         | Ok image => cvtColor demosaicing image (bayer_conversion p)
         | Raise e => Raise e
         end) /\
    (forall demosaicing f pData st,
       enPixelType f = pixel_type ->
       pBufAddr f = Some pData ->
       length pData = nFrameLen f ->
       nFrameLen f = (nHeight f * nWidth f)%nat ->
       (0 < nHeight f * nWidth f)%nat ->
       fst (_convert_frame_to_bgr demosaicing f st)
       = Ok {| shape := [nHeight f; nWidth f; 3%nat];
               data := demosaicing (bayer_conversion p)
                         (nHeight f) (nWidth f) pData |}).
Proof.
  intros Hb. unfold is_bayer_format in Hb.
  apply bool_decide_eq_true in Hb as [code Hcode].
  destruct (bayer_lookup_variant _ _ Hcode) as (p & Hin & ->).
  exists p. split; [exact Hin | split; [| split]].
  - intros t Ht. split.
    + exact (bayer_variant_accepted p t Ht).
    + exact (bayer_variant_lookup p t Ht).
  - intros demosaicing f pData st Ht Hbuf. subst pixel_type.
    exact (convert_bayer_frame demosaicing p f pData st Hin Hbuf).
  - intros demosaicing f pData st Ht Hbuf Hlen Hn Hpos. subst pixel_type.
    exact (convert_bayer_frame_Ok demosaicing p f pData st Hin Hbuf Hlen Hn Hpos).
Qed.

Lemma bayer_demosaic_code_by_pattern_witness :
  BAYER_TO_COLOR_CODE !! PixelType_Gvsp_BayerRG12_Packed = Some 1 /\
  fst (_convert_frame_to_bgr no_demosaicing
         (zero_frame PixelType_Gvsp_BayerRG12_Packed 2 2 4)
         (streaming_state "continuous"))
  = Ok {| shape := [2%nat; 2%nat; 3%nat];
          data := no_demosaicing COLOR_BAYER_RG2BGR 2 2 (replicate 4 Byte.x00) |}.
Proof.
  destruct (bayer_demosaic_code_by_pattern PixelType_Gvsp_BayerRG12_Packed
              ltac:(vm_compute; reflexivity))
    as (p & Hin & Hcode & _ & Hconv).
  assert (p = RG) as ->.
  { destruct (Hcode _ Hin) as [_ Hp]. destruct p; vm_compute in Hp; congruence. }
  split.
  - exact (proj2 (Hcode _ Hin)).
  - apply (Hconv no_demosaicing
             (zero_frame PixelType_Gvsp_BayerRG12_Packed 2 2 4)
             (replicate 4 Byte.x00) (streaming_state "continuous"));
      [reflexivity | reflexivity | reflexivity | reflexivity | simpl; lia].
Defined.

(* ================================================================== *)
(** ** Running a method symbolically *)

Ltac unfold_monad :=
  unfold MV_CC_EnumDevices_out, MV_CC_GetIntValue_out,
    MV_CC_GetFloatValue_out, MV_CC_GetImageBuffer_out, update_config, if_given in *;
  unfold cam_call in *;
  unfold in_process, native_call, bind, gets, pure, raise, modify, lift_result,
    config_of, try_finally, try_except_pass in *.

Ltac reduce_state :=
  cbn [proc self _cam _config _is_running _device_info _pixel_type _nPayloadSize
       trace stdout _SDK_INITIALIZED _SDK_INIT_COUNT
       log_event print set_SDK_INITIALIZED set_SDK_INIT_COUNT
       on_self on_proc set_cam set_config set_is_running set_device_info
       set_pixel_type set_nPayloadSize fst snd negb
       HikCameraConfig.camera_index HikCameraConfig.trigger_mode
       HikCameraConfig.width HikCameraConfig.height HikCameraConfig.exposure
       HikCameraConfig.gain HikCameraConfig.fps HikCameraConfig.timeout
       HikCameraConfig.set_width HikCameraConfig.set_height
       HikCameraConfig.set_exposure HikCameraConfig.set_gain
       HikCameraConfig.set_fps HikCameraConfig.set_trigger_mode] in *.

(** Case analysis on the next test the method performs. *)
Ltac branch :=
  match goal with
  | |- context [if ?c then _ else _] =>
      lazymatch c with
      | context [rejected] => fail
      | negb ?x => destruct x eqn:?
      | _ => destruct c eqn:?
      end
  | |- context [match ?c with Some _ => _ | None => _ end] =>
      lazymatch c with
      | first_rejected _ => fail
      | _ => destruct c eqn:?
      end
  end; reduce_state.

(** The trace after a run is the trace before it followed by the new
    events. *)
Ltac solve_trace :=
  repeat match goal with
         | |- (?a ++ ?b) ++ ?c = _ => rewrite <- (app_assoc a b c)
         end;
  first [ reflexivity | symmetry; apply app_nil_r ].

Ltac use_tests :=
  repeat match goal with
         | H : _ = true |- _ => rewrite H
         | H : _ = false |- _ => rewrite H
         end.

(** The object is open: [self._cam] is not [None]. *)
Ltac open_session st Hcam :=
  let p := fresh "p" in
  let cam := fresh "cam" in
  let cfg := fresh "cfg" in
  let running := fresh "running" in
  let info := fresh "info" in
  let pt := fresh "pt" in
  let payload := fresh "payload" in
  destruct st as [p [cam cfg running info pt payload]];
  cbn [self _cam] in Hcam;
  destruct cam as [cam|]; [clear Hcam | contradiction].

(** ** Connection *)

(** C2, as amended.  The connection sequence tests the status of device
    enumeration, handle creation, device open and the payload-size query.
    The first of these calls that returns a non-success status makes the
    sequence raise an error carrying that status.  After a failed
    enumeration or handle creation no further native call is made; a
    failed open is followed by [MV_CC_DestroyHandle] and nothing else,
    after which no handle is left.  Statuses of the packet-size and
    trigger writes are ignored: when no tested call fails, the sequence
    succeeds or fails only for lack of a device at the configured
    index. *)
Theorem auto_connect_first_tested_failure_aborts (drv : Driver) (st : State) :
  _cam (self st) <> None ->
  exists evs,
    trace (proc (snd (_auto_connect drv st))) = trace (proc st) ++ evs /\
    match first_rejected evs with
    | Some ((c, r), rest) =>
        fst (_auto_connect drv st) = Raise (HikCameraError (connect_error c r)) /\
        sequence_ends_after c rest (trace (proc (snd (_auto_connect drv st))))
    | None =>
        fst (_auto_connect drv st) = Ok tt \/
        exists e, fst (_auto_connect drv st) = Raise e /\ enumeration_error e
    end.
Proof.
  intros Hcam. open_session st Hcam.
  unfold _auto_connect. unfold_monad. reduce_state.
  repeat branch.
  all: eexists; (split; [solve_trace |]).
  all: cbn [first_rejected app]; unfold rejected; cbn [fst snd].
  all: change (checked_call (MV_CC_GetIntValue "PayloadSize")) with true.
  all: cbn [checked_call andb]; use_tests; cbn [andb connect_error sequence_ends_after].
  all: try (split; [reflexivity |]).
  all: try reflexivity.
  all: try exact I.
  all: try (left; reflexivity).
  all: try (right; eexists; split; [reflexivity | unfold enumeration_error; eauto]; fail).
  all: split; [eexists; reflexivity | unfold handle_live; rewrite !foldl_app; reflexivity].
Qed.

Lemma auto_connect_first_tested_failure_aborts_witness :
  let drv := device_failing is_OpenDevice in
  let st := {| proc := fresh_process; self := connected_camera "trigger" |} in
  exists evs,
    trace (proc (snd (_auto_connect drv st))) = trace (proc st) ++ evs /\
    match first_rejected evs with
    | Some ((c, r), rest) =>
        fst (_auto_connect drv st) = Raise (HikCameraError (connect_error c r)) /\
        sequence_ends_after c rest (trace (proc (snd (_auto_connect drv st))))
    | None =>
        fst (_auto_connect drv st) = Ok tt \/
        exists e, fst (_auto_connect drv st) = Raise e /\ enumeration_error e
    end.
Proof.
  apply (auto_connect_first_tested_failure_aborts
           (device_failing is_OpenDevice)
           {| proc := fresh_process; self := connected_camera "trigger" |}).
  simpl. discriminate.
Defined.

(** C2 as stated fails twice.  On a device that rejects the trigger-mode
    write the constructor still succeeds, so a non-success status did not
    abort the sequence; on a device that rejects the payload-size query the
    constructor raises while the created handle has not been destroyed. *)
Lemma connect_failure_counterexample :
  (let out := __init__ (device_failing is_SetEnumValue) 0 "continuous" None
                       fresh_process in
   (exists obj, fst out = Ok obj) /\
   (MV_CC_SetEnumValue "TriggerMode" MV_TRIGGER_MODE_OFF, MV_E_PARAMETER)
     ∈ trace (snd out)) /\
  (let out := __init__ (device_failing is_PayloadSize) 0 "continuous" None
                       fresh_process in
   fst out = Raise (HikCameraError (PayloadSizeFailed MV_E_PARAMETER)) /\
   handle_live (trace (snd out)) = true /\
   Forall (fun ev => fst ev <> MV_CC_DestroyHandle) (trace (snd out))).
Proof.
  split.
  - vm_compute. split; [eexists; reflexivity |].
    do 4 apply list_elem_of_further. apply list_elem_of_here.
  - vm_compute. split; [reflexivity | split; [reflexivity |]].
    repeat constructor; discriminate.
Qed.

(** ** Closing *)

(** C3.  [close] calls [stop] outside its [try] block, so on a streaming
    session whose stop-grabbing call returns a non-success status [close]
    raises, leaving the handle open and the reference count untouched.
    And [close] on an already closed session is not a no-op: it decrements
    the process-wide count again and, the count having reached zero or
    less, calls the native finalizer again. *)
Theorem close_raises_and_repeats_release (drv : Driver) (st closed : State) :
  _cam (self st) <> None ->
  _is_running (self st) = true ->
  status_of drv (trace (proc st)) MV_CC_StopGrabbing <> 0 ->
  _cam (self closed) = None ->
  _is_running (self closed) = false ->
  _SDK_INIT_COUNT (proc closed) <= 1 ->
  close drv st =
    (Raise (HikCameraError
              (StopGrabbingFailed (status_of drv (trace (proc st)) MV_CC_StopGrabbing))),
     on_proc (log_event (MV_CC_StopGrabbing,
                         status_of drv (trace (proc st)) MV_CC_StopGrabbing)) st) /\
  fst (close drv closed) = Ok tt /\
  _SDK_INIT_COUNT (proc (snd (close drv closed))) = _SDK_INIT_COUNT (proc closed) - 1 /\
  trace (proc (snd (close drv closed))) =
    trace (proc closed) ++
    [(MV_CC_Finalize, status_of drv (trace (proc closed)) MV_CC_Finalize)].
Proof.
  intros Hcam Hrun Hstop Hnone Hidle Hcount.
  split.
  - open_session st Hcam. cbn [self _is_running proc trace] in *. subst running.
    unfold close, stop. unfold_monad. reduce_state.
    destruct (Z.eqb_spec (status_of drv (trace p) MV_CC_StopGrabbing) 0);
      [contradiction | reflexivity].
  - destruct closed as [p [cam cfg running info pt payload]].
    cbn [self _cam _is_running proc _SDK_INIT_COUNT] in *. subst cam running.
    unfold close, stop. unfold_monad. reduce_state.
    destruct (Z.leb_spec (_SDK_INIT_COUNT p - 1) 0); [| lia].
    reduce_state. repeat split.
Qed.

Lemma close_raises_and_repeats_release_witness :
  let drv := device_failing is_StopGrabbing in
  let st := streaming_state "continuous" in
  let closed := snd (close healthy_device (connected_state "continuous")) in
  close drv st =
    (Raise (HikCameraError
              (StopGrabbingFailed (status_of drv (trace (proc st)) MV_CC_StopGrabbing))),
     on_proc (log_event (MV_CC_StopGrabbing,
                         status_of drv (trace (proc st)) MV_CC_StopGrabbing)) st) /\
  fst (close drv closed) = Ok tt /\
  _SDK_INIT_COUNT (proc (snd (close drv closed))) = _SDK_INIT_COUNT (proc closed) - 1 /\
  trace (proc (snd (close drv closed))) =
    trace (proc closed) ++
    [(MV_CC_Finalize, status_of drv (trace (proc closed)) MV_CC_Finalize)].
Proof.
  apply (close_raises_and_repeats_release
           (device_failing is_StopGrabbing)
           (streaming_state "continuous")
           (snd (close healthy_device (connected_state "continuous")))).
  - simpl. discriminate.
  - reflexivity.
  - vm_compute. discriminate.
  - reflexivity.
  - reflexivity.
  - vm_compute. discriminate.
Defined.

(** One session, closed twice on a healthy device: two native finalize
    calls and a reference count of -1. *)
Example close_twice_finalizes_twice :
  let out := (close healthy_device ;; close healthy_device)
               (connected_state "continuous") in
  fst out = Ok tt /\
  count_events is_Finalize (trace (proc (snd out))) = 2%nat /\
  _SDK_INIT_COUNT (proc (snd out)) = -1.
Proof. vm_compute. repeat split. Qed.

(** ** Property setters *)

(** C4, as amended.  The setters of width, height, exposure and fps store
    the value in the cached config before they issue the native write, so
    the cache holds the new value whether or not the write succeeds; the
    setter raises exactly when the write (for exposure: both writes)
    returns a non-success status. *)
Theorem setters_store_before_native_write (drv : Driver) (st : State) :
  _cam (self st) <> None ->
  (forall value,
     let r := status_of drv (trace (proc st)) (MV_CC_SetIntValue "Width" value) in
     HikCameraConfig.width (config_of (snd (width_setter drv value st))) = value /\
     fst (width_setter drv value st) =
       if r =? 0 then Ok tt
       else Raise (HikCameraError (SetValueFailed "Width" r))) /\
  (forall value,
     let r := status_of drv (trace (proc st)) (MV_CC_SetIntValue "Height" value) in
     HikCameraConfig.height (config_of (snd (height_setter drv value st))) = value /\
     fst (height_setter drv value st) =
       if r =? 0 then Ok tt
       else Raise (HikCameraError (SetValueFailed "Height" r))) /\
  (forall value,
     let c1 := MV_CC_SetFloatValue "ExposureTime" (inject_Z value) in
     let r1 := status_of drv (trace (proc st)) c1 in
     let r2 := status_of drv (trace (proc st) ++ [(c1, r1)])
                 (MV_CC_SetIntValue "ExposureTime" value) in
     HikCameraConfig.exposure (config_of (snd (exposure_setter drv value st))) = value /\
     fst (exposure_setter drv value st) =
       if r1 =? 0 then Ok tt
       else if r2 =? 0 then Ok tt
       else Raise (HikCameraError (SetValueFailed "ExposureTime" r2))) /\
  (forall value,
     let r := status_of drv (trace (proc st))
                (MV_CC_SetFloatValue "AcquisitionFrameRate" value) in
     HikCameraConfig.fps (config_of (snd (fps_setter drv value st)))
       = int_of_float value /\
     fst (fps_setter drv value st) =
       if r =? 0 then Ok tt
       else Raise (HikCameraError (SetValueFailed "AcquisitionFrameRate" r))).
Proof.
  intros Hcam. open_session st Hcam.
  repeat split; intros;
    repeat match goal with x := _ |- _ => subst x end;
    unfold width_setter, height_setter, exposure_setter, fps_setter;
    unfold_monad; reduce_state; repeat branch;
    first [reflexivity | congruence].
Qed.

Lemma setters_store_before_native_write_witness :
  let drv := device_failing is_parameter_write in
  let st := connected_state "continuous" in
  HikCameraConfig.width (config_of (snd (width_setter drv 640 st))) = 640 /\
  fst (width_setter drv 640 st) =
    Raise (HikCameraError (SetValueFailed "Width" MV_E_PARAMETER)).
Proof.
  exact (proj1 (setters_store_before_native_write
                  (device_failing is_parameter_write)
                  (connected_state "continuous")
                  ltac:(simpl; discriminate)) 640).
Defined.

(** C4 as stated fails: the native width write is rejected, the setter
    raises, and the cached width has changed from 1280 to 640. *)
Lemma width_setter_cache_counterexample :
  let drv := device_failing is_parameter_write in
  let st := connected_state "continuous" in
  fst (width_setter drv 640 st) =
    Raise (HikCameraError (SetValueFailed "Width" MV_E_PARAMETER)) /\
  HikCameraConfig.width (config_of st) = 1280 /\
  HikCameraConfig.width (config_of (snd (width_setter drv 640 st))) = 640.
Proof. vm_compute. repeat split. Qed.


(** ** Triggered acquisition *)

(** C10.  On an open session in trigger mode that is not streaming,
    [trigger_and_get_image] first sends the software trigger to the device
    and only then fails: the one effect of the call is the trigger command
    in the trace, no image is returned, and when the device accepts the
    trigger the failure is the not-streaming error. *)
Theorem trigger_sent_before_not_streaming
    (drv : Driver)
    (demosaicing : ColorConversionCode -> nat -> nat -> list Byte.byte -> list Byte.byte)
    (timeout : option Z) (st : State) :
  _cam (self st) <> None ->
  HikCameraConfig.trigger_mode (config_of st) = "trigger" ->
  _is_running (self st) = false ->
  let c := MV_CC_SetCommandValue "TriggerSoftware" in
  let r := status_of drv (trace (proc st)) c in
  snd (trigger_and_get_image drv demosaicing timeout st)
    = on_proc (log_event (c, r)) st /\
  fst (trigger_and_get_image drv demosaicing timeout st)
    = Raise (HikCameraError (if r =? 0 then NotStreaming else TriggerFailed r)).
Proof.
  intros Hcam Hmode Hidle. open_session st Hcam.
  unfold config_of in Hmode. cbn [self _config _is_running] in Hmode, Hidle.
  subst running. cbv zeta.
  unfold trigger_and_get_image, get_image. unfold_monad. reduce_state.
  rewrite Hmode. rewrite (bool_decide_eq_true_2 _ eq_refl). reduce_state.
  destruct (status_of drv (trace p) (MV_CC_SetCommandValue "TriggerSoftware") =? 0);
    reduce_state; split; reflexivity.
Qed.

Lemma trigger_sent_before_not_streaming_witness :
  let st := connected_state "trigger" in
  let c := MV_CC_SetCommandValue "TriggerSoftware" in
  snd (trigger_and_get_image healthy_device no_demosaicing None st)
    = on_proc (log_event (c, 0)) st /\
  fst (trigger_and_get_image healthy_device no_demosaicing None st)
    = Raise (HikCameraError NotStreaming).
Proof.
  apply (trigger_sent_before_not_streaming healthy_device no_demosaicing None
           (connected_state "trigger")).
  - simpl. discriminate.
  - reflexivity.
  - reflexivity.
Defined.

(** ** Gain *)

(** C8.  When both native gain writes ("Gain", then "AnalogGain") return a
    non-success status the gain setter returns normally, its only trace of
    the failure being a warning line, and [set_params(gain=value)] behaves
    as the setter does.  The same failure in the width, height, exposure,
    fps and offset setters raises. *)
Theorem gain_write_failure_is_a_warning (drv : Driver) (st : State) (value : Q) :
  _cam (self st) <> None ->
  let c1 := MV_CC_SetFloatValue "Gain" value in
  let r1 := status_of drv (trace (proc st)) c1 in
  let c2 := MV_CC_SetFloatValue "AnalogGain" value in
  let r2 := status_of drv (trace (proc st) ++ [(c1, r1)]) c2 in
  r1 <> 0 -> r2 <> 0 ->
  (fst (gain_setter drv value st) = Ok tt /\
   stdout (proc (snd (gain_setter drv value st)))
     = stdout (proc st) ++ [GainWarning r2] /\
   set_params drv None None None (Some value) None None None None st
     = gain_setter drv value st) /\
  (forall v, status_of drv (trace (proc st)) (MV_CC_SetIntValue "Width" v) <> 0 ->
     exists e, fst (width_setter drv v st) = Raise (HikCameraError e)) /\
  (forall v, status_of drv (trace (proc st)) (MV_CC_SetIntValue "Height" v) <> 0 ->
     exists e, fst (height_setter drv v st) = Raise (HikCameraError e)) /\
  (forall v,
     let e1 := MV_CC_SetFloatValue "ExposureTime" (inject_Z v) in
     let s1 := status_of drv (trace (proc st)) e1 in
     s1 <> 0 ->
     status_of drv (trace (proc st) ++ [(e1, s1)])
       (MV_CC_SetIntValue "ExposureTime" v) <> 0 ->
     exists e, fst (exposure_setter drv v st) = Raise (HikCameraError e)) /\
  (forall v,
     status_of drv (trace (proc st))
       (MV_CC_SetFloatValue "AcquisitionFrameRate" v) <> 0 ->
     exists e, fst (fps_setter drv v st) = Raise (HikCameraError e)) /\
  (forall v, status_of drv (trace (proc st)) (MV_CC_SetIntValue "OffsetX" v) <> 0 ->
     exists e, fst (_set_offset_x drv v st) = Raise (HikCameraError e)) /\
  (forall v, status_of drv (trace (proc st)) (MV_CC_SetIntValue "OffsetY" v) <> 0 ->
     exists e, fst (_set_offset_y drv v st) = Raise (HikCameraError e)).
Proof.
  intros Hcam c1 r1 c2 r2 Hr1 Hr2. subst c1 r1 c2 r2.
  open_session st Hcam. cbn [proc trace stdout] in *.
  apply Z.eqb_neq in Hr1, Hr2.
  split; [| repeat apply conj].
  - unfold set_params, gain_setter. unfold_monad. reduce_state.
    rewrite Hr1. reduce_state. rewrite Hr2. reduce_state.
    repeat split.
  - intros v Hv. apply Z.eqb_neq in Hv.
    unfold width_setter. unfold_monad. reduce_state. rewrite Hv. eauto.
  - intros v Hv. apply Z.eqb_neq in Hv.
    unfold height_setter. unfold_monad. reduce_state. rewrite Hv. eauto.
  - intros v Hv1 Hv2. apply Z.eqb_neq in Hv1, Hv2.
    unfold exposure_setter. unfold_monad. reduce_state.
    rewrite Hv1. reduce_state. rewrite Hv2. eauto.
  - intros v Hv. apply Z.eqb_neq in Hv.
    unfold fps_setter. unfold_monad. reduce_state. rewrite Hv. eauto.
  - intros v Hv. apply Z.eqb_neq in Hv.
    unfold _set_offset_x. unfold_monad. reduce_state. rewrite Hv. eauto.
  - intros v Hv. apply Z.eqb_neq in Hv.
    unfold _set_offset_y. unfold_monad. reduce_state. rewrite Hv. eauto.
Qed.


Lemma gain_write_failure_is_a_warning_witness :
  let drv := device_failing is_parameter_write in
  let st := connected_state "continuous" in
  (fst (gain_setter drv (inject_Z 5) st) = Ok tt /\
   stdout (proc (snd (gain_setter drv (inject_Z 5) st))) = [GainWarning MV_E_PARAMETER] /\
   set_params drv None None None (Some (inject_Z 5)) None None None None st
     = gain_setter drv (inject_Z 5) st) /\
  exists e, fst (width_setter drv 640 st) = Raise (HikCameraError e).
Proof.
  pose proof (gain_write_failure_is_a_warning
                (device_failing is_parameter_write)
                (connected_state "continuous") (inject_Z 5)
                ltac:(simpl; discriminate)
                ltac:(vm_compute; discriminate)
                ltac:(vm_compute; discriminate)) as [Hgain [Hwidth _]].
  split.
  - exact Hgain.
  - apply (Hwidth 640). vm_compute. discriminate.
Defined.

(** ** Parameter update *)

(** C7, as amended.  [set_params(width=w)] validates nothing: whatever [w]
    is, it is stored in the cached config and handed unchanged to the
    native width write, and the call fails only if that write returns a
    non-success status.  The config rules are enforced in one place, the
    construction of a [HikCameraConfig], which rejects a non-positive
    width. *)
Theorem set_params_width_is_not_validated (drv : Driver) (st : State) (w : Z) :
  _cam (self st) <> None ->
  let c := MV_CC_SetIntValue "Width" w in
  let r := status_of drv (trace (proc st)) c in
  let out := set_params drv (Some w) None None None None None None None st in
  trace (proc (snd out)) = trace (proc st) ++ [(c, r)] /\
  HikCameraConfig.width (config_of (snd out)) = w /\
  fst out = (if r =? 0 then Ok tt
             else Raise (HikCameraError (SetValueFailed "Width" r))) /\
  (w <= 0 ->
   forall camera_index trigger_mode height exposure gain fps timeout,
   exists msg,
     HikCameraConfig.new camera_index trigger_mode w height exposure gain fps timeout
     = Raise (ValueError msg)).
Proof.
  intros Hcam c r out. subst c r out. open_session st Hcam.
  unfold set_params, width_setter. unfold_monad. reduce_state.
  repeat apply conj.
  - branch; reflexivity.
  - branch; reflexivity.
  - branch; reflexivity.
  - intros Hw camera_index trigger_mode height exposure gain fps timeout.
    unfold HikCameraConfig.new, HikCameraConfig.__post_init__.
    cbn [HikCameraConfig.camera_index HikCameraConfig.trigger_mode
         HikCameraConfig.width HikCameraConfig.height].
    destruct (negb _); [eauto |].
    destruct (camera_index <? 0); [eauto |].
    destruct (Z.leb_spec w 0); [| lia].
    cbn [orb]. eauto.
Qed.

Lemma set_params_width_is_not_validated_witness :
  let st := connected_state "continuous" in
  let out := set_params healthy_device (Some (-1)) None None None None None None None st in
  trace (proc (snd out)) = [(MV_CC_SetIntValue "Width" (-1), 0)] /\
  HikCameraConfig.width (config_of (snd out)) = -1 /\
  fst out = Ok tt /\
  (-1 <= 0 ->
   forall camera_index trigger_mode height exposure gain fps timeout,
   exists msg,
     HikCameraConfig.new camera_index trigger_mode (-1) height exposure gain fps timeout
     = Raise (ValueError msg)).
Proof.
  apply (set_params_width_is_not_validated healthy_device
           (connected_state "continuous") (-1)).
  simpl. discriminate.
Defined.

(** C7 as stated fails: on a device that accepts the write,
    [set_params(width=-1)] returns normally, after the native write of -1
    has been issued, and the cached width is -1. *)
Lemma set_params_negative_width_counterexample :
  let st := connected_state "continuous" in
  let out := set_params healthy_device (Some (-1)) None None None None None None None st in
  fst out = Ok tt /\
  trace (proc (snd out)) = [(MV_CC_SetIntValue "Width" (-1), 0)] /\
  HikCameraConfig.width (config_of (snd out)) = -1.
Proof. vm_compute. repeat split. Qed.


(** ** Parameter snapshot *)

Section Snapshot.
Variable drv : Driver.

(** Each getter of the snapshot is one query (two for the exposure when
    the float node fails) whose value is used when the status is 0. *)
Lemma get_exposure_eq (p : Process) (obj : HikCamera) :
  _cam obj <> None ->
  let q1 := MV_CC_GetFloatValue "ExposureTime" in
  let r1 := status_of drv (trace p) q1 in
  let h1 := trace p ++ [(q1, r1)] in
  let q2 := MV_CC_GetIntValue "ExposureTime" in
  let r2 := status_of drv h1 q2 in
  _get_exposure drv {| proc := p; self := obj |}
  = (Ok (if r1 =? 0 then fCurValue_of drv (trace p) "ExposureTime"
         else if r2 =? 0 then inject_Z (nCurValue_of drv h1 "ExposureTime")
         else inject_Z 0),
     {| proc := if r1 =? 0 then log_event (q1, r1) p
                else log_event (q2, r2) (log_event (q1, r1) p);
        self := obj |}).
Proof.
  intros Hcam. destruct obj as [[cam |] cfg running info pt payload];
    [| contradiction].
  cbv zeta. unfold _get_exposure. unfold_monad. reduce_state.
  repeat branch; reflexivity.
Qed.

Lemma float_getter_eq (key : string) (p : Process) (obj : HikCamera) :
  _cam obj <> None ->
  let r := status_of drv (trace p) (MV_CC_GetFloatValue key) in
  (let* (ret, fCurValue) := MV_CC_GetFloatValue_out drv key in
   if ret =? 0 then pure fCurValue else pure (inject_Z 0))
    {| proc := p; self := obj |}
  = (Ok (if r =? 0 then fCurValue_of drv (trace p) key else inject_Z 0),
     {| proc := log_event (MV_CC_GetFloatValue key, r) p; self := obj |}).
Proof.
  intros Hcam. destruct obj as [[cam |] cfg running info pt payload];
    [| contradiction].
  cbv zeta. unfold_monad. reduce_state. repeat branch; reflexivity.
Qed.

Lemma int_getter_eq (key : string) (p : Process) (obj : HikCamera) :
  _cam obj <> None ->
  let r := status_of drv (trace p) (MV_CC_GetIntValue key) in
  (let* (ret, nCurValue) := MV_CC_GetIntValue_out drv key in
   if ret =? 0 then pure nCurValue else pure 0)
    {| proc := p; self := obj |}
  = (Ok (if r =? 0 then nCurValue_of drv (trace p) key else 0),
     {| proc := log_event (MV_CC_GetIntValue key, r) p; self := obj |}).
Proof.
  intros Hcam. destruct obj as [[cam |] cfg running info pt payload];
    [| contradiction].
  cbv zeta. unfold_monad. reduce_state. repeat branch; reflexivity.
Qed.

(** The whole call, as one equation on result and state. *)
Lemma get_params_eq (p : Process) (obj : HikCamera) :
  _cam obj <> None ->
  let h0 := trace p in
  let q1 := MV_CC_GetFloatValue "ExposureTime" in
  let r1 := status_of drv h0 q1 in
  let h1 := h0 ++ [(q1, r1)] in
  let q2 := MV_CC_GetIntValue "ExposureTime" in
  let r2 := status_of drv h1 q2 in
  let h2 := if r1 =? 0 then h1 else h1 ++ [(q2, r2)] in
  let q3 := MV_CC_GetFloatValue "Gain" in
  let r3 := status_of drv h2 q3 in
  let h3 := h2 ++ [(q3, r3)] in
  let q4 := MV_CC_GetFloatValue "AcquisitionFrameRate" in
  let r4 := status_of drv h3 q4 in
  let h4 := h3 ++ [(q4, r4)] in
  let q5 := MV_CC_GetIntValue "OffsetX" in
  let r5 := status_of drv h4 q5 in
  let h5 := h4 ++ [(q5, r5)] in
  let q6 := MV_CC_GetIntValue "OffsetY" in
  let r6 := status_of drv h5 q6 in
  get_params drv {| proc := p; self := obj |}
  = (Ok (CameraParams.mk
           (HikCameraConfig.width (_config obj))
           (HikCameraConfig.height (_config obj))
           (if r1 =? 0 then fCurValue_of drv h0 "ExposureTime"
            else if r2 =? 0 then inject_Z (nCurValue_of drv h1 "ExposureTime")
            else inject_Z 0)
           (if r3 =? 0 then fCurValue_of drv h2 "Gain" else inject_Z 0)
           (if r4 =? 0 then fCurValue_of drv h3 "AcquisitionFrameRate" else inject_Z 0)
           (pixel_format_name_of (_pixel_type obj))
           (HikCameraConfig.trigger_mode (_config obj))
           (if r5 =? 0 then nCurValue_of drv h4 "OffsetX" else 0)
           (if r6 =? 0 then nCurValue_of drv h5 "OffsetY" else 0)),
     {| proc := {| _SDK_INITIALIZED := _SDK_INITIALIZED p;
                   _SDK_INIT_COUNT := _SDK_INIT_COUNT p;
                   trace := h5 ++ [(q6, r6)];
                   stdout := stdout p |};
        self := obj |}).
Proof.
  intros Hcam. cbv zeta.
  unfold get_params, width, height, trigger_mode, config_of.
  unfold bind, gets, pure. cbn [self proc].
  rewrite (get_exposure_eq p obj Hcam).
  change (_get_gain drv) with
    (let* (ret, fCurValue) := MV_CC_GetFloatValue_out drv "Gain" in
     if ret =? 0 then pure fCurValue else pure (inject_Z 0)).
  change (_get_fps drv) with
    (let* (ret, fCurValue) := MV_CC_GetFloatValue_out drv "AcquisitionFrameRate" in
     if ret =? 0 then pure fCurValue else pure (inject_Z 0)).
  change (_get_offset_x drv) with
    (let* (ret, nCurValue) := MV_CC_GetIntValue_out drv "OffsetX" in
     if ret =? 0 then pure nCurValue else pure 0).
  change (_get_offset_y drv) with
    (let* (ret, nCurValue) := MV_CC_GetIntValue_out drv "OffsetY" in
     if ret =? 0 then pure nCurValue else pure 0).
  rewrite (float_getter_eq "Gain" _ obj Hcam).
  rewrite (float_getter_eq "AcquisitionFrameRate" _ obj Hcam).
  rewrite (int_getter_eq "OffsetX" _ obj Hcam).
  rewrite (int_getter_eq "OffsetY" _ obj Hcam).
  destruct (status_of drv (trace p) (MV_CC_GetFloatValue "ExposureTime") =? 0);
    reflexivity.
Qed.

(** C5.  [get_params] builds the snapshot under the comment "get the
    actual parameter values", and reads exposure, gain, fps and the two
    offsets from the device: on an open session it issues exactly the
    queries ExposureTime (float, then integer if the float query fails),
    Gain, AcquisitionFrameRate, OffsetX and OffsetY, in this order, and
    each of these fields is the value the device reports for its node at
    that moment, or 0 when the query fails.  Width and height are not read:
    the snapshot carries the values of the cached config whatever the
    device reports, and no query on the Width or Height node is among the
    events of the call.  Trigger mode is the cached one and the
    pixel-format name comes from the last converted frame; the object is
    left unchanged. *)
Theorem get_params_width_height_from_cache (st : State) :
  _cam (self st) <> None ->
  let h0 := trace (proc st) in
  let q1 := MV_CC_GetFloatValue "ExposureTime" in
  let r1 := status_of drv h0 q1 in
  let h1 := h0 ++ [(q1, r1)] in
  let q2 := MV_CC_GetIntValue "ExposureTime" in
  let r2 := status_of drv h1 q2 in
  let h2 := if r1 =? 0 then h1 else h1 ++ [(q2, r2)] in
  let q3 := MV_CC_GetFloatValue "Gain" in
  let r3 := status_of drv h2 q3 in
  let h3 := h2 ++ [(q3, r3)] in
  let q4 := MV_CC_GetFloatValue "AcquisitionFrameRate" in
  let r4 := status_of drv h3 q4 in
  let h4 := h3 ++ [(q4, r4)] in
  let q5 := MV_CC_GetIntValue "OffsetX" in
  let r5 := status_of drv h4 q5 in
  let h5 := h4 ++ [(q5, r5)] in
  let q6 := MV_CC_GetIntValue "OffsetY" in
  let r6 := status_of drv h5 q6 in
  let out := get_params drv st in
  fst out
  = Ok (CameraParams.mk
          (HikCameraConfig.width (config_of st))
          (HikCameraConfig.height (config_of st))
          (if r1 =? 0 then fCurValue_of drv h0 "ExposureTime"
           else if r2 =? 0 then inject_Z (nCurValue_of drv h1 "ExposureTime")
           else inject_Z 0)
          (if r3 =? 0 then fCurValue_of drv h2 "Gain" else inject_Z 0)
          (if r4 =? 0 then fCurValue_of drv h3 "AcquisitionFrameRate" else inject_Z 0)
          (pixel_format_name_of (_pixel_type (self st)))
          (HikCameraConfig.trigger_mode (config_of st))
          (if r5 =? 0 then nCurValue_of drv h4 "OffsetX" else 0)
          (if r6 =? 0 then nCurValue_of drv h5 "OffsetY" else 0)) /\
  self (snd out) = self st /\
  trace (proc (snd out)) = h5 ++ [(q6, r6)] /\
  exists evs,
    trace (proc (snd out)) = h0 ++ evs /\
    Forall (fun ev => fst ev <> MV_CC_GetIntValue "Width" /\
                      fst ev <> MV_CC_GetIntValue "Height") evs.
Proof.
  intros Hcam. destruct st as [p obj]. cbn [self proc] in Hcam.
  pose proof (get_params_eq p obj Hcam) as Heq.
  cbv zeta in *. unfold config_of. cbn [self proc]. rewrite Heq.
  cbn [fst snd proc self trace].
  refine (conj eq_refl (conj eq_refl (conj eq_refl _))).
  destruct (status_of drv (trace p) (MV_CC_GetFloatValue "ExposureTime") =? 0);
    (eexists; split; [solve_trace |]);
    repeat constructor; discriminate.
Qed.
End Snapshot.

(** The device reports 640 x 480 on its width and height nodes, the cached
    config says 1280 x 720: the snapshot carries 1280 x 720, and the five
    queries of the call are all on other nodes. *)
Lemma get_params_width_height_from_cache_witness :
  let st := connected_state "continuous" in
  let out := get_params device_640x480 st in
  nCurValue_of device_640x480 (trace (proc st)) "Width" = 640 /\
  nCurValue_of device_640x480 (trace (proc st)) "Height" = 480 /\
  (exists params,
     fst out = Ok params /\
     CameraParams.width params = 1280 /\
     CameraParams.height params = 720) /\
  trace (proc (snd out))
  = [(MV_CC_GetFloatValue "ExposureTime", 0); (MV_CC_GetFloatValue "Gain", 0);
     (MV_CC_GetFloatValue "AcquisitionFrameRate", 0);
     (MV_CC_GetIntValue "OffsetX", 0); (MV_CC_GetIntValue "OffsetY", 0)].
Proof.
  pose proof (get_params_width_height_from_cache device_640x480
                (connected_state "continuous") ltac:(simpl; discriminate))
    as (Hres & _ & Htrace & _).
  refine (conj eq_refl (conj eq_refl (conj _ _))).
  - eexists. split; [exact Hres |]. split; reflexivity.
  - rewrite Htrace. reflexivity.
Defined.


(** ** The SDK lifecycle guard *)

Lemma count_events_snoc f (t : list Event) ev :
  count_events f (t ++ [ev]) = (count_events f t + (if f ev then 1 else 0))%nat.
Proof.
  unfold count_events. rewrite filter_app, length_app. f_equal.
  rewrite filter_cons. destruct (f ev); reflexivity.
Qed.

(** Rewrites the view of a process whose trace has grown by events that
    are shown in the goal. *)
Ltac view_of_trace :=
  unfold sdk_view; reduce_state;
  rewrite ?count_events_snoc;
  cbn [is_Initialize is_Finalize fst
       initialized init_count initialize_calls finalize_calls];
  rewrite ?Nat.add_0_r, ?Nat.add_1_r.

Section Guard.
Variable drv : Driver.

Lemma start_view st : sdk_view (proc (snd (start drv st))) = sdk_view (proc st).
Proof.
  destruct st as [p [[cam|] cfg running info pt payload]];
    unfold start; unfold_monad; reduce_state; repeat branch;
    view_of_trace; reflexivity.
Qed.

Lemma stop_view st : sdk_view (proc (snd (stop drv st))) = sdk_view (proc st).
Proof.
  destruct st as [p [[cam|] cfg running info pt payload]];
    unfold stop; unfold_monad; reduce_state; repeat branch;
    view_of_trace; reflexivity.
Qed.

Lemma auto_connect_view st :
  sdk_view (proc (snd (_auto_connect drv st))) = sdk_view (proc st).
Proof.
  destruct st as [p [[cam|] cfg running info pt payload]];
    unfold _auto_connect; unfold_monad; reduce_state; repeat branch;
    view_of_trace; reflexivity.
Qed.

Lemma close_view st :
  fst (close drv st) = Ok tt ->
  sdk_view (proc (snd (close drv st))) = sdk_step (sdk_view (proc st)) (Close 0).
Proof.
  destruct st as [p [[cam|] cfg running info pt payload]];
    unfold close, stop; unfold_monad; reduce_state; repeat branch;
    intros Hok; try discriminate Hok;
    unfold sdk_step; view_of_trace; use_tests; view_of_trace; reflexivity.
Qed.

Lemma init_view camera_index mode config p obj :
  fst (__init__ drv camera_index mode config p) = Ok obj ->
  sdk_view (snd (__init__ drv camera_index mode config p))
  = sdk_step (sdk_view p) (New camera_index mode config).
Proof.
  unfold __init__. unfold_monad. reduce_state.
  repeat branch.
  all: repeat match goal with
       | |- context [HikCameraConfig.new ?a ?b ?c ?d ?e ?f ?g ?h] =>
           destruct (HikCameraConfig.new a b c d e f g h)
       end; reduce_state.
  all: try (intros Hok; discriminate Hok).
  all: match goal with
       | |- context [_auto_connect drv ?s] =>
           pose proof (auto_connect_view s) as Hview;
           destruct (_auto_connect drv s) as [[u | e] st']
       end; reduce_state.
  all: intros Hok; try discriminate Hok.
  all: rewrite Hview; unfold sdk_step; view_of_trace; use_tests; reflexivity.
Qed.
End Guard.


Section Programs.
Variable drv : Driver.

Lemma exec_view op sys :
  fst (exec drv op sys) = Ok tt ->
  sdk_view (process (snd (exec drv op sys))) = sdk_step (sdk_view (process sys)) op.
Proof.
  destruct op as [camera_index mode config | i | i | i]; unfold exec, on_object.
  - pose proof (init_view drv camera_index mode config (process sys)) as Hview.
    destruct (__init__ drv camera_index mode config (process sys)) as [[obj | e] p'];
      cbn [fst snd process] in *; intros Hok; [eauto | discriminate Hok].
  - destruct (objects sys !! i) as [obj |]; [| intros Hok; discriminate Hok].
    pose proof (start_view drv {| proc := process sys; self := obj |}) as Hview.
    destruct (start drv _) as [r st']. cbn [fst snd process proc] in *.
    intros _. exact Hview.
  - destruct (objects sys !! i) as [obj |]; [| intros Hok; discriminate Hok].
    pose proof (stop_view drv {| proc := process sys; self := obj |}) as Hview.
    destruct (stop drv _) as [r st']. cbn [fst snd process proc] in *.
    intros _. exact Hview.
  - destruct (objects sys !! i) as [obj |]; [| intros Hok; discriminate Hok].
    pose proof (close_view drv {| proc := process sys; self := obj |}) as Hview.
    destruct (close drv _) as [r st']. cbn [fst snd process proc] in *.
    intros Hok. exact (Hview Hok).
Qed.

(** The guard refines the counter machine [sdk_step]: a program that runs
    to its end without an exception leaves the view the machine
    computes. *)
Lemma run_view prog : forall sys,
  fst (run drv prog sys) = Ok tt ->
  sdk_view (process (snd (run drv prog sys)))
  = foldl sdk_step (sdk_view (process sys)) prog.
Proof.
  induction prog as [| op rest IH]; intros sys Hok.
  - reflexivity.
  - cbn [run foldl] in *. unfold bind in *.
    pose proof (exec_view op sys) as Hstep.
    destruct (exec drv op sys) as [[[] | e] sys1]; cbn [fst snd] in *.
    + rewrite <- Hstep by reflexivity. apply IH. exact Hok.
    + discriminate Hok.
Qed.
End Programs.

Lemma sdk_steps_lifecycle prog : forall v,
  foldl sdk_step v prog = foldl sdk_step v (lifecycle_ops prog).
Proof.
  induction prog as [| op rest IH]; intros v; [reflexivity |].
  destruct op; cbn [lifecycle_ops foldl sdk_step]; apply IH.
Qed.

(** C6, as amended.  In a fresh process, take any program of session
    operations whose creations and closes are, in this order, two
    creations followed by two closes: both sessions exist before either is
    closed; starts and stops may come anywhere in between, and the closes
    may address the sessions in either order.  If the program runs without
    an exception, the native initializer has been called exactly once and
    the native finalizer exactly once, and the reference count is back at
    zero. *)
Theorem overlapping_sessions_initialize_once_finalize_once
    (drv : Driver) (prog : list Op)
    (i1 i2 : Z) (m1 m2 : string) (c1 c2 : option HikCameraConfig.t) (a b : nat) :
  lifecycle_ops prog = [New i1 m1 c1; New i2 m2 c2; Close a; Close b] ->
  fst (run drv prog fresh_system) = Ok tt ->
  sdk_view (process (snd (run drv prog fresh_system)))
  = {| initialized := false; init_count := 0;
       initialize_calls := 1; finalize_calls := 1 |}.
Proof.
  intros Hops Hok.
  rewrite (run_view drv prog fresh_system Hok).
  rewrite sdk_steps_lifecycle, Hops. reflexivity.
Qed.

Lemma overlapping_sessions_initialize_once_finalize_once_witness :
  let prog := [New 0 "continuous" None; Start 0; New 0 "trigger" None;
               Close 1; Stop 0; Close 0] in
  sdk_view (process (snd (run healthy_device prog fresh_system)))
  = {| initialized := false; init_count := 0;
       initialize_calls := 1; finalize_calls := 1 |}.
Proof.
  apply (overlapping_sessions_initialize_once_finalize_once healthy_device
           [New 0 "continuous" None; Start 0; New 0 "trigger" None;
            Close 1; Stop 0; Close 0]
           0 0 "continuous" "trigger" None None 1%nat 0%nat).
  - reflexivity.
  - vm_compute. reflexivity.
Defined.

(** C6 as stated fails: two sessions, each closed exactly once, but the
    first is closed before the second is created.  The count returns to
    zero in between, so the SDK is initialized twice and finalized
    twice. *)
Lemma sequential_sessions_counterexample :
  let prog := [New 0 "continuous" None; Close 0;
               New 0 "continuous" None; Close 1] in
  let out := run healthy_device prog fresh_system in
  fst out = Ok tt /\
  count_events is_Initialize (trace (process (snd out))) = 2%nat /\
  count_events is_Finalize (trace (process (snd out))) = 2%nat.
Proof. vm_compute. repeat split. Qed.

(* ================================================================== *)
(** * Further properties *)

(** ** Classifier and names *)

Lemma rgb_format_cases t :
  is_rgb_format t = true -> t ∈ rgb_formats.
Proof. unfold is_rgb_format. apply bool_decide_eq_true_1. Qed.

Lemma mono_format_cases t :
  is_mono_format t = true -> t ∈ mono_formats.
Proof. unfold is_mono_format. apply bool_decide_eq_true_1. Qed.

Lemma bayer_format_cases t :
  is_bayer_format t = true -> exists p, t ∈ bayer_variants p.
Proof.
  unfold is_bayer_format. intros [code Hcode]%bool_decide_eq_true.
  destruct (bayer_lookup_variant _ _ Hcode) as (p & Hin & _). eauto.
Qed.

(** X1.  The three format families are pairwise disjoint: no pixel-format
    code is accepted by two of the classifiers, so the order in which the
    converter tries them does not decide any frame. *)
Theorem format_families_disjoint (t : Z) :
  (is_rgb_format t = true -> is_bayer_format t = false /\ is_mono_format t = false) /\
  (is_bayer_format t = true -> is_rgb_format t = false /\ is_mono_format t = false) /\
  (is_mono_format t = true -> is_rgb_format t = false /\ is_bayer_format t = false).
Proof.
  repeat apply conj.
  - intros Hin%rgb_format_cases. unfold rgb_formats in Hin.
    repeat (apply elem_of_cons in Hin as [-> | Hin]; [vm_compute; split; reflexivity |]).
    inversion Hin.
  - intros [p Hin]%bayer_format_cases.
    destruct p; simpl in Hin;
      repeat (apply elem_of_cons in Hin as [-> | Hin]; [vm_compute; split; reflexivity |]);
      inversion Hin.
  - intros Hin%mono_format_cases. unfold mono_formats in Hin.
    repeat (apply elem_of_cons in Hin as [-> | Hin]; [vm_compute; split; reflexivity |]).
    inversion Hin.
Qed.

Lemma format_names_items_eq : format_names = list_to_map format_names_items.
Proof. reflexivity. Qed.

Lemma format_names_keys_NoDup : NoDup (format_names_items.*1).
Proof. compute_done. Qed.

Lemma format_names_values_NoDup : NoDup (format_names_items.*2).
Proof. compute_done. Qed.

Lemma NoDup_snd_inj {A B} (l : list (A * B)) a1 a2 b :
  NoDup (l.*2) -> (a1, b) ∈ l -> (a2, b) ∈ l -> a1 = a2.
Proof.
  induction l as [| [a' b'] l IH]; intros Hnd H1 H2.
  - inversion H1.
  - cbn in Hnd. apply NoDup_cons in Hnd as [Hnotin Hnd].
    apply elem_of_cons in H1 as [H1 | H1]; apply elem_of_cons in H2 as [H2 | H2].
    + congruence.
    + inversion H1; subst. exfalso. apply Hnotin.
      apply (list_elem_of_fmap_2 snd) in H2. exact H2.
    + inversion H2; subst. exfalso. apply Hnotin.
      apply (list_elem_of_fmap_2 snd) in H1. exact H1.
    + eauto.
Qed.

(** X2.  Every code one of the classifiers accepts has an entry in the
    name table, so its name is never of the "Unknown(0x..)" form; and the
    table gives different codes different names. *)
Theorem classified_formats_are_named (t : Z) :
  (is_rgb_format t = true \/ is_bayer_format t = true \/ is_mono_format t = true ->
   format_names !! t = Some (get_pixel_format_name t)) /\
  (forall t' name,
     format_names !! t = Some name -> format_names !! t' = Some name -> t = t').
Proof.
  split.
  - intros [Hin%rgb_format_cases | [[p Hin]%bayer_format_cases | Hin%mono_format_cases]].
    + unfold rgb_formats in Hin.
      repeat (apply elem_of_cons in Hin as [-> | Hin]; [vm_compute; reflexivity |]).
      inversion Hin.
    + destruct p; simpl in Hin;
        repeat (apply elem_of_cons in Hin as [-> | Hin]; [vm_compute; reflexivity |]);
        inversion Hin.
    + unfold mono_formats in Hin.
      repeat (apply elem_of_cons in Hin as [-> | Hin]; [vm_compute; reflexivity |]).
      inversion Hin.
  - intros t' name H1 H2. rewrite format_names_items_eq in H1, H2.
    apply elem_of_list_to_map in H1, H2; try apply format_names_keys_NoDup.
    exact (NoDup_snd_inj _ _ _ _ format_names_values_NoDup H1 H2).
Qed.

Lemma classified_formats_are_named_witness :
  format_names !! PixelType_Gvsp_Mono12_Packed
  = Some (get_pixel_format_name PixelType_Gvsp_Mono12_Packed).
Proof.
  apply (proj1 (classified_formats_are_named PixelType_Gvsp_Mono12_Packed)).
  right. right. vm_compute. reflexivity.
Defined.

Lemma format_families_disjoint_witness :
  is_rgb_format PixelType_Gvsp_BayerGB10 = false /\
  is_mono_format PixelType_Gvsp_BayerGB10 = false.
Proof.
  apply (proj1 (proj2 (format_families_disjoint PixelType_Gvsp_BayerGB10))).
  vm_compute. reflexivity.
Defined.

(** ** Device descriptors *)

Lemma octet_of_ip (a b c d : Z) :
  0 <= a < 256 -> 0 <= b < 256 -> 0 <= c < 256 -> 0 <= d < 256 ->
  let ip := a * 2 ^ 24 + b * 2 ^ 16 + c * 2 ^ 8 + d in
  Z.land (Z.shiftr ip 24) 0xFF = a /\
  Z.land (Z.shiftr ip 16) 0xFF = b /\
  Z.land (Z.shiftr ip 8) 0xFF = c /\
  Z.land ip 0xFF = d.
Proof.
  intros Ha Hb Hc Hd ip. subst ip.
  change 0xFF with (Z.ones 8).
  rewrite !Z.land_ones, !Z.shiftr_div_pow2 by lia.
  change (2 ^ 24) with 16777216. change (2 ^ 16) with 65536.
  change (2 ^ 8) with 256.
  repeat apply conj; Z.div_mod_to_equations; lia.
Qed.

(** X3.  The extracted device record has an IP address exactly for the two
    GigE transport types, and then its serial number is empty; the address
    is the four octets of [nCurrentIp], most significant first, each
    between 0 and 255; the index is always the placeholder -1. *)
Theorem device_info_ip_address (d : MV_CC_DEVICE_INFO) :
  let info := get_device_info d in
  let gige := nTLayerType d = MV_GIGE_DEVICE \/ nTLayerType d = MV_GENTL_GIGE_DEVICE in
  info_index info = -1 /\
  (is_Some (info_ip_address info) <-> gige) /\
  (gige -> info_type info = "GigE" /\ info_serial_number info = "" /\
           info_model_name info = chModelName d) /\
  (forall a b c e, info_ip_address info = Some (a, b, c, e) ->
     0 <= a < 256 /\ 0 <= b < 256 /\ 0 <= c < 256 /\ 0 <= e < 256) /\
  (forall a b c e,
     gige ->
     0 <= a < 256 -> 0 <= b < 256 -> 0 <= c < 256 -> 0 <= e < 256 ->
     nCurrentIp d = a * 2 ^ 24 + b * 2 ^ 16 + c * 2 ^ 8 + e ->
     info_ip_address info = Some (a, b, c, e)).
Proof.
  intros info gige. subst info gige.
  unfold get_device_info, get_device_type_string.
  destruct (bool_decide_reflect
              (nTLayerType d = MV_GIGE_DEVICE \/ nTLayerType d = MV_GENTL_GIGE_DEVICE))
    as [Hg | Hng].
  - cbn [info_index info_ip_address info_type info_serial_number info_model_name].
    refine (conj _ (conj _ (conj _ (conj _ _)))).
    + reflexivity.
    + split; [intros _; exact Hg | eauto].
    + intros _. repeat apply conj; reflexivity.
    + intros a b c e Heq. inversion Heq; subst; clear Heq.
      change 0xFF with (Z.ones 8).
      rewrite !Z.land_ones by lia.
      repeat apply conj; apply Z.mod_pos_bound; lia.
    + intros a b c e _ Ha Hb Hc He Hip. rewrite Hip.
      destruct (octet_of_ip a b c e Ha Hb Hc He) as (-> & -> & -> & ->).
      reflexivity.
  - repeat match goal with
           | |- context [bool_decide ?P] => destruct (bool_decide P)
           end;
      cbn [info_index info_ip_address info_type info_serial_number info_model_name];
      (refine (conj _ (conj _ (conj _ (conj _ _))));
       [ reflexivity
       | split; [intros [x Hx]; discriminate Hx | intros Hg; contradiction]
       | intros Hg; contradiction
       | intros a b c e Heq; discriminate Heq
       | intros a b c e Hg; contradiction ]).
Qed.

Lemma device_info_ip_address_witness :
  info_ip_address (get_device_info gige_camera) = Some (192, 168, 1, 64).
Proof.
  apply (proj2 (proj2 (proj2 (proj2 (device_info_ip_address gige_camera)))) 192 168 1 64).
  - left. reflexivity.
  - lia.
  - lia.
  - lia.
  - lia.
  - reflexivity.
Defined.

(** ** Config validation *)

(** X4.  Constructing a [HikCameraConfig] succeeds exactly when the eight
    rules hold, and then yields the values as given, none adjusted;
    otherwise it raises [ValueError]. *)
Theorem config_new_valid_iff
    (camera_index : Z) (trigger_mode : string) (width height exposure : Z)
    (gain : Q) (fps timeout : Z) :
  let c := HikCameraConfig.mk camera_index trigger_mode width height
             exposure gain fps timeout in
  let r := HikCameraConfig.new camera_index trigger_mode width height
             exposure gain fps timeout in
  (valid_config c -> r = Ok c) /\
  (~ valid_config c -> exists msg, r = Raise (ValueError msg)).
Proof.
  intros c r. subst c r.
  unfold HikCameraConfig.new, HikCameraConfig.__post_init__, valid_config, Qle.
  cbn [HikCameraConfig.camera_index HikCameraConfig.trigger_mode
       HikCameraConfig.width HikCameraConfig.height HikCameraConfig.exposure
       HikCameraConfig.gain HikCameraConfig.fps HikCameraConfig.timeout
       Qnum Qden inject_Z].
  destruct (bool_decide_reflect
              (trigger_mode = "continuous" \/ trigger_mode = "trigger")) as [Hm | Hm];
    cbn [negb]; [| split; [tauto | eauto]].
  destruct (Z.ltb_spec camera_index 0); [split; [lia | eauto] |].
  destruct (Z.leb_spec width 0); cbn [orb]; [split; [lia | eauto] |].
  destruct (Z.leb_spec height 0); [split; [lia | eauto] |].
  destruct (Z.ltb_spec exposure 0); [split; [lia | eauto] |].
  destruct (Z.ltb_spec (Qnum gain) 0); [split; [lia | eauto] |].
  destruct (Z.leb_spec fps 0); [split; [lia | eauto] |].
  destruct (Z.leb_spec timeout 0); [split; [lia | eauto] |].
  split; [reflexivity |]. intros Hn. exfalso. apply Hn.
  repeat apply conj; try assumption; lia.
Qed.

Lemma config_new_valid_iff_witness :
  HikCameraConfig.new 0 "continuous" 1280 720 10000 (inject_Z 0) 30 1000
  = Ok HikCameraConfig.default /\
  exists msg,
    HikCameraConfig.new 0 "continuous" 1280 720 10000 (inject_Z 0) 30 0
    = Raise (ValueError msg).
Proof.
  split.
  - apply (proj1 (config_new_valid_iff 0 "continuous" 1280 720 10000 (inject_Z 0) 30 1000)).
    unfold valid_config, Qle. simpl. repeat apply conj; try lia. left. reflexivity.
  - apply (proj2 (config_new_valid_iff 0 "continuous" 1280 720 10000 (inject_Z 0) 30 0)).
    unfold valid_config. simpl. lia.
Defined.

(** ** Frame converter, continued *)

Section ConverterEffects.
Variable demosaicing :
  ColorConversionCode -> nat -> nat -> list Byte.byte -> list Byte.byte.

Lemma convert_frame_state (f : MV_FRAME_OUT) (st : State) :
  snd (_convert_frame_to_bgr demosaicing f st)
    = on_self (set_pixel_type (Some (enPixelType f))) st.
Proof.
  destruct f as [[pData |] w h t n];
    unfold _convert_frame_to_bgr, bind, modify, lift_result, raise;
    cbn [pBufAddr nWidth nHeight enPixelType nFrameLen fst snd];
    [| reflexivity].
  repeat match goal with
         | |- context [if ?c then _ else _] => destruct c
         | |- context [match ?x with Ok _ => _ | Raise _ => _ end] => destruct x
         end; reflexivity.
Qed.

(** X5.  For every frame that carries a buffer, and whatever the outcome
    of the conversion, the converter makes no native call and changes
    nothing of the session but the recorded pixel type, which it sets to
    the frame's format before any check: the format is recorded also when
    the conversion then raises. *)
Theorem converter_only_records_pixel_type (f : MV_FRAME_OUT) (st : State) :
  pBufAddr f <> None ->
  snd (_convert_frame_to_bgr demosaicing f st)
    = on_self (set_pixel_type (Some (enPixelType f))) st /\
  trace (proc (snd (_convert_frame_to_bgr demosaicing f st))) = trace (proc st) /\
  _pixel_type (self (snd (_convert_frame_to_bgr demosaicing f st)))
    = Some (enPixelType f).
Proof.
  intros _. rewrite convert_frame_state. repeat apply conj; reflexivity.
Qed.

Lemma reshape_Raise_inv a s e :
  reshape a s = Raise e -> e = ValueError "cannot reshape array".
Proof.
  unfold reshape. destruct (Nat.eqb _ _); intros H; inversion H. reflexivity.
Qed.

Lemma cvtColor_Raise_inv a code e :
  cvtColor demosaicing a code = Raise e -> exists msg, e = cv2_error msg.
Proof.
  unfold cvtColor.
  destruct (image_dims (shape a)) as [[[h w] scn] |];
    [destruct (Nat.eqb _ _); [| destruct (Nat.eqb _ _)] |];
    intros H; inversion H; eauto.
Qed.

Lemma classified_frame_outcome pData w h t n st :
  is_rgb_format t = true \/ is_bayer_format t = true \/ is_mono_format t = true ->
  let r := fst (_convert_frame_to_bgr demosaicing
                  {| pBufAddr := Some pData; nWidth := w; nHeight := h;
                     enPixelType := t; nFrameLen := n |} st) in
  (exists image, r = Ok image) \/ (exists e, r = Raise e /\ library_error e).
Proof.
  intros Hfam. cbv zeta.
  unfold _convert_frame_to_bgr, bind, modify, lift_result, raise.
  cbn [pBufAddr nWidth nHeight enPixelType nFrameLen fst snd].
  assert (Hout : forall r : Result ndarray,
             (forall e, r = Raise e -> library_error e) ->
             (exists image, r = Ok image) \/ (exists e, r = Raise e /\ library_error e)).
  { intros [image | e] He; [left; eauto | right; eauto]. }
  assert (Hcvt : forall a code e,
             cvtColor demosaicing a code = Raise e -> library_error e).
  { intros a code e He. right. exact (cvtColor_Raise_inv a code e He). }
  assert (Hresh : forall a s e, reshape a s = Raise e -> library_error e).
  { intros a s e He. left. exact (reshape_Raise_inv a s e He). }
  destruct (is_rgb_format t); [| destruct (is_bayer_format t);
                                [| destruct (is_mono_format t);
                                   [| destruct Hfam as [H | [H | H]]; discriminate H]]].
  all: repeat match goal with
              | |- context [if ?c then _ else _] => destruct c
              end.
  all: repeat match goal with
              | |- context [match ?x with Ok _ => _ | Raise _ => _ end] =>
                  let Hx := fresh "Hx" in destruct x eqn:Hx
              end; cbn [fst].
  all: first [ left; eexists; reflexivity
             | apply Hout; eauto; fail
             | right; eexists; split; [reflexivity | eauto] ].
Qed.

(** X6.  A frame with a buffer is refused as unsupported, the error naming
    its format, exactly when its format code is in none of the three
    families; a frame of a classified format converts or fails with a
    numpy or OpenCV error, never with an error of the converter's own. *)
Theorem unsupported_format_refused (f : MV_FRAME_OUT) (st : State) :
  pBufAddr f <> None ->
  let r := fst (_convert_frame_to_bgr demosaicing f st) in
  ((is_rgb_format (enPixelType f) = false /\
    is_bayer_format (enPixelType f) = false /\
    is_mono_format (enPixelType f) = false)
   <->
   r = Raise (HikCameraError
                (UnsupportedPixelFormat (get_pixel_format_name (enPixelType f))))) /\
  (is_rgb_format (enPixelType f) = true \/
   is_bayer_format (enPixelType f) = true \/
   is_mono_format (enPixelType f) = true ->
   (exists image, r = Ok image) \/ (exists e, r = Raise e /\ library_error e)).
Proof.
  destruct f as [[pData |] w h t n]; [intros _ | intros Hb; contradiction].
  cbv zeta. cbn [enPixelType].
  split; [| intros Hfam; exact (classified_frame_outcome pData w h t n st Hfam)].
  split.
  - intros (Hr & Hb & Hm).
    unfold _convert_frame_to_bgr, bind, modify, lift_result, raise.
    cbn [pBufAddr nWidth nHeight enPixelType nFrameLen fst snd].
    rewrite Hr, Hb, Hm. reflexivity.
  - intros Heq.
    destruct (is_rgb_format t) eqn:Hr; [| destruct (is_bayer_format t) eqn:Hb;
                                          [| destruct (is_mono_format t) eqn:Hm;
                                             [| tauto]]].
    all: exfalso.
    all: match goal with
         | |- False =>
             destruct (classified_frame_outcome pData w h t n st) as
               [[image Hi] | (e & He & [Hl | [msg Hl]])];
               [ rewrite ?Hr, ?Hb, ?Hm; tauto
               | rewrite Hi in Heq; discriminate Heq
               | rewrite He in Heq; subst e; discriminate Heq
               | rewrite He in Heq; subst e; discriminate Heq ]
         end.
Qed.
End ConverterEffects.

Lemma rgb2bgr_length k : forall d, length d = (3 * k)%nat -> length (rgb2bgr d) = (3 * k)%nat.
Proof.
  induction k as [| k IH]; intros d Hd.
  - destruct d; [reflexivity | discriminate Hd].
  - destruct d as [| r [| g [| b rest]]]; try (cbn in Hd; lia).
    cbn [rgb2bgr length] in *. rewrite (IH rest) by lia. lia.
Qed.

Lemma rgba2bgr_length k : forall d, length d = (4 * k)%nat -> length (rgba2bgr d) = (3 * k)%nat.
Proof.
  induction k as [| k IH]; intros d Hd.
  - destruct d; [reflexivity | discriminate Hd].
  - destruct d as [| r [| g [| b [| a rest]]]]; try (cbn in Hd; lia).
    cbn [rgba2bgr length] in *. rewrite (IH rest) by lia. lia.
Qed.

Lemma bgra2bgr_length k : forall d, length d = (4 * k)%nat -> length (bgra2bgr d) = (3 * k)%nat.
Proof.
  induction k as [| k IH]; intros d Hd.
  - destruct d; [reflexivity | discriminate Hd].
  - destruct d as [| r [| g [| b [| a rest]]]]; try (cbn in Hd; lia).
    cbn [bgra2bgr length] in *. rewrite (IH rest) by lia. lia.
Qed.

Lemma gray2bgr_length d : length (gray2bgr d) = (3 * length d)%nat.
Proof. induction d as [| y rest IH]; cbn [gray2bgr length]; lia. Qed.

Section ConverterOutput.
Variable demosaicing :
  ColorConversionCode -> nat -> nat -> list Byte.byte -> list Byte.byte.

(** X7.  A BGR8 frame is passed through: when the buffer holds exactly
    height x width x 3 bytes the result is that very byte sequence under
    the shape height x width x 3, also for an empty frame; any other
    length is a [ValueError]. *)
Theorem bgr8_frame_passes_through (f : MV_FRAME_OUT) (pData : list Byte.byte) (st : State) :
  enPixelType f = PixelType_Gvsp_BGR8_Packed ->
  pBufAddr f = Some pData ->
  length pData = nFrameLen f ->
  fst (_convert_frame_to_bgr demosaicing f st)
  = if (nHeight f * nWidth f * 3 =? nFrameLen f)%nat
    then Ok {| shape := [nHeight f; nWidth f; 3%nat]; data := pData |}
    else Raise (ValueError "cannot reshape array").
Proof.
  destruct f as [buf w h t n].
  cbn [pBufAddr nWidth nHeight enPixelType nFrameLen].
  intros -> -> Hlen.
  unfold _convert_frame_to_bgr.
  cbn [pBufAddr nWidth nHeight enPixelType nFrameLen].
  classify_format.
  rewrite copy_bytes_all by assumption.
  unfold bind, modify, lift_result. cbn [fst].
  destruct (Nat.eqb_spec (h * w * 3) n) as [Heq | Hne].
  - rewrite reshape_Ok by (cbn; lia). reflexivity.
  - rewrite reshape_Raise by (cbn; lia). reflexivity.
Qed.

(** X8.  For Mono8, RGB8, BGR8, RGBA8 and BGRA8 a well-formed frame
    converts to an array that is consistent: its shape is
    height x width x 3 and it carries exactly height x width x 3 bytes. *)
Theorem plain_frame_output_size (f : MV_FRAME_OUT) (st : State) :
  enPixelType f ∈ plain_eight_bit_formats ->
  well_formed_frame f ->
  exists image,
    fst (_convert_frame_to_bgr demosaicing f st) = Ok image /\
    shape image = [nHeight f; nWidth f; 3%nat] /\
    length (data image) = (nHeight f * nWidth f * 3)%nat.
Proof.
  destruct f as [buf w h t n].
  unfold well_formed_frame. cbn [pBufAddr nWidth nHeight enPixelType nFrameLen].
  intros Hin (Hn & Hpos & pData & -> & Hlen).
  unfold plain_eight_bit_formats in Hin.
  repeat (apply elem_of_cons in Hin as [-> | Hin]);
    try (inversion Hin; fail);
    unfold _convert_frame_to_bgr;
    cbn [pBufAddr nWidth nHeight enPixelType nFrameLen];
    revert Hn; classify_format; intros Hn;
    rewrite copy_bytes_all by assumption;
    unfold bind, modify, lift_result;
    cbn [default from_option id np_frombuffer data];
    rewrite reshape_Ok by (cbn; lia);
    cbn [fst data];
    first [ rewrite cvtColor_gray_or_bayer by (reflexivity || assumption)
          | rewrite cvtColor_packed by (reflexivity || assumption || lia)
          | idtac ];
    eexists; (split; [reflexivity | split; [reflexivity |]]);
    cbn [data convert_pixels np_frombuffer].
  - rewrite gray2bgr_length. lia.
  - rewrite (rgb2bgr_length (h * w)) by lia. lia.
  - lia.
  - rewrite (rgba2bgr_length (h * w)) by lia. lia.
  - rewrite (bgra2bgr_length (h * w)) by lia. lia.
Qed.
End ConverterOutput.

Lemma bgr8_frame_passes_through_witness :
  fst (_convert_frame_to_bgr no_demosaicing
         {| pBufAddr := Some []; nWidth := 0; nHeight := 0;
            enPixelType := PixelType_Gvsp_BGR8_Packed; nFrameLen := 0 |}
         (streaming_state "continuous"))
  = Ok {| shape := [0%nat; 0%nat; 3%nat]; data := [] |}.
Proof.
  apply (bgr8_frame_passes_through no_demosaicing
           {| pBufAddr := Some []; nWidth := 0; nHeight := 0;
              enPixelType := PixelType_Gvsp_BGR8_Packed; nFrameLen := 0 |}
           [] (streaming_state "continuous")); reflexivity.
Defined.

Lemma plain_frame_output_size_witness :
  exists image,
    fst (_convert_frame_to_bgr no_demosaicing
           (zero_frame PixelType_Gvsp_RGBA8_Packed 2 3 24)
           (streaming_state "continuous")) = Ok image /\
    shape image = [3%nat; 2%nat; 3%nat] /\
    length (data image) = 18%nat.
Proof.
  apply (plain_frame_output_size no_demosaicing
           (zero_frame PixelType_Gvsp_RGBA8_Packed 2 3 24)
           (streaming_state "continuous")).
  - vm_compute. do 3 apply list_elem_of_further. apply list_elem_of_here.
  - split; [vm_compute; reflexivity |].
    split; [vm_compute; lia |].
    exists (replicate 24 Byte.x00). split; reflexivity.
Defined.

(** X30.  A well-formed frame in any of the nine formats stored in one
    byte per channel (Mono8, the four 8-bit Bayer patterns, RGB8, BGR8,
    RGBA8, BGRA8) converts to an image of shape height x width x 3. *)
Theorem eight_bit_frame_converts
    (demosaicing : ColorConversionCode -> nat -> nat -> list Byte.byte -> list Byte.byte)
    (f : MV_FRAME_OUT) (st : State) :
  enPixelType f ∈ eight_bit_formats ->
  well_formed_frame f ->
  exists image,
    fst (_convert_frame_to_bgr demosaicing f st) = Ok image /\
    shape image = [nHeight f; nWidth f; 3%nat].
Proof.
  intros Hin Hwf.
  destruct (convert_eight_bit_frame_shape demosaicing f st Hin Hwf) as (image & Hok & Hshape).
  exists image. split; assumption.
Qed.

Lemma eight_bit_frame_converts_witness :
  exists image,
    fst (_convert_frame_to_bgr no_demosaicing
           (zero_frame PixelType_Gvsp_BayerBG8 4 2 8)
           (streaming_state "continuous")) = Ok image /\
    shape image = [2%nat; 4%nat; 3%nat].
Proof.
  apply (eight_bit_frame_converts no_demosaicing
           (zero_frame PixelType_Gvsp_BayerBG8 4 2 8)
           (streaming_state "continuous")).
  - vm_compute. do 4 apply list_elem_of_further. apply list_elem_of_here.
  - split; [vm_compute; reflexivity |].
    split; [vm_compute; lia |].
    exists (replicate 8 Byte.x00). split; reflexivity.
Defined.

(** ** Streaming *)

Section Streaming.
Variable drv : Driver.
Variable demosaicing :
  ColorConversionCode -> nat -> nat -> list Byte.byte -> list Byte.byte.

(** X9.  [start] is idempotent: calling it twice in a row has the result
    and the effects of calling it once; in particular on a streaming
    session it makes no native call. *)
Theorem start_idempotent (st : State) :
  (start drv ;; start drv) st = start drv st /\
  (_is_running (self st) = true -> start drv st = (Ok tt, st)).
Proof.
  destruct st as [p [[cam |] cfg [|] info pt payload]];
    unfold start; unfold_monad; reduce_state;
    (split; [repeat branch; reflexivity | intros Hr; first [reflexivity | discriminate Hr]]).
Qed.

(** X10.  [stop] is idempotent: calling it twice in a row has the result
    and the effects of calling it once; on a session that is not streaming
    it makes no native call. *)
Theorem stop_idempotent (st : State) :
  (stop drv ;; stop drv) st = stop drv st /\
  (_is_running (self st) = false -> stop drv st = (Ok tt, st)).
Proof.
  destruct st as [p [[cam |] cfg [|] info pt payload]];
    unfold stop; unfold_monad; reduce_state;
    (split; [repeat branch; reflexivity | intros Hr; first [reflexivity | discriminate Hr]]).
Qed.

(** X11.  On an open idle session, a start and a stop that the device both
    accepts bring the object back exactly as it was, the trace having
    gained the two native calls; if the device rejects the stop, the
    session is still marked as streaming. *)
Theorem start_then_stop (st : State) :
  _cam (self st) <> None ->
  _is_running (self st) = false ->
  let r1 := status_of drv (trace (proc st)) MV_CC_StartGrabbing in
  let st1 := on_proc (log_event (MV_CC_StartGrabbing, r1)) st in
  let r2 := status_of drv (trace (proc st1)) MV_CC_StopGrabbing in
  let st2 := on_proc (log_event (MV_CC_StopGrabbing, r2)) st1 in
  r1 = 0 ->
  (r2 = 0 -> (start drv ;; stop drv) st = (Ok tt, st2)) /\
  (r2 <> 0 ->
   (start drv ;; stop drv) st
   = (Raise (HikCameraError (StopGrabbingFailed r2)),
      on_self (set_is_running true) st2)).
Proof.
  intros Hcam Hidle. open_session st Hcam.
  cbn [self _is_running] in Hidle. subst running. cbv zeta.
  reduce_state. intros Hr1.
  unfold start, stop. unfold_monad. reduce_state. rewrite Hr1.
  cbn [Z.eqb negb]. reduce_state.
  split; intros Hr2.
  - rewrite Hr2. reflexivity.
  - apply Z.eqb_neq in Hr2. rewrite Hr2. reflexivity.
Qed.

(** X12.  After a [close] that returned normally the session is closed
    (no camera object, not streaming), and [get_image] then fails with the
    not-streaming error without any native call. *)
Theorem get_image_after_close (timeout : option Z) (st : State) :
  fst (close drv st) = Ok tt ->
  closed_session (snd (close drv st)) /\
  get_image drv demosaicing timeout (snd (close drv st))
  = (Raise (HikCameraError NotStreaming), snd (close drv st)).
Proof.
  destruct st as [p [[cam |] cfg [|] info pt payload]];
    unfold close, stop, closed_session; unfold_monad; reduce_state;
    repeat branch; intros Hok; try discriminate Hok;
    (split; [split; reflexivity |]);
    unfold get_image; unfold_monad; reduce_state; reflexivity.
Qed.
End Streaming.

Lemma start_then_stop_witness :
  let st := connected_state "continuous" in
  (start healthy_device ;; stop healthy_device) st
  = (Ok tt,
     on_proc (log_event (MV_CC_StopGrabbing, 0))
       (on_proc (log_event (MV_CC_StartGrabbing, 0)) st)).
Proof.
  apply (proj1 (start_then_stop healthy_device (connected_state "continuous")
                  ltac:(simpl; discriminate) eq_refl eq_refl)).
  reflexivity.
Defined.

Lemma get_image_after_close_witness :
  let st := streaming_state "continuous" in
  closed_session (snd (close healthy_device st)) /\
  get_image healthy_device no_demosaicing (Some 500) (snd (close healthy_device st))
  = (Raise (HikCameraError NotStreaming), snd (close healthy_device st)).
Proof.
  apply (get_image_after_close healthy_device no_demosaicing (Some 500)
           (streaming_state "continuous")).
  vm_compute. reflexivity.
Defined.

Lemma start_idempotent_witness :
  start healthy_device (streaming_state "trigger") = (Ok tt, streaming_state "trigger").
Proof.
  apply (proj2 (start_idempotent healthy_device (streaming_state "trigger"))).
  reflexivity.
Defined.

Lemma stop_idempotent_witness :
  stop healthy_device (connected_state "trigger") = (Ok tt, connected_state "trigger").
Proof.
  apply (proj2 (stop_idempotent healthy_device (connected_state "trigger"))).
  reflexivity.
Defined.

Lemma count_events_cons f (ev : Event) t :
  count_events f (ev :: t) = ((if f ev then 1 else 0) + count_events f t)%nat.
Proof.
  unfold count_events. rewrite filter_cons. destruct (f ev); reflexivity.
Qed.

Section Acquisition.
Variable drv : Driver.
Variable demosaicing :
  ColorConversionCode -> nat -> nat -> list Byte.byte -> list Byte.byte.


(** X14.  A timeout of 0 counts as no timeout given: [get_image(None)],
    [get_image(0)] and [get_image(t)] with [t] the configured timeout are
    the same call. *)
Theorem get_image_zero_timeout_is_default (st : State) :
  get_image drv demosaicing (Some 0) st = get_image drv demosaicing None st /\
  get_image drv demosaicing (Some (HikCameraConfig.timeout (config_of st))) st
  = get_image drv demosaicing None st.
Proof.
  unfold get_image. unfold_monad.
  destruct (_is_running (self st)); cbn [negb]; [| split; reflexivity].
  cbn [Z.eqb]. split; [reflexivity |].
  destruct (HikCameraConfig.timeout (_config (self st)) =? 0); reflexivity.
Qed.

(** X15.  [trigger_and_get_image] sends the software trigger at most once:
    exactly once on an open session in trigger mode, and never in any
    other situation; in continuous mode it raises the wrong-mode error
    with no native call at all. *)
Theorem trigger_sent_at_most_once (timeout : option Z) (st : State) :
  let out := trigger_and_get_image drv demosaicing timeout st in
  (exists evs,
     trace (proc (snd out)) = trace (proc st) ++ evs /\
     count_events is_TriggerSoftware evs
     = if bool_decide (HikCameraConfig.trigger_mode (config_of st) = "trigger"
                       /\ _cam (self st) <> None)
       then 1%nat else 0%nat) /\
  (HikCameraConfig.trigger_mode (config_of st) <> "trigger" ->
   out = (Raise (HikCameraError WrongTriggerMode), st)).
Proof.
  cbv zeta. destruct st as [p [cam cfg running info pt payload]].
  unfold trigger_and_get_image, get_image, config_of. unfold_monad. reduce_state.
  destruct (bool_decide_reflect (HikCameraConfig.trigger_mode cfg = "trigger"))
    as [Hm | Hm]; cbn [negb].
  - split; [| intros Hne; contradiction].
    destruct cam as [cam |]; reduce_state.
    + rewrite bool_decide_eq_true_2 by (split; [assumption | discriminate]).
      repeat branch;
        repeat match goal with
          | |- context [_convert_frame_to_bgr demosaicing ?f ?s] =>
              pose proof (convert_frame_state demosaicing f s) as Hs;
              destruct (_convert_frame_to_bgr demosaicing f s) as [rc sc];
              cbn [snd] in Hs; subst sc; reduce_state
          end;
        (eexists; split; [solve_trace |]);
        cbn [app]; rewrite ?count_events_cons; reflexivity.
    + rewrite bool_decide_eq_false_2 by (intros [_ Hc]; apply Hc; reflexivity).
      exists []. split; [symmetry; apply app_nil_r | reflexivity].
  - split; [| intros _; reflexivity].
    rewrite bool_decide_eq_false_2 by tauto.
    exists []. split; [symmetry; apply app_nil_r | reflexivity].
Qed.
End Acquisition.


Lemma trigger_sent_at_most_once_witness :
  trigger_and_get_image healthy_device no_demosaicing None (streaming_state "continuous")
  = (Raise (HikCameraError WrongTriggerMode), streaming_state "continuous").
Proof.
  apply (proj2 (trigger_sent_at_most_once healthy_device no_demosaicing None
                  (streaming_state "continuous"))).
  vm_compute. discriminate.
Defined.

(** ** Closed sessions *)

Section Closed.
Variable drv : Driver.
Variable demosaicing :
  ColorConversionCode -> nat -> nat -> list Byte.byte -> list Byte.byte.

(** X16.  A closed session never reaches the device again: [start],
    [get_params], the exposure, gain and fps getters, the setters and, in
    trigger mode, [trigger_and_get_image] all raise [AttributeError]
    without a native call, and [stop] does nothing.  The setters have
    nevertheless already overwritten the cached value. *)
Theorem closed_session_makes_no_native_call (st : State) :
  closed_session st ->
  start drv st = (Raise AttributeError, st) /\
  stop drv st = (Ok tt, st) /\
  get_params drv st = (Raise AttributeError, st) /\
  exposure drv st = (Raise AttributeError, st) /\
  gain drv st = (Raise AttributeError, st) /\
  fps drv st = (Raise AttributeError, st) /\
  (HikCameraConfig.trigger_mode (config_of st) = "trigger" ->
   forall timeout,
     trigger_and_get_image drv demosaicing timeout st = (Raise AttributeError, st)) /\
  (forall v,
     width_setter drv v st
     = (Raise AttributeError,
        on_self (fun c => set_config (HikCameraConfig.set_width v (_config c)) c) st)) /\
  (forall v,
     gain_setter drv v st
     = (Raise AttributeError,
        on_self (fun c => set_config (HikCameraConfig.set_gain v (_config c)) c) st)) /\
  (forall v, _set_offset_x drv v st = (Raise AttributeError, st)).
Proof.
  destruct st as [p [cam cfg running info pt payload]].
  intros [Hcam Hidle]. cbn [self _cam _is_running] in Hcam, Hidle. subst cam running.
  repeat apply conj;
    try (intros Hmode timeout; unfold config_of in Hmode;
         cbn [self _config] in Hmode);
    try intros v;
    unfold start, stop, get_params, exposure, gain, fps, trigger_and_get_image,
      width_setter, gain_setter, _set_offset_x, width, height, _get_exposure;
    unfold_monad; reduce_state;
    try (rewrite Hmode; rewrite (bool_decide_eq_true_2 _ eq_refl); reduce_state);
    reflexivity.
Qed.

(** X17.  On an open session [close] returns normally whenever the session
    is idle or the device accepts the stop: the statuses of the
    close-device and destroy-handle calls are not looked at.  Afterwards
    the session is closed, the handle has been given to
    [MV_CC_DestroyHandle], the reference count is one lower and the cached
    config is untouched. *)
Theorem close_succeeds_when_stop_does (st : State) :
  _cam (self st) <> None ->
  (_is_running (self st) = false
   \/ status_of drv (trace (proc st)) MV_CC_StopGrabbing = 0) ->
  fst (close drv st) = Ok tt /\
  closed_session (snd (close drv st)) /\
  handle_live (trace (proc (snd (close drv st)))) = false /\
  _SDK_INIT_COUNT (proc (snd (close drv st))) = _SDK_INIT_COUNT (proc st) - 1 /\
  _config (self (snd (close drv st))) = _config (self st).
Proof.
  intros Hcam Hstop. open_session st Hcam.
  cbn [self _is_running proc trace] in Hstop.
  unfold close, stop, closed_session. unfold_monad. reduce_state.
  destruct running; reduce_state.
  - destruct Hstop as [Hf | Hs]; [discriminate Hf |].
    rewrite Hs. cbn [Z.eqb negb]. reduce_state.
    repeat branch; repeat apply conj; try reflexivity;
      unfold handle_live; rewrite !foldl_app; reflexivity.
  - repeat branch; repeat apply conj; try reflexivity;
      unfold handle_live; rewrite !foldl_app; reflexivity.
Qed.
End Closed.

Lemma closed_session_makes_no_native_call_witness :
  let st := snd (close healthy_device (connected_state "continuous")) in
  start healthy_device st = (Raise AttributeError, st).
Proof.
  apply (closed_session_makes_no_native_call healthy_device no_demosaicing
           (snd (close healthy_device (connected_state "continuous")))).
  split; reflexivity.
Defined.

Lemma close_succeeds_when_stop_does_witness :
  let drv := device_failing (fun c => negb (is_StopGrabbing c)) in
  let st := streaming_state "trigger" in
  fst (close drv st) = Ok tt /\
  closed_session (snd (close drv st)) /\
  handle_live (trace (proc (snd (close drv st)))) = false /\
  _SDK_INIT_COUNT (proc (snd (close drv st))) = _SDK_INIT_COUNT (proc st) - 1 /\
  _config (self (snd (close drv st))) = _config (self st).
Proof.
  apply (close_succeeds_when_stop_does
           (device_failing (fun c => negb (is_StopGrabbing c)))
           (streaming_state "trigger")).
  - simpl. discriminate.
  - right. reflexivity.
Defined.

(** ** Connection, continued *)

(** The end of the trace of a successful connection. *)
Lemma payload_query_tail (drv : Driver) (l : list Event) (c : Call) (s : Z)
    (mode : string) :
  (s =? 0) = true ->
  (exists h r1 r2, l = h ++ trigger_setup mode r1 r2) ->
  exists h r1 r2,
    l ++ [(c, s)] = h ++ trigger_setup mode r1 r2 ++ [(c, 0)] /\
    nCurValue_of drv l "PayloadSize"
    = nCurValue_of drv (h ++ trigger_setup mode r1 r2) "PayloadSize".
Proof.
  intros Hs (h & r1 & r2 & ->). apply Z.eqb_eq in Hs. subst s.
  exists h, r1, r2. split; [symmetry; apply app_assoc | reflexivity].
Qed.

Lemma trigger_on_tail (mode : string) (h : list Event) (r1 r2 : Z) :
  bool_decide (mode = "trigger") = true ->
  exists h' r1' r2',
    (h ++ [(MV_CC_SetEnumValue "TriggerMode" MV_TRIGGER_MODE_ON, r1)])
      ++ [(MV_CC_SetEnumValue "TriggerSource" MV_TRIGGER_SOURCE_SOFTWARE, r2)]
    = h' ++ trigger_setup mode r1' r2'.
Proof.
  intros Hm. exists h, r1, r2. unfold trigger_setup. rewrite Hm.
  symmetry. apply (app_assoc h [_] [_]).
Qed.

Lemma trigger_off_tail (mode : string) (h : list Event) (r1 : Z) :
  bool_decide (mode = "trigger") = false ->
  exists h' r1' r2',
    h ++ [(MV_CC_SetEnumValue "TriggerMode" MV_TRIGGER_MODE_OFF, r1)]
    = h' ++ trigger_setup mode r1' r2'.
Proof.
  intros Hm. exists h, r1, 0. unfold trigger_setup. rewrite Hm. reflexivity.
Qed.

Section Connection.
Variable drv : Driver.

(** X18.  When enumeration succeeds but finds no device, or fewer devices
    than the configured index needs, the connection fails with the
    no-device error, respectively the index-out-of-range error, and
    enumeration has been the only native call: no handle is created and no
    device opened. *)
Theorem connect_without_device_opens_nothing (st : State) :
  let c := MV_CC_EnumDevices enum_tlayerType in
  let devices := deviceList_of drv (trace (proc st)) in
  let idx := HikCameraConfig.camera_index (config_of st) in
  status_of drv (trace (proc st)) c = 0 ->
  Z.of_nat (length devices) <= idx ->
  _auto_connect drv st
  = (Raise (HikCameraError
              (if (length devices =? 0)%nat then NoDeviceFound
               else IndexOutOfRange idx (length devices))),
     on_proc (log_event (c, 0)) st).
Proof.
  cbv zeta. intros Hr Hidx.
  destruct st as [p [cam cfg running info pt payload]].
  unfold config_of in *. cbn [proc self _config trace] in *.
  unfold _auto_connect. unfold_monad. reduce_state.
  change (Z.lor (Z.lor (Z.lor (Z.lor MV_GIGE_DEVICE MV_USB_DEVICE)
                         MV_GENTL_CAMERALINK_DEVICE) MV_GENTL_CXP_DEVICE)
            MV_GENTL_XOF_DEVICE) with enum_tlayerType.
  rewrite Hr. cbn [Z.eqb negb]. reduce_state.
  destruct (length (deviceList_of drv (trace p)) =? 0)%nat; [reflexivity |].
  reduce_state.
  destruct (Z.leb_spec (Z.of_nat (length (deviceList_of drv (trace p))))
              (HikCameraConfig.camera_index cfg)); [reflexivity | lia].
Qed.

(** X19.  A connection that succeeds leaves the handle created and not
    destroyed, has stored the record of the device the configured index
    selects and the payload size the device reported, and has changed
    neither the config nor the streaming flag.  Its last native calls are
    the trigger configuration of the configured mode (mode on and source
    software for "trigger", mode off otherwise) followed by the
    payload-size query. *)
Theorem connect_success_state (st : State) :
  _cam (self st) <> None ->
  fst (_auto_connect drv st) = Ok tt ->
  let st' := snd (_auto_connect drv st) in
  (exists dev, selected_device drv st = Some dev /\
               _device_info (self st') = Some (get_device_info dev)) /\
  handle_live (trace (proc st')) = true /\
  _config (self st') = _config (self st) /\
  _is_running (self st') = _is_running (self st) /\
  _cam (self st') = _cam (self st) /\
  exists h r1 r2,
    trace (proc st')
    = h ++ trigger_setup (HikCameraConfig.trigger_mode (config_of st)) r1 r2
        ++ [(MV_CC_GetIntValue "PayloadSize", 0)] /\
    _nPayloadSize (self st')
    = nCurValue_of drv
        (h ++ trigger_setup (HikCameraConfig.trigger_mode (config_of st)) r1 r2)
        "PayloadSize".
Proof.
  intros Hcam. open_session st Hcam. cbv zeta.
  unfold _auto_connect, selected_device, config_of.
  unfold_monad. reduce_state.
  repeat branch; intros Hok; try discriminate Hok.
  all: refine (conj _ (conj _ (conj _ (conj _ (conj _ _))))); try reflexivity.
  all: try (eexists; split; reflexivity).
  all: try (unfold handle_live; rewrite !foldl_app;
            cbn [foldl handle_step fst snd]; use_tests; reflexivity).
  all: apply payload_query_tail;
    [assumption | first [apply trigger_on_tail | apply trigger_off_tail]; assumption].
Qed.

(** X20.  Only a GigE device is asked for its optimal packet size, and a
    packet size is written only if it is positive: on any other transport
    the connection makes no packet-size call at all. *)
Theorem packet_size_only_for_gige (st : State) :
  exists evs,
    trace (proc (snd (_auto_connect drv st))) = trace (proc st) ++ evs /\
    Forall positive_packet_size evs /\
    (forall dev, selected_device drv st = Some dev ->
                 nTLayerType dev <> MV_GIGE_DEVICE ->
                 Forall (fun ev => is_packet_size_call ev = false) evs).
Proof.
  destruct st as [p [[cam |] cfg running info pt payload]];
    unfold _auto_connect, selected_device; unfold_monad; reduce_state;
    repeat branch.
  all: eexists; (split; [solve_trace |]); cbn [app].
  all: split;
    [ repeat constructor; unfold positive_packet_size; cbn [fst];
      try exact I; try discriminate; intros _;
      match goal with H : (0 <? _) = true |- _ => apply Z.ltb_lt in H; exact H end
    | intros dev Hdev Hgige;
      try discriminate Hdev;
      try (inversion Hdev; subst;
           match goal with
           | H : (nTLayerType _ =? MV_GIGE_DEVICE) = true |- _ =>
               apply Z.eqb_eq in H; contradiction
           end);
      repeat constructor ].
Qed.

(** X21.  The constructor and the reference count.  If the SDK is not yet
    initialized and the native initializer fails, the constructor raises
    with that status and changes nothing but the trace.  In every other
    case it leaves the SDK marked initialized and the count one higher,
    also when it then raises because the config is invalid or the
    connection fails; and if the SDK was already initialized it does not
    call the initializer again. *)
Theorem constructor_reference_count
    (camera_index : Z) (mode : string) (config : option HikCameraConfig.t)
    (p : Process) :
  let r := status_of drv (trace p) MV_CC_Initialize in
  let out := __init__ drv camera_index mode config p in
  (_SDK_INITIALIZED p = false -> r <> 0 ->
   out = (Raise (HikCameraError (SdkInitFailed r)), log_event (MV_CC_Initialize, r) p)) /\
  (_SDK_INITIALIZED p = true \/ r = 0 ->
   _SDK_INITIALIZED (snd out) = true /\
   _SDK_INIT_COUNT (snd out) = _SDK_INIT_COUNT p + 1) /\
  (_SDK_INITIALIZED p = true ->
   count_events is_Initialize (trace (snd out)) = count_events is_Initialize (trace p)).
Proof.
  cbv zeta.
  assert (Hview : forall s,
             initialized (sdk_view (proc (snd (_auto_connect drv s))))
             = initialized (sdk_view (proc s)) /\
             init_count (sdk_view (proc (snd (_auto_connect drv s))))
             = init_count (sdk_view (proc s)) /\
             initialize_calls (sdk_view (proc (snd (_auto_connect drv s))))
             = initialize_calls (sdk_view (proc s))).
  { intros s. rewrite auto_connect_view. repeat split. }
  unfold sdk_view in Hview.
  cbn [initialized init_count initialize_calls] in Hview.
  unfold __init__. unfold_monad. reduce_state.
  destruct (_SDK_INITIALIZED p) eqn:Hinit; reduce_state.
  - refine (conj _ (conj _ _)); [intros Hf; discriminate Hf | intros _ | intros _];
      destruct config as [c |]; reduce_state;
      repeat match goal with
        | |- context [HikCameraConfig.new ?a ?b ?c ?d ?e ?f ?g ?h] =>
            destruct (HikCameraConfig.new a b c d e f g h); reduce_state
        | |- context [_auto_connect drv ?s] =>
            destruct (Hview s) as (Hi & Hc & Hn);
            destruct (_auto_connect drv s) as [[u | e] st']; reduce_state
        end;
      rewrite ?Hi, ?Hc, ?Hn; reduce_state; auto.
  - refine (conj _ (conj _ _)); [intros _ Hr | intros [Hf | Hr] | intros Hf];
      try discriminate Hf.
    + apply Z.eqb_neq in Hr. rewrite Hr. reflexivity.
    + rewrite Hr. cbn [Z.eqb negb]. reduce_state.
      destruct config as [c |]; reduce_state;
      repeat match goal with
        | |- context [HikCameraConfig.new ?a ?b ?c ?d ?e ?f ?g ?h] =>
            destruct (HikCameraConfig.new a b c d e f g h); reduce_state
        | |- context [_auto_connect drv ?s] =>
            destruct (Hview s) as (Hi & Hc & Hn);
            destruct (_auto_connect drv s) as [[u | e] st']; reduce_state
        end;
      rewrite ?Hi, ?Hc, ?Hn; reduce_state; auto.
Qed.
End Connection.

Lemma connect_without_device_opens_nothing_witness :
  let st := {| proc := fresh_process; self := new_camera HikCameraConfig.default |} in
  _auto_connect no_device st
  = (Raise (HikCameraError NoDeviceFound),
     on_proc (log_event (MV_CC_EnumDevices enum_tlayerType, 0)) st).
Proof.
  apply (connect_without_device_opens_nothing no_device
           {| proc := fresh_process; self := new_camera HikCameraConfig.default |}).
  - reflexivity.
  - vm_compute. discriminate.
Defined.

Lemma connect_success_state_witness :
  let st := {| proc := fresh_process; self := new_camera HikCameraConfig.default |} in
  handle_live (trace (proc (snd (_auto_connect gige_device st)))) = true.
Proof.
  pose proof (connect_success_state gige_device
                {| proc := fresh_process; self := new_camera HikCameraConfig.default |}
                ltac:(simpl; discriminate)
                ltac:(vm_compute; reflexivity)) as (_ & Hlive & _).
  exact Hlive.
Defined.

Lemma packet_size_only_for_gige_witness :
  let st := {| proc := fresh_process; self := new_camera HikCameraConfig.default |} in
  exists evs,
    trace (proc (snd (_auto_connect healthy_device st))) = trace (proc st) ++ evs /\
    Forall (fun ev => is_packet_size_call ev = false) evs.
Proof.
  destruct (packet_size_only_for_gige healthy_device
              {| proc := fresh_process; self := new_camera HikCameraConfig.default |})
    as (evs & Htrace & _ & Hnone).
  exists evs. split; [exact Htrace |].
  apply (Hnone usb_camera); [reflexivity | vm_compute; discriminate].
Defined.

Lemma constructor_reference_count_witness :
  let out := __init__ no_device 0 "continuous" None fresh_process in
  _SDK_INITIALIZED (snd out) = true /\ _SDK_INIT_COUNT (snd out) = 1.
Proof.
  apply (proj1 (proj2 (constructor_reference_count no_device 0 "continuous" None
                          fresh_process))).
  right. reflexivity.
Defined.

(** ** Parameter update, continued *)

Section ParameterUpdate.
Variable drv : Driver.

(** X22.  [set_params] applies the supplied fields in order and stops at
    the first failure without undoing what it has applied.  If the width
    write fails, the call is the width setter and nothing more.  If the
    width write succeeds and the height write fails, the call raises the
    height error, exactly two native writes have been made, width and
    height are both changed in the cached config, and no later field has
    been touched. *)
Theorem set_params_stops_without_rollback
    (st : State) (w h : Z) (e : option Z) (g f : option Q) (tm : option string)
    (ox oy : option Z) :
  _cam (self st) <> None ->
  let cw := MV_CC_SetIntValue "Width" w in
  let rw := status_of drv (trace (proc st)) cw in
  let ch := MV_CC_SetIntValue "Height" h in
  let rh := status_of drv (trace (proc st) ++ [(cw, rw)]) ch in
  (rw <> 0 ->
   set_params drv (Some w) (Some h) e g f tm ox oy st = width_setter drv w st) /\
  (rw = 0 -> rh <> 0 ->
   set_params drv (Some w) (Some h) e g f tm ox oy st
   = (Raise (HikCameraError (SetValueFailed "Height" rh)),
      on_proc (log_event (ch, rh))
        (on_proc (log_event (cw, rw))
           (on_self (fun c => set_config
                                (HikCameraConfig.set_height h
                                   (HikCameraConfig.set_width w (_config c))) c)
                    st)))).
Proof.
  intros Hcam. open_session st Hcam. cbv zeta. reduce_state.
  split.
  - intros Hrw. apply Z.eqb_neq in Hrw.
    unfold set_params, width_setter. unfold_monad. reduce_state.
    rewrite Hrw. reflexivity.
  - intros Hrw Hrh. apply Z.eqb_neq in Hrh.
    unfold set_params, width_setter, height_setter. unfold_monad. reduce_state.
    rewrite Hrw in *. cbn [Z.eqb negb]. reduce_state.
    rewrite Hrh. reflexivity.
Qed.

(** X23.  A gain failure does not stop [set_params]: with gain and fps
    supplied and both gain writes rejected, the fps write is still made
    after the warning, and the outcome of the call is that of the fps
    write. *)
Theorem set_params_continues_after_gain_failure (st : State) (g f : Q) :
  _cam (self st) <> None ->
  let c1 := MV_CC_SetFloatValue "Gain" g in
  let r1 := status_of drv (trace (proc st)) c1 in
  let c2 := MV_CC_SetFloatValue "AnalogGain" g in
  let r2 := status_of drv (trace (proc st) ++ [(c1, r1)]) c2 in
  let c3 := MV_CC_SetFloatValue "AcquisitionFrameRate" f in
  let r3 := status_of drv (trace (proc st) ++ [(c1, r1); (c2, r2)]) c3 in
  let out := set_params drv None None None (Some g) (Some f) None None None st in
  r1 <> 0 -> r2 <> 0 ->
  trace (proc (snd out)) = trace (proc st) ++ [(c1, r1); (c2, r2); (c3, r3)] /\
  stdout (proc (snd out)) = stdout (proc st) ++ [GainWarning r2] /\
  fst out = (if r3 =? 0 then Ok tt
             else Raise (HikCameraError (SetValueFailed "AcquisitionFrameRate" r3))) /\
  HikCameraConfig.gain (config_of (snd out)) = g /\
  HikCameraConfig.fps (config_of (snd out)) = int_of_float f.
Proof.
  intros Hcam. open_session st Hcam. cbv zeta. reduce_state.
  intros Hr1 Hr2. apply Z.eqb_neq in Hr1, Hr2.
  unfold set_params, gain_setter, fps_setter. unfold_monad. reduce_state.
  rewrite Hr1. reduce_state. rewrite Hr2. reduce_state.
  rewrite <- !app_assoc. cbn [app].
  destruct (status_of drv _ (MV_CC_SetFloatValue "AcquisitionFrameRate" f) =? 0);
    reduce_state; rewrite <- ?app_assoc; repeat apply conj; reflexivity.
Qed.

(** X24.  The trigger-mode field of [set_params].  A mode other than
    "continuous" and "trigger" is refused before anything is changed or
    written.  A valid mode is stored in the config and written to the
    device as at connection time (mode on and source software for
    "trigger", mode off otherwise); the statuses of these writes are
    ignored, so the call returns normally. *)
Theorem set_params_trigger_mode (st : State) (mode : string) :
  let out := set_params drv None None None None None (Some mode) None None st in
  (mode <> "continuous" -> mode <> "trigger" ->
   out = (Raise (HikCameraError (InvalidTriggerMode mode)), st)) /\
  (mode = "continuous" \/ mode = "trigger" ->
   _cam (self st) <> None ->
   fst out = Ok tt /\
   HikCameraConfig.trigger_mode (config_of (snd out)) = mode /\
   exists r1 r2,
     trace (proc (snd out)) = trace (proc st) ++ trigger_setup mode r1 r2).
Proof.
  cbv zeta. split.
  - intros H1 H2. unfold set_params. unfold_monad.
    rewrite bool_decide_eq_false_2 by tauto. reflexivity.
  - intros Hmode Hcam. open_session st Hcam.
    unfold set_params, trigger_setup. unfold_monad. reduce_state.
    rewrite (bool_decide_eq_true_2 _ Hmode). reduce_state.
    destruct (bool_decide (mode = "trigger")); reduce_state;
      (split; [reflexivity | split; [reflexivity |]]).
    + eexists; eexists. symmetry. apply (app_assoc _ [_] [_]).
    + eexists; exists 0. reflexivity.
Qed.
End ParameterUpdate.

Lemma set_params_stops_without_rollback_witness :
  let drv := device_failing (fun c => match c with
                                      | MV_CC_SetIntValue key _ =>
                                          bool_decide (key = "Height")
                                      | _ => false
                                      end) in
  let st := connected_state "continuous" in
  let out := set_params drv (Some 640) (Some 480) (Some 5000) None None None None None st in
  fst out = Raise (HikCameraError (SetValueFailed "Height" MV_E_PARAMETER)) /\
  HikCameraConfig.width (config_of (snd out)) = 640 /\
  HikCameraConfig.exposure (config_of (snd out)) = 10000.
Proof.
  pose proof (proj2 (set_params_stops_without_rollback
                (device_failing (fun c => match c with
                                          | MV_CC_SetIntValue key _ =>
                                              bool_decide (key = "Height")
                                          | _ => false
                                          end))
                (connected_state "continuous") 640 480 (Some 5000) None None None None None
                ltac:(simpl; discriminate))
              ltac:(reflexivity) ltac:(vm_compute; discriminate)) as Heq.
  cbv zeta. rewrite Heq. repeat apply conj; reflexivity.
Defined.

Lemma set_params_continues_after_gain_failure_witness :
  let drv := device_failing (fun c => match c with
                                      | MV_CC_SetFloatValue key _ =>
                                          negb (bool_decide (key = "AcquisitionFrameRate"))
                                      | _ => false
                                      end) in
  let st := connected_state "continuous" in
  let out := set_params drv None None None (Some (inject_Z 5)) (Some (inject_Z 20))
               None None None st in
  fst out = Ok tt /\ stdout (proc (snd out)) = [GainWarning MV_E_PARAMETER].
Proof.
  pose proof (set_params_continues_after_gain_failure
                (device_failing (fun c => match c with
                                          | MV_CC_SetFloatValue key _ =>
                                              negb (bool_decide (key = "AcquisitionFrameRate"))
                                          | _ => false
                                          end))
                (connected_state "continuous") (inject_Z 5) (inject_Z 20)
                ltac:(simpl; discriminate)
                ltac:(vm_compute; discriminate)
                ltac:(vm_compute; discriminate)) as (_ & Hout & Hres & _).
  split; [exact Hres | exact Hout].
Defined.

Lemma set_params_trigger_mode_witness :
  let st := connected_state "continuous" in
  set_params healthy_device None None None None None (Some "software") None None st
  = (Raise (HikCameraError (InvalidTriggerMode "software")), st).
Proof.
  apply (proj1 (set_params_trigger_mode healthy_device (connected_state "continuous")
                  "software")); discriminate.
Defined.

(** ** Property getters *)

Section Getters.
Variable drv : Driver.

(** X25.  The exposure getter asks for the float node first and for the
    integer node only if that fails.  It returns the float value truncated
    to an integer, or the integer value; if both queries fail it raises
    with the status of the integer query.  [_get_exposure], which
    [get_params] uses, makes the same queries but reports 0 instead of
    raising. *)
Theorem exposure_getter_fallback (st : State) :
  _cam (self st) <> None ->
  let h := trace (proc st) in
  let c1 := MV_CC_GetFloatValue "ExposureTime" in
  let r1 := status_of drv h c1 in
  let c2 := MV_CC_GetIntValue "ExposureTime" in
  let r2 := status_of drv (h ++ [(c1, r1)]) c2 in
  let st1 := on_proc (log_event (c1, r1)) st in
  let st2 := on_proc (log_event (c2, r2)) st1 in
  (r1 = 0 ->
   exposure drv st = (Ok (int_of_float (fCurValue_of drv h "ExposureTime")), st1) /\
   _get_exposure drv st = (Ok (fCurValue_of drv h "ExposureTime"), st1)) /\
  (r1 <> 0 -> r2 = 0 ->
   exposure drv st = (Ok (nCurValue_of drv (h ++ [(c1, r1)]) "ExposureTime"), st2) /\
   _get_exposure drv st
   = (Ok (inject_Z (nCurValue_of drv (h ++ [(c1, r1)]) "ExposureTime")), st2)) /\
  (r1 <> 0 -> r2 <> 0 ->
   exposure drv st
   = (Raise (HikCameraError (GetValueFailed "ExposureTime" r2)), st2) /\
   _get_exposure drv st = (Ok (inject_Z 0), st2)).
Proof.
  intros Hcam. open_session st Hcam. cbv zeta. reduce_state.
  unfold exposure, _get_exposure. unfold_monad. reduce_state.
  repeat apply conj.
  - intros Hr1. rewrite Hr1. split; reflexivity.
  - intros Hr1 Hr2. apply Z.eqb_neq in Hr1. rewrite Hr1. reduce_state.
    rewrite Hr2. split; reflexivity.
  - intros Hr1 Hr2. apply Z.eqb_neq in Hr1, Hr2. rewrite Hr1. reduce_state.
    rewrite Hr2. split; reflexivity.
Qed.
End Getters.

Lemma exposure_getter_fallback_witness :
  let drv := device_failing (fun c => match c with
                                      | MV_CC_GetFloatValue _ => true
                                      | _ => false
                                      end) in
  fst (exposure drv (connected_state "continuous")) = Ok 640.
Proof.
  pose proof (proj1 (proj2 (exposure_getter_fallback
                (device_failing (fun c => match c with
                                          | MV_CC_GetFloatValue _ => true
                                          | _ => false
                                          end))
                (connected_state "continuous")
                ltac:(simpl; discriminate)))
              ltac:(vm_compute; discriminate) ltac:(reflexivity)) as [Heq _].
  cbv zeta. rewrite Heq. reflexivity.
Defined.

(** ** Enumeration *)

(** X26.  [enumerate_devices] makes one native call.  If it fails, the
    function raises [RuntimeError] with the status.  Otherwise it returns
    one record per enumerated device, in the driver's order, the record at
    position [i] being the extracted device record with its index set to
    [i]. *)
Theorem enumerate_devices_indexed (drv : Driver) (p : Process) :
  let c := MV_CC_EnumDevices enum_tlayerType in
  let r := status_of drv (trace p) c in
  let deviceList := deviceList_of drv (trace p) in
  snd (enumerate_devices drv p) = log_event (c, r) p /\
  (r <> 0 -> fst (enumerate_devices drv p) = RuntimeError r) /\
  (r = 0 ->
   exists devices,
     fst (enumerate_devices drv p) = Devices devices /\
     length devices = length deviceList /\
     forall i, devices !! i
               = (fun d => set_info_index (Z.of_nat i) (get_device_info d))
                   <$> deviceList !! i).
Proof.
  cbv zeta. unfold enumerate_devices.
  destruct (Z.eqb_spec (status_of drv (trace p) (MV_CC_EnumDevices enum_tlayerType)) 0)
    as [Hr | Hr]; cbn [negb fst snd].
  - repeat apply conj; [reflexivity | intros Hn; contradiction | intros _].
    eexists. split; [reflexivity |]. split.
    + apply length_imap.
    + intros i. apply list_lookup_imap.
  - repeat apply conj; [reflexivity | intros _; reflexivity | intros Hn; contradiction].
Qed.

Lemma enumerate_devices_indexed_witness :
  fst (enumerate_devices gige_device fresh_process)
  = Devices [set_info_index 0 (get_device_info gige_camera)].
Proof.
  destruct (proj2 (proj2 (enumerate_devices_indexed gige_device fresh_process))
              eq_refl) as (devices & Heq & Hlen & Hidx).
  rewrite Heq. f_equal.
  destruct devices as [| d [| d' rest]]; try discriminate Hlen.
  specialize (Hidx 0%nat). cbn in Hidx. inversion Hidx. reflexivity.
Defined.

(** ** The SDK lifecycle guard, continued *)

Lemma native_scan_snoc (t : list Event) (ev : Event) :
  native_scan (t ++ [ev]) = native_step (native_scan t) ev.
Proof. unfold native_scan. rewrite foldl_app. reflexivity. Qed.

(** Once a second initialization has been seen, it stays seen. *)
Lemma native_scan_ok_inv (t : list Event) : forall s,
  snd (foldl native_step s t) = true -> snd s = true.
Proof.
  induction t as [| ev t IH]; intros s Hok; [exact Hok |].
  cbn [foldl] in Hok. apply IH in Hok. unfold native_step in Hok.
  destruct (is_successful_Initialize ev); [| destruct (is_Finalize ev)];
    cbn [snd] in Hok; [| exact Hok | exact Hok].
  apply andb_true_iff in Hok. exact (proj1 Hok).
Qed.

Lemma finalize_after_initialize (mid : list Event) : forall ok e2 rest,
  snd (foldl native_step (true, ok) (mid ++ e2 :: rest)) = true ->
  is_successful_Initialize e2 = true ->
  Exists (fun ev => is_Finalize ev = true) mid.
Proof.
  induction mid as [| ev mid IH]; intros ok e2 rest Hok He2.
  - exfalso. cbn [app foldl] in Hok. apply native_scan_ok_inv in Hok.
    unfold native_step in Hok. rewrite He2 in Hok. cbn [fst snd negb] in Hok.
    rewrite andb_false_r in Hok. discriminate Hok.
  - cbn [app foldl] in Hok. unfold native_step at 2 in Hok.
    destruct (is_successful_Initialize ev).
    + apply Exists_cons_tl. exact (IH _ e2 rest Hok He2).
    + destruct (is_Finalize ev) eqn:Hfin.
      * apply Exists_cons_hd. exact Hfin.
      * apply Exists_cons_tl. exact (IH _ e2 rest Hok He2).
Qed.

Lemma native_scan_alternates (t : list Event) :
  snd (native_scan t) = true -> finalize_between_initializations t.
Proof.
  intros Hok h e1 mid e2 rest -> He1 He2.
  unfold native_scan in Hok. rewrite foldl_app in Hok. cbn [foldl] in Hok.
  unfold native_step at 2 in Hok. rewrite He1 in Hok.
  exact (finalize_after_initialize mid _ e2 rest Hok He2).
Qed.

Ltac guard_of_trace :=
  reduce_state;
  rewrite ?count_events_snoc, ?native_scan_snoc;
  cbn [native_step is_successful_Initialize is_Finalize fst snd];
  rewrite ?Nat.add_0_r.

Section GuardInvariant.
Variable drv : Driver.

Lemma start_guard_neutral : guard_neutral (start drv).
Proof.
  intros [p [[cam |] cfg running info pt payload]];
    unfold start; unfold_monad; reduce_state; repeat branch;
    guard_of_trace; repeat split.
Qed.

Lemma stop_guard_neutral : guard_neutral (stop drv).
Proof.
  intros [p [[cam |] cfg running info pt payload]];
    unfold stop; unfold_monad; reduce_state; repeat branch;
    guard_of_trace; repeat split.
Qed.

Lemma auto_connect_guard_neutral : guard_neutral (_auto_connect drv).
Proof.
  intros [p [[cam |] cfg running info pt payload]];
    unfold _auto_connect; unfold_monad; reduce_state; repeat branch;
    guard_of_trace; repeat split.
Qed.

Lemma guard_neutral_invariant m st :
  guard_neutral m ->
  guard_invariant (proc st) -> guard_invariant (proc (snd (m st))).
Proof.
  intros Hm. unfold guard_invariant.
  destruct (Hm st) as (-> & -> & -> & ->). trivial.
Qed.

Lemma close_guard_invariant st :
  guard_invariant (proc st) -> guard_invariant (proc (snd (close drv st))).
Proof.
  destruct st as [p [[cam |] cfg running info pt payload]];
    unfold guard_invariant, close, stop; unfold_monad; reduce_state;
    repeat branch; guard_of_trace;
    intros (Hle & Hok & Hlive).
  all: refine (conj _ (conj _ _)).
  all: try (destruct (_SDK_INITIALIZED p); lia).
  all: try exact Hok.
  all: try exact Hlive.
  all: intros _; reflexivity.
Qed.

Lemma init_guard_invariant camera_index mode config p :
  guard_invariant p ->
  guard_invariant (snd (__init__ drv camera_index mode config p)).
Proof.
  unfold __init__. unfold_monad. reduce_state.
  intros Hinv.
  repeat branch.
  all: repeat match goal with
       | |- context [HikCameraConfig.new ?a ?b ?c ?d ?e ?f ?g ?h] =>
           destruct (HikCameraConfig.new a b c d e f g h); reduce_state
       end.
  all: repeat match goal with
       | |- context [_auto_connect drv ?s] =>
           pose proof (auto_connect_guard_neutral s) as (Hi & Hs & Hf & Hn);
           destruct (_auto_connect drv s) as [[u | e] st']; reduce_state
       end.
  all: unfold guard_invariant in *; reduce_state;
       rewrite ?Hi, ?Hs, ?Hf, ?Hn; guard_of_trace;
       unfold native_step; cbn [is_successful_Initialize is_Finalize fst snd];
       use_tests;
       destruct Hinv as (Hle & Hok & Hlive).
  all: try match goal with
           | H : _SDK_INITIALIZED _ = false |- _ =>
               rewrite ?(Hlive H); rewrite H in Hle
           | H : _SDK_INITIALIZED _ = true |- _ => rewrite H in Hle
           end.
  all: cbn [fst snd negb andb].
  all: refine (conj _ (conj _ _)).
  all: try lia.
  all: try exact Hok.
  all: try exact Hlive.
  all: try (rewrite Hok; reflexivity).
  all: try (intros Hf'; discriminate Hf').
  all: reflexivity.
Qed.

Lemma exec_guard_invariant op sys :
  guard_invariant (process sys) ->
  guard_invariant (process (snd (exec drv op sys))).
Proof.
  intros Hinv.
  destruct op as [camera_index mode config | i | i | i]; unfold exec, on_object.
  - pose proof (init_guard_invariant camera_index mode config (process sys) Hinv) as H.
    destruct (__init__ drv camera_index mode config (process sys)) as [[obj | e] p'];
      exact H.
  - destruct (objects sys !! i) as [obj |]; [| exact Hinv].
    pose proof (guard_neutral_invariant (start drv)
                  {| proc := process sys; self := obj |} start_guard_neutral Hinv) as H.
    destruct (start drv _) as [r st']. exact H.
  - destruct (objects sys !! i) as [obj |]; [| exact Hinv].
    pose proof (guard_neutral_invariant (stop drv)
                  {| proc := process sys; self := obj |} stop_guard_neutral Hinv) as H.
    destruct (stop drv _) as [r st']. exact H.
  - destruct (objects sys !! i) as [obj |]; [| exact Hinv].
    pose proof (close_guard_invariant {| proc := process sys; self := obj |} Hinv) as H.
    destruct (close drv _) as [r st']. exact H.
Qed.

Lemma run_guard_invariant (prog : list Op) : forall sys : System,
  guard_invariant (process sys) ->
  guard_invariant (process (snd (run drv prog sys))).
Proof.
  induction prog as [| op rest IH]; intros sys Hinv.
  - exact Hinv.
  - cbn [run]. unfold bind.
    pose proof (exec_guard_invariant op sys Hinv) as Hstep.
    destruct (exec drv op sys) as [[[] | e] sys1]; cbn [snd] in *.
    + apply IH. exact Hstep.
    + exact Hstep.
Qed.

(** X27.  The SDK is never initialized twice without a finalize in
    between.  Whatever sessions a program creates, starts, stops and
    closes, in whatever order, however often, and whether or not an
    operation raises: between any two successful [MV_CC_Initialize] calls
    of the resulting trace there is an [MV_CC_Finalize] call; the
    successful initializations outnumber the finalizations by at most one,
    and by none while the module-level flag says the SDK is not
    initialized. *)
Theorem sdk_never_initialized_twice (prog : list Op) (sys : System) :
  guard_invariant (process sys) ->
  let p' := process (snd (run drv prog sys)) in
  finalize_between_initializations (trace p') /\
  (count_events is_successful_Initialize (trace p')
   <= count_events is_Finalize (trace p')
      + (if _SDK_INITIALIZED p' then 1 else 0))%nat.
Proof.
  intros Hinv. cbv zeta.
  destruct (run_guard_invariant prog sys Hinv) as (Hle & Hok & _).
  split; [exact (native_scan_alternates _ Hok) | exact Hle].
Qed.
End GuardInvariant.

(** The order matters: a trace that initializes, finalizes twice and then
    initializes twice keeps the counts in balance, and is not a trace any
    program can produce. *)
Lemma balanced_counts_do_not_alternate :
  let t := [(MV_CC_Initialize, 0); (MV_CC_Finalize, 0); (MV_CC_Finalize, 0);
            (MV_CC_Initialize, 0); (MV_CC_Initialize, 0)] in
  (count_events is_successful_Initialize t <= count_events is_Finalize t + 1)%nat /\
  snd (native_scan t) = false /\
  ~ finalize_between_initializations t.
Proof.
  cbv zeta. refine (conj _ (conj eq_refl _)); [vm_compute; lia |].
  intros Halt.
  specialize (Halt [(MV_CC_Initialize, 0); (MV_CC_Finalize, 0); (MV_CC_Finalize, 0)]
                   (MV_CC_Initialize, 0) [] (MV_CC_Initialize, 0) []
                   eq_refl eq_refl eq_refl).
  inversion Halt.
Qed.

Lemma sdk_never_initialized_twice_witness :
  let p' := process (snd (run healthy_device
                            [New 0 "continuous" None; Close 0; Close 0;
                             New 0 "trigger" None; New 5 "trigger" None; Start 1]
                            fresh_system)) in
  finalize_between_initializations (trace p') /\
  (count_events is_successful_Initialize (trace p')
   <= count_events is_Finalize (trace p')
      + (if _SDK_INITIALIZED p' then 1 else 0))%nat.
Proof.
  apply (sdk_never_initialized_twice healthy_device
           [New 0 "continuous" None; Close 0; Close 0;
            New 0 "trigger" None; New 5 "trigger" None; Start 1]
           fresh_system).
  unfold guard_invariant. vm_compute.
  refine (conj _ (conj eq_refl (fun _ => eq_refl))). lia.
Defined.

(** ** Context manager and destructor *)

Section ContextManager.
Variable drv : Driver.

Lemma close_Ok_closed st :
  fst (close drv st) = Ok tt -> closed_session (snd (close drv st)).
Proof.
  destruct st as [p [[cam |] cfg [|] info pt payload]];
    unfold close, stop, closed_session; unfold_monad; reduce_state;
    repeat branch; intros Hok; try discriminate Hok; split; reflexivity.
Qed.

(** X28.  A [with] block never swallows an exception.  When the closing
    [close] returns normally, the block yields the body's value or raises
    the body's exception, and the session is closed in either case.  When
    [close] itself raises, that exception is what the block raises, also if
    the body had raised another one. *)
Theorem with_block_propagates {A} (body : M State A) (st : State) :
  let r := fst (body st) in
  let st1 := snd (body st) in
  (fst (close drv st1) = Ok tt ->
   fst (with_block drv body st)
   = match r with Ok a => Ok (Some a) | Raise e => Raise e end /\
   closed_session (snd (with_block drv body st))) /\
  (forall e, fst (close drv st1) = Raise e ->
             fst (with_block drv body st) = Raise e) /\
  snd (with_block drv body st) = snd (close drv st1).
Proof.
  cbv zeta. unfold with_block, __enter__, __exit__, bind, pure.
  pose proof (close_Ok_closed (snd (body st))) as Hclosed.
  destruct (body st) as [r st1]. cbn [fst snd] in *.
  destruct (close drv st1) as [[[] | e'] st2]; cbn [fst snd] in *.
  - refine (conj _ (conj _ _)); [intros _ | intros e He; discriminate He | ].
    + destruct r; (split; [reflexivity | apply Hclosed; reflexivity]).
    + destruct r; reflexivity.
  - refine (conj _ (conj _ _)); [intros He; discriminate He | | reflexivity].
    intros e He. inversion He. reflexivity.
Qed.

(** X29.  The destructor never raises, and what it does is what [close]
    does.  So when the session is streaming and the device rejects the
    stop, the destructor returns silently having released nothing: the
    session is still streaming, the handle has not been touched and the
    reference count is unchanged. *)
Theorem destructor_is_silent (st : State) :
  fst (__del__ drv st) = Ok tt /\
  snd (__del__ drv st) = snd (close drv st) /\
  (_cam (self st) <> None ->
   _is_running (self st) = true ->
   forall r, status_of drv (trace (proc st)) MV_CC_StopGrabbing = r -> r <> 0 ->
   snd (__del__ drv st) = on_proc (log_event (MV_CC_StopGrabbing, r)) st).
Proof.
  unfold __del__, try_except_pass.
  refine (conj _ (conj _ _)).
  - destruct (close drv st); reflexivity.
  - destruct (close drv st); reflexivity.
  - intros Hcam Hrun r Hr Hne. open_session st Hcam.
    cbn [self _is_running proc trace] in *. subst running.
    unfold close, stop. unfold_monad. reduce_state.
    rewrite Hr. apply Z.eqb_neq in Hne. rewrite Hne. reflexivity.
Qed.
End ContextManager.

Lemma with_block_propagates_witness :
  let st := connected_state "continuous" in
  let body := start healthy_device ;; get_image healthy_device no_demosaicing None in
  (exists image, fst (with_block healthy_device body st) = Ok (Some image)) /\
  closed_session (snd (with_block healthy_device body st)).
Proof.
  pose proof (proj1 (with_block_propagates healthy_device
                (start healthy_device ;; get_image healthy_device no_demosaicing None)
                (connected_state "continuous"))
              ltac:(vm_compute; reflexivity)) as [Hres Hclosed].
  split; [| exact Hclosed].
  eexists. cbv zeta. rewrite Hres. vm_compute. reflexivity.
Defined.

Lemma destructor_is_silent_witness :
  let drv := device_failing is_StopGrabbing in
  let st := streaming_state "continuous" in
  snd (__del__ drv st) = on_proc (log_event (MV_CC_StopGrabbing, MV_E_PARAMETER)) st.
Proof.
  apply (proj2 (proj2 (destructor_is_silent (device_failing is_StopGrabbing)
                         (streaming_state "continuous")))).
  - simpl. discriminate.
  - reflexivity.
  - reflexivity.
  - vm_compute. discriminate.
Defined.

Lemma converter_only_records_pixel_type_witness :
  let f := zero_frame PixelType_Gvsp_YUV422_YUYV_Packed 2 2 8 in
  let st := streaming_state "continuous" in
  _pixel_type (self (snd (_convert_frame_to_bgr no_demosaicing f st)))
  = Some PixelType_Gvsp_YUV422_YUYV_Packed /\
  trace (proc (snd (_convert_frame_to_bgr no_demosaicing f st))) = [].
Proof.
  destruct (converter_only_records_pixel_type no_demosaicing
              (zero_frame PixelType_Gvsp_YUV422_YUYV_Packed 2 2 8)
              (streaming_state "continuous")
              ltac:(simpl; discriminate)) as (_ & Htrace & Htype).
  split; [exact Htype | exact Htrace].
Defined.

Lemma unsupported_format_refused_witness :
  fst (_convert_frame_to_bgr no_demosaicing
         (zero_frame PixelType_Gvsp_YUV422_YUYV_Packed 2 2 8)
         (streaming_state "continuous"))
  = Raise (HikCameraError (UnsupportedPixelFormat "YUV422_YUYV_Packed")).
Proof.
  apply (proj1 (proj1 (unsupported_format_refused no_demosaicing
                         (zero_frame PixelType_Gvsp_YUV422_YUYV_Packed 2 2 8)
                         (streaming_state "continuous")
                         ltac:(simpl; discriminate)))).
  vm_compute. repeat split.
Defined.
